(** * Jacs: the automated Java compilation script

    A shallow embedding of [src/jacs.py] and
    [src/jacs_modules/compilation_options.py], and the properties of the
    file discovery, the options life cycle and the compile/run
    orchestration.

    Python [str] values are modelled as [string], in UTF-8; the interpreter's
    library functions the program calls ([str] methods, [os.path] in its
    POSIX flavour, [input], [print], [subprocess.run], [os.remove], [json])
    are modelled in the modules [Str], [Path] and [Os] below. *)

From Stdlib Require Import String Ascii List ZArith Lia Bool Arith.
From Stdlib Require Import DecimalString Permutation.
Import ListNotations.
Open Scope list_scope.
Open Scope string_scope.

(** ** Python [str] methods used by the program *)

Module Str.

(** [s.startswith(prefix)] *)
Fixpoint startswith (s prefix : string) {struct prefix} : bool :=
  match prefix, s with
  | EmptyString, _ => true
  | String _ _, EmptyString => false
  | String c prefix', String d s' => Ascii.eqb c d && startswith s' prefix'
  end.

(** [s.endswith(suffix)] *)
Fixpoint endswith (s suffix : string) : bool :=
  if String.eqb s suffix then true
  else match s with
       | EmptyString => false
       | String _ s' => endswith s' suffix
       end.

(** [s.replace(old, new)] for a one-character [old] *)
Fixpoint replace (s : string) (old : ascii) (new : string) : string :=
  match s with
  | EmptyString => EmptyString
  | String c s' =>
      if Ascii.eqb c old then new ++ replace s' old new
      else String c (replace s' old new)
  end.

(** [s.split(sep)] for a one-character [sep]: never the empty list *)
Fixpoint split (s : string) (sep : ascii) : list string :=
  match s with
  | EmptyString => [EmptyString]
  | String c s' =>
      if Ascii.eqb c sep then EmptyString :: split s' sep
      else match split s' sep with
           | piece :: pieces => String c piece :: pieces
           | [] => [String c EmptyString]
           end
  end.

(** [sep.join(pieces)] *)
Fixpoint join (sep : string) (pieces : list string) : string :=
  match pieces with
  | [] => EmptyString
  | [piece] => piece
  | piece :: pieces' => piece ++ sep ++ join sep pieces'
  end.

(** *** Characters

    A Python [str] is a sequence of Unicode code points.  It is held here
    as the [string] of its UTF-8 encoding, one [ascii] per byte.  An ASCII
    character is one byte and no byte of a longer sequence is an ASCII
    byte, so the methods above, which look for ASCII characters or compare
    strings, do on the bytes what Python does on the code points.  The
    methods below classify characters ([strip], [isdigit], [int]) and cut
    the string into its characters first.  The tables are those of
    Unicode 14.0, as CPython 3.11 has them. *)

Definition byte (b : ascii) : N := N_of_ascii b.

(** A continuation byte, [10xxxxxx]. *)
Definition trail (b : ascii) : bool := (128 <=? byte b)%N && (byte b <=? 191)%N.

Definition ord2 (b0 b1 : ascii) : N :=
  ((byte b0 - 192) * 64 + (byte b1 - 128))%N.

Definition ord3 (b0 b1 b2 : ascii) : N :=
  ((byte b0 - 224) * 4096 + (byte b1 - 128) * 64 + (byte b2 - 128))%N.

Definition ord4 (b0 b1 b2 b3 : ascii) : N :=
  ((byte b0 - 240) * 262144 + (byte b1 - 128) * 4096 + (byte b2 - 128) * 64
   + (byte b3 - 128))%N.

(** The well-formed sequences of two, three and four bytes: no overlong
    form, no surrogate, nothing above U+10FFFF. *)
Definition well2 (b0 b1 : ascii) : bool :=
  (194 <=? byte b0)%N && (byte b0 <=? 223)%N && trail b1.

Definition well3 (b0 b1 b2 : ascii) : bool :=
  (224 <=? byte b0)%N && (byte b0 <=? 239)%N && trail b1 && trail b2
  && (2048 <=? ord3 b0 b1 b2)%N
  && negb ((55296 <=? ord3 b0 b1 b2)%N && (ord3 b0 b1 b2 <=? 57343)%N).

Definition well4 (b0 b1 b2 b3 : ascii) : bool :=
  (240 <=? byte b0)%N && (byte b0 <=? 244)%N && trail b1 && trail b2 && trail b3
  && (65536 <=? ord4 b0 b1 b2 b3)%N && (ord4 b0 b1 b2 b3 <=? 1114111)%N.

(** [list(s)]: the characters of [s], each as the bytes that encode it.  A
    byte that begins no well-formed sequence stands alone; no [str] has
    one. *)
Fixpoint chars (s : string) : list string :=
  match s with
  | EmptyString => []
  | String b0 s1 =>
      match s1 with
      | EmptyString => [String b0 EmptyString]
      | String b1 s2 =>
          if well2 b0 b1 then String b0 (String b1 EmptyString) :: chars s2
          else
            match s2 with
            | EmptyString => String b0 EmptyString :: chars s1
            | String b2 s3 =>
                if well3 b0 b1 b2 then
                  String b0 (String b1 (String b2 EmptyString)) :: chars s3
                else
                  match s3 with
                  | EmptyString => String b0 EmptyString :: chars s1
                  | String b3 s4 =>
                      if well4 b0 b1 b2 b3 then
                        String b0 (String b1 (String b2 (String b3 EmptyString)))
                        :: chars s4
                      else String b0 EmptyString :: chars s1
                  end
            end
      end
  end.

(** [ord(c)] for one character of [chars].  A byte outside the ASCII range
    that stands alone is given the code point 0xDC00 + byte, which is no
    character (the surrogate escape of Python's codecs). *)
Definition ord (c : string) : N :=
  match c with
  | String b0 EmptyString =>
      if (byte b0 <? 128)%N then byte b0 else (56320 + byte b0)%N
  | String b0 (String b1 EmptyString) => ord2 b0 b1
  | String b0 (String b1 (String b2 EmptyString)) => ord3 b0 b1 b2
  | String b0 (String b1 (String b2 (String b3 EmptyString))) => ord4 b0 b1 b2 b3
  | _ => 0%N
  end.

(** [chr(cp)], in UTF-8, for a code point that is no surrogate *)
Definition chr (cp : N) : string :=
  let b (n : N) := ascii_of_N n in
  if (cp <? 128)%N then String (b cp) EmptyString
  else if (cp <? 2048)%N then
    String (b (192 + cp / 64)%N) (String (b (128 + cp mod 64)%N) EmptyString)
  else if (cp <? 65536)%N then
    String (b (224 + cp / 4096)%N)
      (String (b (128 + (cp / 64) mod 64)%N)
         (String (b (128 + cp mod 64)%N) EmptyString))
  else
    String (b (240 + cp / 262144)%N)
      (String (b (128 + (cp / 4096) mod 64)%N)
         (String (b (128 + (cp / 64) mod 64)%N)
            (String (b (128 + cp mod 64)%N) EmptyString))).

(** [ranges] holds the code point [cp]. *)
Definition within (ranges : list (N * N)) (cp : N) : bool :=
  existsb (fun range => (fst range <=? cp)%N && (cp <=? snd range)%N) ranges.

(** The white space of [str.isspace] and [str.strip]: the characters of
    bidirectional type WS, B or S, or of category Zs. *)
Definition space_ranges : list (N * N) :=
  [ (9, 13)%N; (28, 32)%N; (133, 133)%N; (160, 160)%N; (5760, 5760)%N;
    (8192, 8202)%N; (8232, 8233)%N; (8239, 8239)%N; (8287, 8287)%N;
    (12288, 12288)%N ].

(** The decimal digits (Numeric_Type=Decimal): every range is a run of
    digits 0 to 9 in order, some several times over. *)
Definition decimal_ranges : list (N * N) :=
  [ (48, 57)%N; (1632, 1641)%N; (1776, 1785)%N; (1984, 1993)%N;
    (2406, 2415)%N; (2534, 2543)%N; (2662, 2671)%N; (2790, 2799)%N;
    (2918, 2927)%N; (3046, 3055)%N; (3174, 3183)%N; (3302, 3311)%N;
    (3430, 3439)%N; (3558, 3567)%N; (3664, 3673)%N; (3792, 3801)%N;
    (3872, 3881)%N; (4160, 4169)%N; (4240, 4249)%N; (6112, 6121)%N;
    (6160, 6169)%N; (6470, 6479)%N; (6608, 6617)%N; (6784, 6793)%N;
    (6800, 6809)%N; (6992, 7001)%N; (7088, 7097)%N; (7232, 7241)%N;
    (7248, 7257)%N; (42528, 42537)%N; (43216, 43225)%N; (43264, 43273)%N;
    (43472, 43481)%N; (43504, 43513)%N; (43600, 43609)%N; (44016, 44025)%N;
    (65296, 65305)%N; (66720, 66729)%N; (68912, 68921)%N; (69734, 69743)%N;
    (69872, 69881)%N; (69942, 69951)%N; (70096, 70105)%N; (70384, 70393)%N;
    (70736, 70745)%N; (70864, 70873)%N; (71248, 71257)%N; (71360, 71369)%N;
    (71472, 71481)%N; (71904, 71913)%N; (72016, 72025)%N; (72784, 72793)%N;
    (73040, 73049)%N; (73120, 73129)%N; (92768, 92777)%N; (92864, 92873)%N;
    (93008, 93017)%N; (120782, 120831)%N; (123200, 123209)%N;
    (123632, 123641)%N; (125264, 125273)%N; (130032, 130041)%N ].

(** The other digits (Numeric_Type=Digit): superscripts, subscripts,
    circled digits and the like. *)
Definition digit_ranges : list (N * N) :=
  [ (178, 179)%N; (185, 185)%N; (4969, 4977)%N; (6618, 6618)%N;
    (8304, 8304)%N; (8308, 8313)%N; (8320, 8329)%N; (9312, 9320)%N;
    (9332, 9340)%N; (9352, 9360)%N; (9450, 9450)%N; (9461, 9469)%N;
    (9471, 9471)%N; (10102, 10110)%N; (10112, 10120)%N; (10122, 10130)%N;
    (68160, 68163)%N; (69216, 69224)%N; (69714, 69722)%N; (127232, 127242)%N ].

(** [c.isspace()] for one character *)
Definition isspace (c : string) : bool := within space_ranges (ord c).

Fixpoint drop_spaces (cs : list string) : list string :=
  match cs with
  | [] => []
  | c :: cs' => if isspace c then drop_spaces cs' else cs
  end.

(** [s.lstrip()], [s.rstrip()] and [s.strip()] *)
Definition lstrip (s : string) : string :=
  String.concat EmptyString (drop_spaces (chars s)).

Definition rstrip (s : string) : string :=
  String.concat EmptyString (rev (drop_spaces (rev (chars s)))).

Definition strip (s : string) : string :=
  String.concat EmptyString (rev (drop_spaces (rev (drop_spaces (chars s))))).

(** [c.isdecimal()] and [c.isdigit()] for one character *)
Definition is_decimal (c : string) : bool := within decimal_ranges (ord c).

Definition is_digit (c : string) : bool :=
  is_decimal c || within digit_ranges (ord c).

(** [s.isdigit()]: at least one character and every character a digit *)
Definition isdigit (s : string) : bool :=
  match chars s with
  | [] => false
  | cs => forallb is_digit cs
  end.

(** [unicodedata.decimal(c)]: the value of a decimal digit *)
Fixpoint decimal_in (ranges : list (N * N)) (cp : N) : option N :=
  match ranges with
  | [] => None
  | (lo, hi) :: ranges' =>
      if (lo <=? cp)%N && (cp <=? hi)%N then Some ((cp - lo) mod 10)%N
      else decimal_in ranges' cp
  end.

Definition decimal (c : string) : option N := decimal_in decimal_ranges (ord c).

Fixpoint int_from (acc : Z) (cs : list string) : option Z :=
  match cs with
  | [] => Some acc
  | c :: cs' =>
      match decimal c with
      | Some d => int_from (10 * acc + Z.of_N d) cs'
      | None => None
      end
  end.

(** [sys.get_int_max_str_digits()], by default *)
Definition int_max_str_digits : nat := 4300.

(** [int(s)] for an [s] with [s.isdigit()], the only strings the program
    converts; [None] is [ValueError].  [int] reads the decimal digits of
    every script; it raises on a digit that is not decimal (a superscript
    two is a digit for [isdigit]) and on more than 4300 digits. *)
Definition int (s : string) : option Z :=
  match chars s with
  | [] => None
  | cs =>
      if (length cs <=? int_max_str_digits)%nat then int_from 0 cs else None
  end.

Definition lower_char (c : ascii) : ascii :=
  let n := nat_of_ascii c in
  if (65 <=? n)%nat && (n <=? 90)%nat then ascii_of_nat (n + 32) else c.

(** [s.lower()] on the ASCII letters.  The program compares the result
    with ["y"] only, and Y is the one other character whose lower case is
    y, so the comparison is the one Python makes. *)
Fixpoint lower (s : string) : string :=
  match s with
  | EmptyString => EmptyString
  | String c s' => String (lower_char c) (lower s')
  end.

(** [s.removeprefix(prefix)] *)
Definition removeprefix (s prefix : string) : string :=
  if startswith s prefix
  then substring (String.length prefix) (String.length s - String.length prefix) s
  else s.

(** [str(n)] for a non-negative [int] *)
Definition of_nat (n : nat) : string := NilEmpty.string_of_uint (Nat.to_uint n).

(** [str(b)] for a [bool] *)
Definition of_bool (b : bool) : string := if b then "True" else "False".

(** The character [c] occurs in [s]. *)
Fixpoint mem (c : ascii) (s : string) : bool :=
  match s with
  | EmptyString => false
  | String d s' => Ascii.eqb c d || mem c s'
  end.

End Str.

(** ** [os.path] (posixpath) *)

Module Path.

(** [os.sep] *)
Definition sep_char : ascii := "/"%char.
Definition sep : string := "/".

(** [os.path.join(a, b)] *)
Definition join (a b : string) : string :=
  if Str.startswith b sep then b
  else if String.eqb a EmptyString || Str.endswith a sep then a ++ b
  else a ++ sep ++ b.

(** [os.path.isabs(p)] *)
Definition isabs (p : string) : bool := Str.startswith p sep.

(** [os.path.basename(p)]: what follows the last separator *)
Definition basename (p : string) : string := last (Str.split p sep_char) EmptyString.

(** The loop of [normpath] over the components, [new_comps] being the
    components kept so far. *)
Fixpoint norm_comps (initial_slashes : nat) (comps new_comps : list string)
  : list string :=
  match comps with
  | [] => new_comps
  | comp :: comps' =>
      if String.eqb comp EmptyString || String.eqb comp "." then
        norm_comps initial_slashes comps' new_comps
      else if negb (String.eqb comp "..")
              || ((initial_slashes =? 0)%nat && (length new_comps =? 0)%nat)
              || (negb (length new_comps =? 0)%nat
                  && String.eqb (last new_comps EmptyString) "..") then
        norm_comps initial_slashes comps' (new_comps ++ [comp])
      else
        norm_comps initial_slashes comps' (removelast new_comps)
  end.

(** [os.path.normpath(path)] *)
Definition normpath (path : string) : string :=
  if String.eqb path EmptyString then "."
  else
    let initial_slashes :=
      if Str.startswith path sep then
        if Str.startswith path "//" && negb (Str.startswith path "///")
        then 2%nat else 1%nat
      else 0%nat in
    let comps := norm_comps initial_slashes (Str.split path sep_char) [] in
    let path := Str.join sep comps in
    let path :=
      match initial_slashes with
      | 0%nat => path
      | 1%nat => sep ++ path
      | _ => sep ++ sep ++ path
      end in
    if String.eqb path EmptyString then "." else path.

(** [os.path.abspath(path)], [cwd] being [os.getcwd()] *)
Definition abspath (cwd path : string) : string :=
  normpath (if isabs path then path else join cwd path).

End Path.

(** ** The operating system as the program sees it *)

(** Characters that Rocq string literals cannot hold. *)
Definition nl : string := String (ascii_of_nat 10) EmptyString.
Definition tab : string := String (ascii_of_nat 9) EmptyString.
Definition dquote : string := String (ascii_of_nat 34) EmptyString.

Module Os.

(** What a path names: a plain file, or a directory with the names
    [os.listdir] returns for it, in the order it returns them. *)
Inductive entry : Type :=
| File
| Directory (names : list string).

(** The file system resolves a path string to what it names, if anything.
    Paths are keyed by the strings the program computes; two spellings of
    one file are two keys. *)
Definition FS : Type := string -> option entry.

(** [os.path.exists(p)] *)
Definition exists_ (fs : FS) (p : string) : bool :=
  match fs p with Some _ => true | None => false end.

(** [os.path.isdir(p)] *)
Definition isdir (fs : FS) (p : string) : bool :=
  match fs p with Some (Directory _) => true | _ => false end.

(** The file system once [os.remove(p)] has succeeded: [p] names nothing and
    no directory lists it any more. *)
Definition without (fs : FS) (p : string) : FS :=
  fun q =>
    if String.eqb q p then None
    else match fs q with
         | Some (Directory names) =>
             Some (Directory
                     (filter (fun name => negb (String.eqb (Path.join q name) p)) names))
         | other => other
         end.

(** What [subprocess.run(..., capture_output=True, text=True)] returns. *)
Record CompletedProcess : Type := {
  returncode : Z;
  stdout : string;
  stderr : string
}.

End Os.

(** The exceptions the program can meet. *)
Inductive exn : Type :=
| CompilationError (message : string)
| EOFError
| FileNotFoundError (path : string)
| NotADirectoryError (path : string)
| IsADirectoryError (path : string)
| KeyError (key : string)
| TypeError
| IndexError
| ValueError.

(** The values of the persisted options file: the JSON object that
    [json.dump] writes and [json.load] reads back. *)
Inductive json_value : Type :=
| JString (s : string)
| JBool (b : bool).

Definition json_object : Type := list (string * json_value).

(** What the program does to the outside, in the order it does it. *)
Inductive event : Type :=
| Stdout (text : string)            (* print(text) *)
| Stderr (text : string)            (* print(text, file=sys.stderr) *)
| Prompt (text : string)            (* input(text): a line is asked for *)
| Run (command : list string)       (* subprocess.run(command, ...) *)
| System (command : string)         (* os.system(command) *)
| Removed (path : string)           (* os.remove(path) *)
| Dumped (document : json_object).  (* json.dump(document, options file) *)

(** The world of one run: the file system, the working directory, the
    command line, the lines still to come on standard input, the content of
    the persisted options file (which is kept apart from [fs]; its directory
    is taken to exist and to be writable) and the events so far. *)
Record World : Type := {
  fs : Os.FS;
  cwd : string;
  argv : list string;
  stdin : list string;
  options_file : option json_object;
  log : list event
}.

Definition with_fs (w : World) (fs' : Os.FS) : World :=
  {| fs := fs'; cwd := cwd w; argv := argv w; stdin := stdin w;
     options_file := options_file w; log := log w |}.

Definition with_stdin (w : World) (lines : list string) : World :=
  {| fs := fs w; cwd := cwd w; argv := argv w; stdin := lines;
     options_file := options_file w; log := log w |}.

Definition with_options_file (w : World) (doc : option json_object) : World :=
  {| fs := fs w; cwd := cwd w; argv := argv w; stdin := stdin w;
     options_file := doc; log := log w |}.

Definition emit (w : World) (e : event) : World :=
  {| fs := fs w; cwd := cwd w; argv := argv w; stdin := stdin w;
     options_file := options_file w; log := (log w ++ [e])%list |}.

(** How a call ends: it returns, it raises, the interpreter exits
    ([exit(status)]), or the model's fuel ran out before it ended. *)
Inductive outcome (A : Type) : Type :=
| Ret (a : A)
| Raise (e : exn)
| Exit (status : Z)
| OutOfFuel.

Arguments Ret {A} a.
Arguments Raise {A} e.
Arguments Exit {A} status.
Arguments OutOfFuel {A}.

(** A computation of the program: a function of the world that ends with an
    outcome and the world as it left it (also when it raises or exits). *)
Definition M (A : Type) : Type := World -> outcome A * World.

Definition ret {A} (a : A) : M A := fun w => (Ret a, w).

Definition bind {A B} (m : M A) (k : A -> M B) : M B :=
  fun w =>
    match m w with
    | (Ret a, w') => k a w'
    | (Raise e, w') => (Raise e, w')
    | (Exit status, w') => (Exit status, w')
    | (OutOfFuel, w') => (OutOfFuel, w')
    end.

Declare Scope jacs_scope.
Delimit Scope jacs_scope with jacs.
Notation "x <- m ;; k" := (bind m (fun x => k))
  (at level 61, m at next level, right associativity) : jacs_scope.
Notation "m ;; k" := (bind m (fun _ => k))
  (at level 61, right associativity) : jacs_scope.
Open Scope jacs_scope.

Definition raise {A} (e : exn) : M A := fun w => (Raise e, w).

(** [exit(status)] *)
Definition exit {A} (status : Z) : M A := fun w => (Exit status, w).

Definition out_of_fuel {A} : M A := fun w => (OutOfFuel, w).

(** [try: body / except CompilationError: handler] *)
Definition try_except_CompilationError {A} (body handler : M A) : M A :=
  fun w =>
    match body w with
    | (Raise (CompilationError _), w') => handler w'
    | other => other
    end.

(** [for x in xs: body x] *)
Fixpoint for_each {A} (xs : list A) (body : A -> M unit) : M unit :=
  match xs with
  | [] => ret tt
  | x :: xs' => body x ;; for_each xs' body
  end.

(** [print(text)] *)
Definition print (text : string) : M unit := fun w => (Ret tt, emit w (Stdout text)).

(** [print(text, file=sys.stderr)] *)
Definition eprint (text : string) : M unit := fun w => (Ret tt, emit w (Stderr text)).

(** [input(prompt)]: the next line of standard input; [EOFError] when there
    is none. *)
Definition input (prompt : string) : M string :=
  fun w =>
    let w := emit w (Prompt prompt) in
    match stdin w with
    | [] => (Raise EOFError, w)
    | line :: lines => (Ret line, with_stdin w lines)
    end.

(** [os.system(command)], for the commands that only touch the terminal *)
Definition os_system (command : string) : M unit :=
  fun w => (Ret tt, emit w (System command)).

(** [os.listdir(folder)] *)
Definition os_listdir (folder : string) : M (list string) :=
  fun w =>
    match fs w folder with
    | Some (Os.Directory names) => (Ret names, w)
    | Some Os.File => (Raise (NotADirectoryError folder), w)
    | None => (Raise (FileNotFoundError folder), w)
    end.

(** [os.path.isdir(p)], [os.path.exists(p)], [os.path.abspath(p)] *)
Definition os_path_isdir (p : string) : M bool := fun w => (Ret (Os.isdir (fs w) p), w).
Definition os_path_exists (p : string) : M bool := fun w => (Ret (Os.exists_ (fs w) p), w).
Definition os_path_abspath (p : string) : M string := fun w => (Ret (Path.abspath (cwd w) p), w).

(** [os.remove(p)] *)
Definition os_remove (p : string) : M unit :=
  fun w =>
    let w := emit w (Removed p) in
    match fs w p with
    | Some Os.File => (Ret tt, with_fs w (Os.without (fs w) p))
    | Some (Os.Directory _) => (Raise (IsADirectoryError p), w)
    | None => (Raise (FileNotFoundError p), w)
    end.

(** [for x in xs: state = body state x], the state being what the loop
    body updates. *)
Fixpoint for_fold {A S} (xs : list A) (state : S) (body : S -> A -> M S) : M S :=
  match xs with
  | [] => ret state
  | x :: xs' => state' <- body state x ;; for_fold xs' state' body
  end.

(** [list(map(f, xs))] for an [f] with effects *)
Fixpoint map_m {A B} (f : A -> M B) (xs : list A) : M (list B) :=
  match xs with
  | [] => ret []
  | x :: xs' => y <- f x ;; ys <- map_m f xs' ;; ret (y :: ys)
  end.

(** [xs[i]]: a negative index counts from the end *)
Definition list_index {A} (xs : list A) (i : Z) : M A :=
  let n := Z.of_nat (length xs) in
  let i' := (if i <? 0 then n + i else i)%Z in
  if ((0 <=? i') && (i' <? n))%Z then
    match nth_error xs (Z.to_nat i') with
    | Some x => ret x
    | None => raise IndexError
    end
  else raise IndexError.

(** [list(filter(keep, xs))] for a [keep] with effects *)
Fixpoint filter_m {A} (keep : A -> M bool) (xs : list A) : M (list A) :=
  match xs with
  | [] => ret []
  | x :: xs' =>
      kept <- keep x ;;
      ys <- filter_m keep xs' ;;
      ret (if kept then x :: ys else ys)
  end.

(** [int(s)] *)
Definition int (s : string) : M Z :=
  match Str.int s with
  | Some n => ret n
  | None => raise ValueError
  end.

(** [enumerate(xs)] *)
Definition enumerate {A} (xs : list A) : list (nat * A) :=
  combine (seq 0 (length xs)) xs.

(** [os.name] and what [__main__] derives from it *)
Definition os_name : string := "posix".
Definition clear_command : string :=
  if String.eqb os_name "nt" then "cls" else "clear".

(** The colour codes of [jacs_modules/terminal_colors.py]. *)
Record Colors : Type := {
  HEADER : string;
  OKBLUE : string;
  OKCYAN : string;
  OKGREEN : string;
  WARNING : string;
  FAIL : string;
  ENDC : string
}.

(** ** [jacs_modules/compilation_options.py] *)

Record CompilationOptions : Type := {
  src_folder : string;
  main_class_path : string;
  class_path : string;
  verbose : bool;
  encoding : string;
  compiler : string
}.

Definition set_verbose (v : bool) (self : CompilationOptions) : CompilationOptions :=
  {| src_folder := src_folder self; main_class_path := main_class_path self;
     class_path := class_path self; verbose := v;
     encoding := encoding self; compiler := compiler self |}.

Definition set_encoding (e : string) (self : CompilationOptions) : CompilationOptions :=
  {| src_folder := src_folder self; main_class_path := main_class_path self;
     class_path := class_path self; verbose := verbose self;
     encoding := e; compiler := compiler self |}.

Definition set_compiler (c : string) (self : CompilationOptions) : CompilationOptions :=
  {| src_folder := src_folder self; main_class_path := main_class_path self;
     class_path := class_path self; verbose := verbose self;
     encoding := encoding self; compiler := c |}.

Definition set_main_class_path (m : string) (self : CompilationOptions)
  : CompilationOptions :=
  {| src_folder := src_folder self; main_class_path := m;
     class_path := class_path self; verbose := verbose self;
     encoding := encoding self; compiler := compiler self |}.

(** The two assignments [self.src_folder = ...] and [self.class_path = ...] *)
Definition assign_src_folder (p : string) (self : CompilationOptions)
  : CompilationOptions :=
  {| src_folder := p; main_class_path := main_class_path self;
     class_path := class_path self; verbose := verbose self;
     encoding := encoding self; compiler := compiler self |}.

Definition assign_class_path (p : string) (self : CompilationOptions)
  : CompilationOptions :=
  {| src_folder := src_folder self; main_class_path := main_class_path self;
     class_path := p; verbose := verbose self;
     encoding := encoding self; compiler := compiler self |}.

(** [str(self)] *)
Definition CompilationOptions_str (self : CompilationOptions) : string :=
  "+ Source folder: " ++ src_folder self ++ nl
  ++ "+ Main class path: " ++ main_class_path self ++ nl
  ++ "+ Class path: " ++ class_path self ++ nl
  ++ "+ Verbose: " ++ Str.of_bool (verbose self) ++ nl
  ++ "+ Encoding: " ++ encoding self ++ nl
  ++ "+ Compiler: " ++ compiler self.

(** The dictionary [create_compilation_options_file] builds. *)
Definition to_dict (self : CompilationOptions) : json_object :=
  [ ("src_folder", JString (src_folder self));
    ("main_class_path", JString (main_class_path self));
    ("class_path", JString (class_path self));
    ("verbose", JBool (verbose self));
    ("encoding", JString (encoding self));
    ("compiler", JString (compiler self)) ].

(** [d[key]] *)
Fixpoint dict_get (d : json_object) (key : string) : M json_value :=
  match d with
  | [] => raise (KeyError key)
  | (k, v) :: d' => if String.eqb k key then ret v else dict_get d' key
  end.

(** The record is typed as the class annotates it; a document with a value
    of another type, which Python would store unchecked, is outside the
    typed model and modelled as [TypeError]. *)
Definition as_str (v : json_value) : M string :=
  match v with JString s => ret s | JBool _ => raise TypeError end.

Definition as_bool (v : json_value) : M bool :=
  match v with JBool b => ret b | JString _ => raise TypeError end.

Section Program.

Variable TerminalColors : Colors.

(** The external processes: what running [command] on a file system
    returns and the file system it leaves; [None] when the executable
    cannot be started. *)
Variable subprocess : list string -> Os.FS -> option Os.CompletedProcess * Os.FS.

(** [subprocess.run(command, capture_output=True, text=True)] *)
Definition subprocess_run (command : list string) : M Os.CompletedProcess :=
  fun w =>
    let w := emit w (Run command) in
    match subprocess command (fs w) with
    | (Some result, fs') => (Ret result, with_fs w fs')
    | (None, fs') => (Raise (FileNotFoundError (hd EmptyString command)), with_fs w fs')
    end.

Definition _validate_folder (folder_path : string) : M string :=
  absolute_path <- os_path_abspath folder_path ;;
  there <- os_path_exists absolute_path ;;
  is_dir <- os_path_isdir absolute_path ;;
  if negb there || negb is_dir then
    eprint (FAIL TerminalColors ++ "Error> The folder " ++ dquote
            ++ Path.basename absolute_path ++ dquote ++ " does not exist!"
            ++ ENDC TerminalColors) ;;
    exit 1
  else ret absolute_path.

Definition set_src_folder (folder : string) (self : CompilationOptions)
  : M CompilationOptions :=
  p <- _validate_folder folder ;; ret (assign_src_folder p self).

Definition set_class_path (folder : string) (self : CompilationOptions)
  : M CompilationOptions :=
  p <- _validate_folder folder ;; ret (assign_class_path p self).

(** The constructor, [args] being its positional arguments *)
Definition CompilationOptions_init (args : list string) : M CompilationOptions :=
  let self :=
    {| src_folder := EmptyString; main_class_path := EmptyString;
       class_path := EmptyString; verbose := false;
       encoding := "UTF-8"; compiler := "javac" |} in
  match args with
  | [a0; a1] =>
      self <- set_src_folder a0 self ;;
      let self := set_main_class_path a1 self in
      ret (assign_class_path (src_folder self) self)
  | [a0; a1; a2] =>
      self <- set_src_folder a0 self ;;
      let self := set_main_class_path a1 self in
      set_class_path a2 self
  | _ => ret self
  end.

(** [os.path.exists(path)] for the options file.  The file is the world's
    [options_file]; where it lies (the folder [config] beside the working
    directory of the start) is not part of the model, which takes that
    folder to exist and to be writable, and the file, when there is one, to
    hold a JSON object of strings and booleans. *)
Definition check_if_compilation_options_file_exists : M bool :=
  fun w => (Ret (match options_file w with Some _ => true | None => false end), w).

(** [open(path, "r")] followed by [json.load(file)] *)
Definition json_load_options_file : M json_object :=
  fun w =>
    match options_file w with
    | Some d => (Ret d, w)
    | None => (Raise (FileNotFoundError "compilation_options.json"), w)
    end.

Definition load_compilation_options_file : M CompilationOptions :=
  compilation_options <- json_load_options_file ;;
  compilation_options_obj <- CompilationOptions_init [] ;;
  v <- dict_get compilation_options "src_folder" ;; v <- as_str v ;;
  compilation_options_obj <- set_src_folder v compilation_options_obj ;;
  v <- dict_get compilation_options "main_class_path" ;; v <- as_str v ;;
  let compilation_options_obj := set_main_class_path v compilation_options_obj in
  v <- dict_get compilation_options "class_path" ;; v <- as_str v ;;
  compilation_options_obj <- set_class_path v compilation_options_obj ;;
  v <- dict_get compilation_options "verbose" ;; v <- as_bool v ;;
  let compilation_options_obj := set_verbose v compilation_options_obj in
  v <- dict_get compilation_options "encoding" ;; v <- as_str v ;;
  let compilation_options_obj := set_encoding v compilation_options_obj in
  v <- dict_get compilation_options "compiler" ;; v <- as_str v ;;
  let compilation_options_obj := set_compiler v compilation_options_obj in
  ret compilation_options_obj.

(** [open(path, "w")] followed by [json.dump(compilation_options, file)] *)
Definition create_compilation_options_file (self : CompilationOptions) : M unit :=
  let compilation_options := to_dict self in
  fun w =>
    (Ret tt, emit (with_options_file w (Some compilation_options))
                  (Dumped compilation_options)).

(** ** [jacs.py] *)

Definition show_menu (compilation_options : CompilationOptions) : M string :=
  print (HEADER TerminalColors
         ++ " - Automated Java Compilation Script by Equiel_1703 - "
         ++ ENDC TerminalColors) ;;
  print (OKCYAN TerminalColors) ;;
  print (tab ++ "+ Source Folder (absolute path): " ++ src_folder compilation_options) ;;
  print (tab ++ "+ Class Path (absolute path): " ++ class_path compilation_options) ;;
  print (tab ++ "+ Main Class Path: " ++ main_class_path compilation_options) ;;
  print (ENDC TerminalColors) ;;
  print "Choose an option:" ;;
  print "1. Compile all Java files in the source folder" ;;
  print "2. Compile specific Java files in the source folder" ;;
  print "3. Clear build" ;;
  print "4. Compile and run project" ;;
  print "5. Setup compilation options" ;;
  print "0. Exit" ;;
  choice <- input EmptyString ;;
  ret (Str.strip choice).

(** One turn of the loop [for file in files] of [_posorder_traversal]:
    [file] is the listed name, [list_of_files] the list built so far and
    [recurse] the traversal of a sub-folder. *)
Definition visit (recurse : string -> M (list string)) (folder : string)
    (condition : string -> bool) (list_of_files : list string) (file : string)
  : M (list string) :=
  let file := Path.join folder file in
  is_dir <- os_path_isdir file ;;
  if is_dir then
    found <- recurse file ;;
    ret (list_of_files ++ found)%list
  else if condition file then
    ret (list_of_files ++ [file])%list
  else ret list_of_files.

(** The recursion of the source is on the folders of the file system;
    [fuel] bounds its depth. *)
Fixpoint _posorder_traversal (fuel : nat) (folder : string)
    (condition : string -> bool) : M (list string) :=
  match fuel with
  | O => out_of_fuel
  | S fuel' =>
      files <- os_listdir folder ;;
      for_fold files []
        (visit (fun file => _posorder_traversal fuel' file condition)
               folder condition)
  end.

(** The command line [_compile_file] runs for [path_to_file]. *)
Definition compile_command (compilation_options : CompilationOptions)
    (path_to_file : string) : list string :=
  let command :=
    [compiler compilation_options; "-cp"; class_path compilation_options;
     "-encoding"; encoding compilation_options] in
  let command :=
    if verbose compilation_options then (command ++ ["-verbose"])%list
    else command in
  (command ++ [path_to_file])%list.

Definition _compile_file (path_to_file : string)
    (compilation_options : CompilationOptions) : M unit :=
  result <- subprocess_run (compile_command compilation_options path_to_file) ;;
  (if String.eqb (class_path compilation_options) (src_folder compilation_options)
   then print (WARNING TerminalColors
               ++ "NOTE> the -cp provided to the Java compiler was the Source Folder path. If you want a different one, change the compilation options."
               ++ ENDC TerminalColors)
   else ret tt) ;;
  if negb (Os.returncode result =? 0)%Z then
    eprint (FAIL TerminalColors ++ "Error> Could not compile the file "
            ++ dquote ++ path_to_file ++ dquote ++ "!") ;;
    eprint ("Compilation aborted." ++ ENDC TerminalColors) ;;
    eprint (nl ++ Os.stderr result) ;;
    raise (CompilationError ("Could not compile the file " ++ dquote
                             ++ path_to_file ++ dquote ++ "."))
  else ret tt.

Definition _process_args : M CompilationOptions :=
  fun w =>
    let sys_argv := argv w in
    (if (4 <? length sys_argv)%nat then
       eprint (FAIL TerminalColors ++ "Error> Too many arguments provided!"
               ++ ENDC TerminalColors) ;;
       eprint ("Usage: python " ++ hd EmptyString sys_argv
               ++ " [source_folder] [class_path]") ;;
       exit 1
     else
       match sys_argv with
       | [_; a1; a2; a3] => CompilationOptions_init [a1; a2; a3]
       | _ =>
           names <-
             match sys_argv with
             | [_] =>
                 src_folder <- input "Folder containing the source code: " ;;
                 main_path <- input "Main class path: " ;;
                 ret (Str.strip src_folder, Str.strip main_path)
             | [_; a1] =>
                 main_path <- input "Main class path: " ;;
                 ret (a1, Str.strip main_path)
             | [_; a1; a2] => ret (a1, a2)
             | _ => ret (EmptyString, EmptyString)
             end ;;
           let '(src_folder, main_path) := names in
           class_path <-
             input "Class path (leave empty to use the source folder as the class path): " ;;
           let class_path := Str.strip class_path in
           let class_path :=
             if String.eqb class_path EmptyString then src_folder else class_path in
           CompilationOptions_init [src_folder; main_path; class_path]
       end) w.

Definition is_java (file : string) : bool := Str.endswith file ".java".
Definition is_class (file : string) : bool := Str.endswith file ".class".

(** The [try] block shared by [compile_all_files] and
    [compile_specific_files], and its [except] clause; [true] when the
    loop ended without a [CompilationError]. *)
Definition compile_batch (files_to_compile : list string)
    (compilation_options : CompilationOptions) : M bool :=
  try_except_CompilationError
    (for_each files_to_compile (fun file =>
       print (nl ++ OKCYAN TerminalColors ++ "Compiling file: " ++ file
              ++ ENDC TerminalColors) ;;
       _compile_file file compilation_options) ;;
     ret true)
    (eprint (nl ++ FAIL TerminalColors ++ "Error> Could not compile all files!"
             ++ ENDC TerminalColors) ;;
     ret false).

(** The two lines that end a batch that compiled every file. *)
Definition report_compiled (files_to_compile : list string) : M unit :=
  print (nl ++ OKGREEN TerminalColors ++ "Compilation finished!"
         ++ ENDC TerminalColors) ;;
  print ("Total of " ++ Str.of_nat (length files_to_compile) ++ " files compiled.").

Definition compile_all_files (fuel : nat) (compilation_options : CompilationOptions)
  : M unit :=
  files_to_compile <-
    _posorder_traversal fuel (src_folder compilation_options) is_java ;;
  print "Files to compile:" ;;
  for_each files_to_compile (fun file => print ("+ " ++ file)) ;;
  compiled <- compile_batch files_to_compile compilation_options ;;
  if compiled then report_compiled files_to_compile else ret tt.

(** The filter of [compile_specific_files] on the entered tokens:
    [file_index.isdigit() and 1 <= int(file_index) <= len(files_available)],
    where [int] is called, once, on the tokens [isdigit] lets through. *)
Definition selectable (files_available : list string) (file_index : string)
  : M bool :=
  if Str.isdigit file_index then
    n <- int file_index ;;
    ret ((1 <=? n)%Z && (n <=? Z.of_nat (length files_available))%Z)
  else ret false.

Definition compile_specific_files (fuel : nat)
    (compilation_options : CompilationOptions) : M unit :=
  files_available <-
    _posorder_traversal fuel (src_folder compilation_options) is_java ;;
  print "Files available to compile:" ;;
  for_each (enumerate files_available) (fun '(i, file) =>
    print (Str.of_nat (i + 1) ++ ". "
           ++ Str.removeprefix file (src_folder compilation_options ++ Path.sep))) ;;
  line <- input (nl ++ "Choose the files to compile (separated by commas): ") ;;
  let files_to_compile := Str.split line ","%char in
  let files_to_compile := map Str.strip files_to_compile in
  files_to_compile <- filter_m (selectable files_available) files_to_compile ;;
  if (length files_to_compile =? 0)%nat then
    eprint (FAIL TerminalColors ++ "Error> No files were selected!"
            ++ ENDC TerminalColors)
  else
    files_to_compile <-
      map_m (fun file_index =>
               n <- int file_index ;; list_index files_available (n - 1))
            files_to_compile ;;
    compiled <- compile_batch files_to_compile compilation_options ;;
    if compiled then report_compiled files_to_compile else ret tt.

Definition clear_build (fuel : nat) (compilation_options : CompilationOptions)
  : M unit :=
  files_to_delete <-
    _posorder_traversal fuel (src_folder compilation_options) is_class ;;
  print (OKCYAN TerminalColors ++ "Cleaning build..." ++ ENDC TerminalColors) ;;
  print EmptyString ;;
  for_each files_to_delete (fun file =>
    os_remove file ;;
    print (WARNING TerminalColors ++ "Deleted: " ++ file ++ ENDC TerminalColors)) ;;
  print (nl ++ OKGREEN TerminalColors ++ "Build cleaned!" ++ ENDC TerminalColors).

(** The file [compile_and_run_project] compiles. *)
Definition main_file_of (compilation_options : CompilationOptions) : string :=
  Path.join (src_folder compilation_options)
            (Str.replace (main_class_path compilation_options) "."%char Path.sep
             ++ ".java").

(** The command line [compile_and_run_project] runs the program with. *)
Definition run_command (compilation_options : CompilationOptions) : list string :=
  ["java"; "-cp"; class_path compilation_options;
   main_class_path compilation_options].

Definition compile_and_run_project (compilation_options : CompilationOptions)
  : M unit :=
  let main_file := main_file_of compilation_options in
  _compile_file main_file compilation_options ;;
  result <- subprocess_run (run_command compilation_options) ;;
  if negb (Os.returncode result =? 0)%Z then
    eprint (FAIL TerminalColors ++ "Error> Could not run the project!"
            ++ ENDC TerminalColors) ;;
    eprint (nl ++ Os.stderr result)
  else print (nl ++ Os.stdout result).

(** One turn of the [while True] of [setup_compilation_options]: the
    options as the turn leaves them, and whether the loop goes on
    ([false] after the [break]). *)
Definition setup_turn (compilation_options : CompilationOptions)
  : M (bool * CompilationOptions) :=
  print (OKBLUE TerminalColors ++ "Current compilation options:" ++ nl
         ++ CompilationOptions_str compilation_options ++ ENDC TerminalColors) ;;
  print (nl ++ "Choose the option to change:") ;;
  print "1. Source folder" ;;
  print "2. Main class path" ;;
  print "3. Class path" ;;
  print "4. Verbose" ;;
  print "5. Encoding" ;;
  print "6. Compiler" ;;
  print "0. Return" ;;
  choice <- input EmptyString ;;
  let choice := Str.strip choice in
  if String.eqb choice "1" then
    src_folder <- input "New source folder: " ;;
    compilation_options <- set_src_folder (Str.strip src_folder) compilation_options ;;
    ret (true, compilation_options)
  else if String.eqb choice "2" then
    main_class_path <- input "New main class path: " ;;
    ret (true, set_main_class_path (Str.strip main_class_path) compilation_options)
  else if String.eqb choice "3" then
    class_path <- input "New class path: " ;;
    compilation_options <- set_class_path (Str.strip class_path) compilation_options ;;
    ret (true, compilation_options)
  else if String.eqb choice "4" then
    verbose <- input "Verbose (y/n): " ;;
    let verbose := Str.lower (Str.strip verbose) in
    if String.eqb verbose "y" then ret (true, set_verbose true compilation_options)
    else ret (true, set_verbose false compilation_options)
  else if String.eqb choice "5" then
    encoding <- input "New encoding: " ;;
    ret (true, set_encoding (Str.strip encoding) compilation_options)
  else if String.eqb choice "6" then
    compiler <- input "New compiler: " ;;
    ret (true, set_compiler (Str.strip compiler) compilation_options)
  else if String.eqb choice "0" then
    ret (false, compilation_options)
  else
    eprint (FAIL TerminalColors ++ "Error> Invalid choice! Try again."
            ++ ENDC TerminalColors) ;;
    os_system clear_command ;;
    ret (true, compilation_options).

(** The [while True] loop; every turn reads at least one line, and [fuel]
    bounds the number of turns. *)
Fixpoint setup_loop (fuel : nat) (compilation_options : CompilationOptions)
  : M CompilationOptions :=
  match fuel with
  | O => out_of_fuel
  | S fuel' =>
      turn <- setup_turn compilation_options ;;
      let '(again, compilation_options) := turn in
      if again then setup_loop fuel' compilation_options
      else ret compilation_options
  end.

(** The options object is mutated in place by the source; here the
    function returns it as the submenu leaves it. *)
Definition setup_compilation_options (fuel : nat)
    (compilation_options : CompilationOptions) : M CompilationOptions :=
  compilation_options <- setup_loop fuel compilation_options ;;
  create_compilation_options_file compilation_options ;;
  print (OKGREEN TerminalColors ++ "Compilation options updated!"
         ++ ENDC TerminalColors) ;;
  ret compilation_options.

(** One turn of the program loop of [__main__]. *)
Definition menu_turn (fuel : nat) (compilation_options : CompilationOptions)
  : M CompilationOptions :=
  choice <- show_menu compilation_options ;;
  let pause (compilation_options : CompilationOptions) : M CompilationOptions :=
    input (nl ++ "Press Enter to continue...") ;;
    os_system clear_command ;;
    ret compilation_options in
  if String.eqb choice "1" then
    os_system clear_command ;;
    compile_all_files fuel compilation_options ;;
    pause compilation_options
  else if String.eqb choice "2" then
    os_system clear_command ;;
    compile_specific_files fuel compilation_options ;;
    pause compilation_options
  else if String.eqb choice "3" then
    os_system clear_command ;;
    clear_build fuel compilation_options ;;
    pause compilation_options
  else if String.eqb choice "4" then
    os_system clear_command ;;
    compile_and_run_project compilation_options ;;
    pause compilation_options
  else if String.eqb choice "5" then
    os_system clear_command ;;
    compilation_options <- setup_compilation_options fuel compilation_options ;;
    pause compilation_options
  else if String.eqb choice "0" then
    print (OKCYAN TerminalColors ++ "Exiting the program..." ++ ENDC TerminalColors) ;;
    exit 0
  else
    eprint (FAIL TerminalColors ++ "Error> Invalid option!" ++ ENDC TerminalColors) ;;
    ret compilation_options.

(** The program loop; it has no normal end, so a result is an exit, an
    exception that nothing caught, or the end of the fuel. *)
Fixpoint menu_loop (fuel : nat) (compilation_options : CompilationOptions)
  : M unit :=
  match fuel with
  | O => out_of_fuel
  | S fuel' =>
      compilation_options <- menu_turn fuel' compilation_options ;;
      menu_loop fuel' compilation_options
  end.

(** [__main__] *)
Definition main (fuel : nat) : M unit :=
  (if String.eqb os_name "nt" then os_system "color" else ret tt) ;;
  saved <- check_if_compilation_options_file_exists ;;
  compilation_options <-
    (if saved then load_compilation_options_file
     else
       compilation_options <- _process_args ;;
       create_compilation_options_file compilation_options ;;
       ret compilation_options) ;;
  menu_loop fuel compilation_options.

End Program.

(** * Notions the properties are stated with *)

(** A computation that leaves the world as it found it. *)
Definition reads_only {A} (m : M A) : Prop := forall w, snd (m w) = w.

(** The loop of [_posorder_traversal] over the names a listing holds,
    [list_of_files] being the list built so far. *)
Definition scan_names (fuel : nat) (folder : string) (condition : string -> bool)
    (names : list string) (list_of_files : list string) : M (list string) :=
  for_fold names list_of_files
    (visit (fun file => _posorder_traversal fuel file condition) folder condition).

(** What one name of a listing contributes to the result: the results of
    the sub-folder it names, or the file itself when the condition holds. *)
Definition contribution (fuel : nat) (folder : string) (condition : string -> bool)
    (name : string) : M (list string) :=
  let file := Path.join folder name in
  fun w =>
    if Os.isdir (fs w) file then _posorder_traversal fuel file condition w
    else (Ret (if condition file then [file] else []), w).

(** [file_under fs folder p]: the path [p] names an entry that is not a
    directory and that is listed in [folder] or, at any depth, in a
    directory listed under it. *)
Inductive file_under (fs : Os.FS) : string -> string -> Prop :=
| file_here folder names name :
    fs folder = Some (Os.Directory names) ->
    In name names ->
    Os.isdir fs (Path.join folder name) = false ->
    file_under fs folder (Path.join folder name)
| file_below folder names name p :
    fs folder = Some (Os.Directory names) ->
    In name names ->
    Os.isdir fs (Path.join folder name) = true ->
    file_under fs (Path.join folder name) p ->
    file_under fs folder p.

(** [nests fs depth folder]: [folder] is a directory and the directories
    under it are nested at most [depth] deep (so there is no cycle of links
    among them). *)
Inductive nests (fs : Os.FS) : nat -> string -> Prop :=
| nests_intro depth folder names :
    fs folder = Some (Os.Directory names) ->
    (forall name, In name names ->
                  Os.isdir fs (Path.join folder name) = true ->
                  nests fs depth (Path.join folder name)) ->
    nests fs (S depth) folder.

(** The boolean version of [nests], to run on a concrete file system. *)
Fixpoint nestsb (fs : Os.FS) (depth : nat) (folder : string) : bool :=
  match depth with
  | O => false
  | S depth' =>
      match fs folder with
      | Some (Os.Directory names) =>
          forallb (fun name =>
                     if Os.isdir fs (Path.join folder name)
                     then nestsb fs depth' (Path.join folder name)
                     else true) names
      | _ => false
      end
  end.

(** A file system given by the table of what each path names. *)
Definition fs_of (table : list (string * Os.entry)) : Os.FS :=
  fun p =>
    match find (fun row => String.eqb (fst row) p) table with
    | Some row => Some (snd row)
    | None => None
    end.

(** A name a directory can list: not empty and without a separator. *)
Definition proper_name (name : string) : bool :=
  negb (String.eqb name EmptyString) && negb (Str.mem Path.sep_char name).

(** [tidy fs]: every directory lists proper names, none of them twice, and
    every listed name names something. *)
Definition tidy (fs : Os.FS) : Prop :=
  forall folder names,
    fs folder = Some (Os.Directory names) ->
    NoDup names
    /\ forall name, In name names ->
                    proper_name name = true /\ fs (Path.join folder name) <> None.

Fixpoint distinct (names : list string) : bool :=
  match names with
  | [] => true
  | name :: names' =>
      negb (existsb (String.eqb name) names') && distinct names'
  end.

(** The boolean version of [tidy] for a file system given by a table. *)
Definition tidy_table (table : list (string * Os.entry)) : bool :=
  forallb (fun row =>
             match snd row with
             | Os.File => true
             | Os.Directory names =>
                 distinct names
                 && forallb (fun name =>
                               proper_name name
                               && Os.exists_ (fs_of table) (Path.join (fst row) name))
                            names
             end) table.

(** What [os.path.join] puts between a folder and a proper name. *)
Definition joint (folder : string) : string :=
  if String.eqb folder EmptyString || Str.endswith folder Path.sep
  then EmptyString else Path.sep.

(** How a text continues after a file name: not at all, or with a
    separator. *)
Definition continues (t : string) : Prop :=
  t = EmptyString \/ Str.startswith t Path.sep = true.

(** The world after the events [es], with the file system [fs']. *)
Definition evolve (w : World) (fs' : Os.FS) (es : list event) : World :=
  {| fs := fs'; cwd := cwd w; argv := argv w; stdin := stdin w;
     options_file := options_file w; log := (log w ++ es)%list |}.

(** The paths [os.remove] was called with, in order. *)
Fixpoint removed (es : list event) : list string :=
  match es with
  | [] => []
  | Removed p :: es' => p :: removed es'
  | _ :: es' => removed es'
  end.

(** The command lines [subprocess.run] was called with, in order. *)
Fixpoint spawned (es : list event) : list (list string) :=
  match es with
  | [] => []
  | Run command :: es' => command :: spawned es'
  | _ :: es' => spawned es'
  end.

(** The lines written to the error stream, in order. *)
Fixpoint errors (es : list event) : list string :=
  match es with
  | [] => []
  | Stderr text :: es' => text :: errors es'
  | _ :: es' => errors es'
  end.

(** The lines written to the terminal, on either stream, in order. *)
Fixpoint printed (es : list event) : list string :=
  match es with
  | [] => []
  | Stdout text :: es' => text :: printed es'
  | Stderr text :: es' => text :: printed es'
  | _ :: es' => printed es'
  end.

(** [sub in s] *)
Fixpoint contains (s sub : string) : bool :=
  Str.startswith s sub
  || match s with
     | EmptyString => false
     | String _ s' => contains s' sub
     end.

(** What [clear_build] does for one file: the call of [os.remove] and the
    line that reports it. *)
Definition deletion (TerminalColors : Colors) (file : string) : list event :=
  [Removed file;
   Stdout (WARNING TerminalColors ++ "Deleted: " ++ file ++ ENDC TerminalColors)].

(** A terminal without colours. *)
Definition plain : Colors :=
  {| HEADER := EmptyString; OKBLUE := EmptyString; OKCYAN := EmptyString;
     OKGREEN := EmptyString; WARNING := EmptyString; FAIL := EmptyString;
     ENDC := EmptyString |}.

(** A project with one source file and two compiled files. *)
Definition built_project : list (string * Os.entry) :=
  [ ("/proj", Os.Directory ["A.java"; "sub"; "A.class"]);
    ("/proj/A.java", Os.File);
    ("/proj/sub", Os.Directory ["B.class"]);
    ("/proj/sub/B.class", Os.File);
    ("/proj/A.class", Os.File) ].

Definition world_of (table : list (string * Os.entry)) (lines : list string) : World :=
  {| fs := fs_of table; cwd := "/home/user"; argv := ["jacs.py"];
     stdin := lines; options_file := None; log := [] |}.

Definition options_of (folder main : string) : CompilationOptions :=
  {| src_folder := folder; main_class_path := main; class_path := folder;
     verbose := false; encoding := "UTF-8"; compiler := "javac" |}.

(** The note [_compile_file] writes when the class path is the source
    folder. *)
Definition note (TerminalColors : Colors) (o : CompilationOptions) : list event :=
  if String.eqb (class_path o) (src_folder o) then
    [Stdout (WARNING TerminalColors
             ++ "NOTE> the -cp provided to the Java compiler was the Source Folder path. If you want a different one, change the compilation options."
             ++ ENDC TerminalColors)]
  else [].

(** What a batch does for one file that compiles: the line that announces
    it, the compiler process and the note. *)
Definition compiling (TerminalColors : Colors) (o : CompilationOptions)
    (file : string) : list event :=
  (Stdout (nl ++ OKCYAN TerminalColors ++ "Compiling file: " ++ file
           ++ ENDC TerminalColors)
   :: Run (compile_command o file) :: note TerminalColors o)%list.

(** The three lines [_compile_file] writes to the error stream when the
    compiler, whose result is [result], failed on [file]. *)
Definition diagnostics (TerminalColors : Colors) (file : string)
    (result : Os.CompletedProcess) : list event :=
  [Stderr (FAIL TerminalColors ++ "Error> Could not compile the file "
           ++ dquote ++ file ++ dquote ++ "!");
   Stderr ("Compilation aborted." ++ ENDC TerminalColors);
   Stderr (nl ++ Os.stderr result)].

(** The line a batch ends with when a file failed. *)
Definition not_all_compiled (TerminalColors : Colors) : event :=
  Stderr (nl ++ FAIL TerminalColors ++ "Error> Could not compile all files!"
          ++ ENDC TerminalColors).

(** [compiles subprocess o fs files fs']: run one after the other from the
    file system [fs], the compiler processes of [files] all end with exit
    status 0 and leave the file system [fs']. *)
Inductive compiles
    (subprocess : list string -> Os.FS -> option Os.CompletedProcess * Os.FS)
    (o : CompilationOptions) : Os.FS -> list string -> Os.FS -> Prop :=
| compiles_nil fs : compiles subprocess o fs [] fs
| compiles_cons fs file result fs1 files fs2 :
    subprocess (compile_command o file) fs = (Some result, fs1) ->
    Os.returncode result = 0%Z ->
    compiles subprocess o fs1 files fs2 ->
    compiles subprocess o fs (file :: files) fs2.

(** The token [file_index] picks the file at that position of the list,
    counted from 1. *)
Definition picks (files_available : list string) (file_index file : string) : Prop :=
  exists n,
    Str.int file_index = Some n
    /\ nth_error files_available (Z.to_nat (n - 1)) = Some file.

(** The tokens of a selection line: its pieces between commas, stripped. *)
Definition tokens (line : string) : list string :=
  map Str.strip (Str.split line ","%char).

(** [int] reads the token, when the filter hands it over: a token made of
    digits is one [int] converts. *)
Definition readable (file_index : string) : bool :=
  negb (Str.isdigit file_index)
  || match Str.int file_index with Some _ => true | None => false end.

(** The token is made of digits only and its value lies between 1 and the
    number of available files. *)
Definition in_range (files_available : list string) (file_index : string) : bool :=
  Str.isdigit file_index
  && match Str.int file_index with
     | Some n => (1 <=? n)%Z && (n <=? Z.of_nat (length files_available))%Z
     | None => false
     end.

(** The tokens of a selection line that [compile_specific_files] keeps. *)
Definition surviving (files_available : list string) (line : string) : list string :=
  filter (in_range files_available) (tokens line).

(** The selection line is read to the end and selects the files [files],
    in this order. *)
Definition selects (files_available : list string) (line : string)
    (files : list string) : Prop :=
  forallb readable (tokens line) = true
  /\ Forall2 (picks files_available) (surviving files_available line) files.

(** [stops_at tc o before failing result es]: the events [es] of a batch
    show that the compiler ran on the files of [before] and on [failing],
    in this order, and on nothing else; that the error stream received the
    diagnostics of [failing] and then the line that not all the files could
    be compiled, which is the last event; and that nothing was removed. *)
Definition stops_at (TerminalColors : Colors) (o : CompilationOptions)
    (before : list string) (failing : string) (result : Os.CompletedProcess)
    (es : list event) : Prop :=
  spawned es = map (compile_command o) (before ++ [failing])%list
  /\ errors es = (errors (diagnostics TerminalColors failing result)
                  ++ errors [not_all_compiled TerminalColors])%list
  /\ removed es = []
  /\ exists es0, es = (es0 ++ [not_all_compiled TerminalColors])%list.

(** The lines [compile_all_files] begins with. *)
Definition files_to_compile_lines (files : list string) : list event :=
  Stdout "Files to compile:" :: map (fun file => Stdout ("+ " ++ file)) files.

(** The line of [compile_specific_files] for the file at position [i]. *)
Definition numbered (o : CompilationOptions) (row : nat * string) : string :=
  let '(i, file) := row in
  Str.of_nat (i + 1) ++ ". " ++ Str.removeprefix file (src_folder o ++ Path.sep).

(** The lines and the prompt [compile_specific_files] begins with. *)
Definition files_available_lines (o : CompilationOptions) (files : list string)
  : list event :=
  (Stdout "Files available to compile:"
   :: map (fun row => Stdout (numbered o row)) (enumerate files)
   ++ [Prompt (nl ++ "Choose the files to compile (separated by commas): ")])%list.

(** The two lines a batch that compiled every file ends with. *)
Definition compiled_lines (TerminalColors : Colors) (count : nat) : list event :=
  [Stdout (nl ++ OKGREEN TerminalColors ++ "Compilation finished!"
           ++ ENDC TerminalColors);
   Stdout ("Total of " ++ Str.of_nat count ++ " files compiled.")].

(** The line [compile_specific_files] writes when no token survives. *)
Definition no_files_selected (TerminalColors : Colors) : event :=
  Stderr (FAIL TerminalColors ++ "Error> No files were selected!"
          ++ ENDC TerminalColors).

(** A project with three source files; the traversal lists them as
    [One.java], [pkg/Two.java], [Three.java]. *)
Definition three_sources : list (string * Os.entry) :=
  [ ("/work", Os.Directory ["One.java"; "pkg"; "Three.java"]);
    ("/work/One.java", Os.File);
    ("/work/pkg", Os.Directory ["Two.java"]);
    ("/work/pkg/Two.java", Os.File);
    ("/work/Three.java", Os.File) ].

(** External processes that leave the file system alone and succeed,
    except the compiler on the file [bad], which ends with exit status 1
    and a diagnostic. *)
Definition rejecting (bad : string)
  : list string -> Os.FS -> option Os.CompletedProcess * Os.FS :=
  fun command fs =>
    if String.eqb (last command EmptyString) bad then
      (Some {| Os.returncode := 1; Os.stdout := EmptyString;
               Os.stderr := "error: class, interface, or enum expected" |}, fs)
    else
      (Some {| Os.returncode := 0; Os.stdout := "Hello"; Os.stderr := EmptyString |}, fs).

(** External processes that leave the file system alone and succeed. *)
Definition accepting
  : list string -> Os.FS -> option Os.CompletedProcess * Os.FS :=
  fun command fs =>
    (Some {| Os.returncode := 0; Os.stdout := "Hello"; Os.stderr := EmptyString |}, fs).

(** A component that [normpath] keeps in an absolute path: not empty, not
    [.], not [..], and without a separator. *)
Definition component (c : string) : bool :=
  negb (String.eqb c EmptyString) && negb (String.eqb c ".")
  && negb (String.eqb c "..") && negb (Str.mem Path.sep_char c).

(** The one or two separators an absolute normal path begins with. *)
Definition slashes (initial_slashes : nat) : string :=
  match initial_slashes with
  | 0 => EmptyString
  | 1 => Path.sep
  | _ => Path.sep ++ Path.sep
  end.

(** The documents written to the options file, in order. *)
Fixpoint dumps (es : list event) : list json_object :=
  match es with
  | [] => []
  | Dumped document :: es' => document :: dumps es'
  | _ :: es' => dumps es'
  end.

(** [respects R m]: the world [m] leaves is related by [R] to the world it
    found, however [m] ends. *)
Definition respects {A} (R : World -> World -> Prop) (m : M A) : Prop :=
  forall w, R w (snd (m w)).

(** Nothing was written to the options file between two worlds. *)
Definition same_options_file (w w' : World) : Prop :=
  options_file w' = options_file w /\ dumps (log w') = dumps (log w).

(** No line was put back on standard input between two worlds. *)
Definition reads_on (w w' : World) : Prop :=
  length (stdin w') <= length (stdin w).

(** [ends m]: the fuel of the model never runs out in [m]. *)
Definition ends {A} (m : M A) : Prop :=
  forall w, fst (m w) <> OutOfFuel.

(** [consumes m]: when [m] returns, it has read at least one line. *)
Definition consumes {A} (m : M A) : Prop :=
  forall w a w', m w = (Ret a, w') -> length (stdin w') < length (stdin w).

(** A system on which no executable can be started. *)
Definition nothing_installed
  : list string -> Os.FS -> option Os.CompletedProcess * Os.FS :=
  fun command fs => (None, fs).

(** External processes that leave the file system alone: the compiler
    succeeds, and the program [java] runs ends with exit status 3 and a
    stack trace. *)
Definition crashing_program
  : list string -> Os.FS -> option Os.CompletedProcess * Os.FS :=
  fun command fs =>
    if String.eqb (hd EmptyString command) "java" then
      (Some {| Os.returncode := 3; Os.stdout := "partial output";
               Os.stderr := "Exception in thread main" |}, fs)
    else
      (Some {| Os.returncode := 0; Os.stdout := EmptyString;
               Os.stderr := EmptyString |}, fs).

(** A project whose folder no longer exists: the table of an empty disk. *)
Definition empty_disk : list (string * Os.entry) := [].

(** The prompts of the lines asked for, in order. *)
Fixpoint prompts (es : list event) : list string :=
  match es with
  | [] => []
  | Prompt text :: es' => text :: prompts es'
  | _ :: es' => prompts es'
  end.

(** The thirteen lines of the main menu. *)
Definition menu_lines (TerminalColors : Colors) (o : CompilationOptions)
  : list event :=
  [ Stdout (HEADER TerminalColors
            ++ " - Automated Java Compilation Script by Equiel_1703 - "
            ++ ENDC TerminalColors);
    Stdout (OKCYAN TerminalColors);
    Stdout (tab ++ "+ Source Folder (absolute path): " ++ src_folder o);
    Stdout (tab ++ "+ Class Path (absolute path): " ++ class_path o);
    Stdout (tab ++ "+ Main Class Path: " ++ main_class_path o);
    Stdout (ENDC TerminalColors);
    Stdout "Choose an option:";
    Stdout "1. Compile all Java files in the source folder";
    Stdout "2. Compile specific Java files in the source folder";
    Stdout "3. Clear build";
    Stdout "4. Compile and run project";
    Stdout "5. Setup compilation options";
    Stdout "0. Exit" ].

(** The six choices the main menu knows. *)
Definition known_choice (choice : string) : bool :=
  existsb (String.eqb choice) ["0"; "1"; "2"; "3"; "4"; "5"].

(** The record the constructor builds from a resolved source folder, a
    main class path and a resolved class path. *)
Definition fresh_options (folder main class_folder : string) : CompilationOptions :=
  {| src_folder := folder; main_class_path := main; class_path := class_folder;
     verbose := false; encoding := "UTF-8"; compiler := "javac" |}.

(** The value a dictionary holds under a key, if any. *)
Fixpoint lookup (d : json_object) (key : string) : option json_value :=
  match d with
  | [] => None
  | (k, v) :: d' => if String.eqb k key then Some v else lookup d' key
  end.

(** The options file of the first version of the tool
    ([src/compilation_options.py]): five fields, no main class path. *)
Definition legacy_document (folder : string) : json_object :=
  [ ("verbose", JBool false);
    ("encoding", JString "UTF-8");
    ("compiler", JString "javac");
    ("class_path", JString folder);
    ("src_folder", JString folder) ].

(** The nine lines a turn of the settings submenu prints. *)
Definition setup_lines (TerminalColors : Colors) (o : CompilationOptions)
  : list event :=
  [ Stdout (OKBLUE TerminalColors ++ "Current compilation options:" ++ nl
            ++ CompilationOptions_str o ++ ENDC TerminalColors);
    Stdout (nl ++ "Choose the option to change:");
    Stdout "1. Source folder";
    Stdout "2. Main class path";
    Stdout "3. Class path";
    Stdout "4. Verbose";
    Stdout "5. Encoding";
    Stdout "6. Compiler";
    Stdout "0. Return" ].

(** The world a turn of the submenu leaves when it asked [question] after
    the choice and read the two lines before [rest]. *)
Definition answered (TerminalColors : Colors) (o : CompilationOptions)
    (question : string) (rest : list string) (w : World) : World :=
  with_stdin
    (evolve w (fs w)
       (setup_lines TerminalColors o ++ [Prompt EmptyString; Prompt question]))
    rest.

(** The world the submenu leaves when its last turn read "0" before [rest]
    and the record [o] was written. *)
Definition saved (TerminalColors : Colors) (o : CompilationOptions)
    (rest : list string) (w : World) : World :=
  evolve
    (with_options_file
       (with_stdin
          (evolve w (fs w) (setup_lines TerminalColors o ++ [Prompt EmptyString]))
          rest)
       (Some (to_dict o)))
    (fs w)
    [Dumped (to_dict o);
     Stdout (OKGREEN TerminalColors ++ "Compilation options updated!"
             ++ ENDC TerminalColors)].

(** The seven choices the settings submenu knows. *)
Definition known_setting (choice : string) : bool :=
  existsb (String.eqb choice) ["0"; "1"; "2"; "3"; "4"; "5"; "6"].

(** Two characters outside the ASCII range: SUPERSCRIPT TWO, a digit for
    [isdigit] that [int] does not read, and NO-BREAK SPACE, which [strip]
    removes. *)
Definition superscript_two : string := Str.chr 178.
Definition no_break_space : string := Str.chr 160.

(** * Properties *)

(** ** The monad *)

Example split_ex : Str.split "1, 2,,x" ","%char = ["1"; " 2"; EmptyString; "x"].
Proof. reflexivity. Qed.

Example strip_ex : Str.strip "  a b	 " = "a b".
Proof. reflexivity. Qed.

(** [strip] removes the white space of every script, [isdigit] knows the
    digits of every script, and [int] reads the decimal ones only. *)
Example strip_no_break_space_ex :
  Str.strip (no_break_space ++ "1" ++ Str.chr 8195) = "1".
Proof. vm_compute. reflexivity. Qed.

Example isdigit_superscript_ex :
  Str.isdigit superscript_two = true /\ Str.int superscript_two = None.
Proof. vm_compute. split; reflexivity. Qed.

Example int_arabic_indic_ex : Str.int ("1" ++ Str.chr 1635) = Some 13%Z.
Proof. vm_compute. reflexivity. Qed.

Example abspath_ex :
  Path.abspath "/home/u/jacs" "../proj/./src/" = "/home/u/proj/src"
  /\ Path.abspath "/home/u" "/a//b/../c" = "/a/c"
  /\ Path.abspath "/home/u" EmptyString = "/home/u"
  /\ Path.basename "/home/u/proj" = "proj".
Proof. repeat split; reflexivity. Qed.

Example of_nat_ex : Str.of_nat 0 = "0" /\ Str.of_nat 12 = "12".
Proof. split; reflexivity. Qed.

Lemma bind_Ret {A B} (m : M A) (k : A -> M B) w a w1 :
  m w = (Ret a, w1) -> bind m k w = k a w1.
Proof. intros H. unfold bind. rewrite H. reflexivity. Qed.

Lemma bind_Ret_inv {A B} (m : M A) (k : A -> M B) w b w' :
  bind m k w = (Ret b, w') ->
  exists a w1, m w = (Ret a, w1) /\ k a w1 = (Ret b, w').
Proof.
  unfold bind. destruct (m w) as [[a | e | s | ] w1]; intros H; try discriminate.
  exists a, w1. split; [reflexivity | exact H].
Qed.

Lemma reads_only_ret {A} (a : A) : reads_only (ret a).
Proof. intros w. reflexivity. Qed.

Lemma reads_only_bind {A B} (m : M A) (k : A -> M B) :
  reads_only m -> (forall a, reads_only (k a)) -> reads_only (bind m k).
Proof.
  intros Hm Hk w. unfold bind. specialize (Hm w).
  destruct (m w) as [[a | e | s | ] w1]; simpl in *; subst; try reflexivity.
  apply Hk.
Qed.

Lemma reads_only_for_fold {A S} (body : S -> A -> M S) :
  (forall s x, reads_only (body s x)) ->
  forall xs s, reads_only (for_fold xs s body).
Proof.
  intros Hbody xs. induction xs as [| x xs IH]; intros s; simpl.
  - apply reads_only_ret.
  - apply reads_only_bind; [apply Hbody | intros s'; apply IH].
Qed.

Lemma reads_only_os_listdir folder : reads_only (os_listdir folder).
Proof.
  intros w. unfold os_listdir. destruct (fs w folder) as [[| names] |]; reflexivity.
Qed.

Lemma reads_only_visit recurse folder condition acc name :
  (forall file, reads_only (recurse file)) ->
  reads_only (visit recurse folder condition acc name).
Proof.
  intros Hrec. unfold visit. apply reads_only_bind.
  - intros w. reflexivity.
  - intros [|].
    + apply reads_only_bind; [apply Hrec | intros; apply reads_only_ret].
    + destruct (condition _); apply reads_only_ret.
Qed.

(** The traversal only reads the file system. *)

Lemma reads_only_posorder_traversal fuel :
  forall folder condition, reads_only (_posorder_traversal fuel folder condition).
Proof.
  induction fuel as [| fuel IH]; intros folder condition; simpl.
  - intros w. reflexivity.
  - apply reads_only_bind; [apply reads_only_os_listdir |].
    intros names. apply reads_only_for_fold. intros acc name.
    apply reads_only_visit. intros file. apply IH.
Qed.

Lemma posorder_traversal_world fuel folder condition w :
  _posorder_traversal fuel folder condition w
  = (fst (_posorder_traversal fuel folder condition w), w).
Proof.
  rewrite <- (reads_only_posorder_traversal fuel folder condition w) at 3.
  apply surjective_pairing.
Qed.

Lemma posorder_traversal_S fuel folder condition w :
  _posorder_traversal (S fuel) folder condition w =
  match fs w folder with
  | Some (Os.Directory names) => scan_names fuel folder condition names [] w
  | Some Os.File => (Raise (NotADirectoryError folder), w)
  | None => (Raise (FileNotFoundError folder), w)
  end.
Proof.
  simpl. unfold bind, os_listdir, scan_names.
  destruct (fs w folder) as [[| names] |]; reflexivity.
Qed.

Lemma scan_names_cons fuel folder condition name names acc w :
  scan_names fuel folder condition (name :: names) acc w =
  match fst (contribution fuel folder condition name w) with
  | Ret found => scan_names fuel folder condition names (acc ++ found) w
  | Raise e => (Raise e, w)
  | Exit s => (Exit s, w)
  | OutOfFuel => (OutOfFuel, w)
  end.
Proof.
  unfold scan_names, contribution. simpl for_fold. unfold bind at 1.
  unfold visit at 1. unfold bind at 1. unfold os_path_isdir at 1.
  destruct (Os.isdir (fs w) (Path.join folder name)).
  - unfold bind. rewrite posorder_traversal_world.
    destruct (fst (_posorder_traversal fuel (Path.join folder name) condition w));
      reflexivity.
  - simpl. destruct (condition (Path.join folder name)); simpl.
    + reflexivity.
    + rewrite app_nil_r. reflexivity.
Qed.

Lemma scan_names_nil fuel folder condition acc w :
  scan_names fuel folder condition [] acc w = (Ret acc, w).
Proof. reflexivity. Qed.

Lemma scan_names_acc fuel folder condition names :
  forall acc w,
    scan_names fuel folder condition names acc w =
    match fst (scan_names fuel folder condition names [] w) with
    | Ret found => (Ret (acc ++ found)%list, w)
    | Raise e => (Raise e, w)
    | Exit s => (Exit s, w)
    | OutOfFuel => (OutOfFuel, w)
    end.
Proof.
  induction names as [| name names IH]; intros acc w.
  - simpl. rewrite app_nil_r. reflexivity.
  - rewrite !scan_names_cons.
    destruct (fst (contribution fuel folder condition name w)) as [c | e | s |];
      try reflexivity.
    rewrite (IH (acc ++ c)%list), (IH ([] ++ c)%list).
    destruct (fst (scan_names fuel folder condition names [] w)); try reflexivity.
    simpl. rewrite app_assoc. reflexivity.
Qed.

(** The loop returns exactly when every name contributes, and then its
    result is the contributions one after the other, in listing order. *)

Lemma scan_names_concat fuel folder condition w names :
  forall files,
    fst (scan_names fuel folder condition names [] w) = Ret files <->
    exists cs,
      Forall2 (fun name c => fst (contribution fuel folder condition name w) = Ret c)
              names cs
      /\ files = concat cs.
Proof.
  induction names as [| name names IH]; intros files.
  - simpl. split.
    + intros H. injection H as <-. exists []. split; [constructor | reflexivity].
    + intros (cs & HF & ->). inversion HF. reflexivity.
  - rewrite scan_names_cons. split.
    + destruct (fst (contribution fuel folder condition name w)) as [c | e | s |] eqn:Ec;
        try discriminate.
      rewrite scan_names_acc. simpl.
      destruct (fst (scan_names fuel folder condition names [] w)) as [found | | |] eqn:Es;
        try discriminate.
      intros H. injection H as <-.
      destruct (proj1 (IH found) eq_refl) as (cs & HF & ->).
      exists (c :: cs). split; [constructor; assumption | reflexivity].
    + intros (cs & HF & ->). inversion HF as [| ? c ? cs' Hc HF' ]; subst.
      rewrite Hc. rewrite scan_names_acc.
      rewrite (proj2 (IH (concat cs'))); [reflexivity |].
      exists cs'. split; [assumption | reflexivity].
Qed.

(** ** The files under a folder *)

Lemma file_under_not_dir fs folder p :
  file_under fs folder p -> Os.isdir fs p = false.
Proof. induction 1; assumption. Qed.

Lemma posorder_traversal_total condition w :
  forall fuel depth folder,
    nests (fs w) depth folder -> depth <= fuel ->
    exists files, fst (_posorder_traversal fuel folder condition w) = Ret files.
Proof.
  induction fuel as [| fuel IH]; intros depth folder Hn Hle.
  - inversion Hn; subst. lia.
  - inversion Hn as [d ? names Hdir Hsub]; subst.
    rewrite posorder_traversal_S, Hdir.
    assert (Hall : forall name, In name names ->
              exists c, fst (contribution fuel folder condition name w) = Ret c).
    { intros name Hin. unfold contribution.
      destruct (Os.isdir (fs w) (Path.join folder name)) eqn:Ed.
      - apply (IH d); [apply Hsub; assumption | lia].
      - eexists. reflexivity. }
    clear Hdir Hsub Hn.
    assert (Hcs : exists cs,
              Forall2 (fun name c => fst (contribution fuel folder condition name w) = Ret c)
                      names cs).
    { induction names as [| name names IHn].
      - exists []. constructor.
      - destruct (Hall name (or_introl eq_refl)) as [c Hc].
        destruct IHn as [cs Hcs]; [intros n Hn; apply Hall; right; exact Hn |].
        exists (c :: cs). constructor; assumption. }
    destruct Hcs as [cs Hcs]. exists (concat cs).
    apply scan_names_concat. exists cs. split; [assumption | reflexivity].
Qed.

Lemma Forall2_In_l {A B} (R : A -> B -> Prop) xs ys x :
  Forall2 R xs ys -> In x xs -> exists y, In y ys /\ R x y.
Proof.
  induction 1 as [| x' y' xs' ys' HR HF IH]; intros Hin; [destruct Hin |].
  destruct Hin as [<- | Hin].
  - exists y'. split; [left; reflexivity | exact HR].
  - destruct (IH Hin) as (y & Hy & Hxy). exists y. split; [right |]; assumption.
Qed.

Lemma Forall2_In_r {A B} (R : A -> B -> Prop) xs ys y :
  Forall2 R xs ys -> In y ys -> exists x, In x xs /\ R x y.
Proof.
  induction 1 as [| x' y' xs' ys' HR HF IH]; intros Hin; [destruct Hin |].
  destruct Hin as [<- | Hin].
  - exists x'. split; [left; reflexivity | exact HR].
  - destruct (IH Hin) as (x & Hx & Hxy). exists x. split; [right |]; assumption.
Qed.

Lemma posorder_traversal_sound condition w :
  forall fuel folder files,
    fst (_posorder_traversal fuel folder condition w) = Ret files ->
    forall p, In p files <-> file_under (fs w) folder p /\ condition p = true.
Proof.
  induction fuel as [| fuel IH]; intros folder files Hrun p.
  - discriminate.
  - rewrite posorder_traversal_S in Hrun.
    destruct (fs w folder) as [[| names] |] eqn:Hdir; try discriminate.
    apply scan_names_concat in Hrun. destruct Hrun as (cs & HF & ->).
    rewrite in_concat. split.
    + intros (c & Hc & Hp).
      destruct (Forall2_In_r _ _ _ _ HF Hc) as (name & Hname & Hcontrib).
      unfold contribution in Hcontrib.
      destruct (Os.isdir (fs w) (Path.join folder name)) eqn:Ed.
      * apply (IH _ _ Hcontrib) in Hp. destruct Hp as [Hu Hcond].
        split; [| exact Hcond]. eapply file_below; eassumption.
      * simpl in Hcontrib. injection Hcontrib as <-.
        destruct (condition (Path.join folder name)) eqn:Ec; [| destruct Hp].
        destruct Hp as [<- | []]. split; [| exact Ec].
        eapply file_here; eassumption.
    + intros [Hu Hcond].
      inversion Hu as [? names' name Hdir' Hin Hfile | ? names' name ? Hdir' Hin Hsub Hbelow];
        subst; rewrite Hdir in Hdir'; injection Hdir' as <-;
        destruct (Forall2_In_l _ _ _ _ HF Hin) as (c & Hc & Hcontrib);
        exists c; (split; [exact Hc |]);
        unfold contribution in Hcontrib.
      * rewrite Hfile in Hcontrib. simpl in Hcontrib. injection Hcontrib as <-.
        rewrite Hcond. left. reflexivity.
      * rewrite Hsub in Hcontrib. apply (IH _ _ Hcontrib). split; assumption.
Qed.

Lemma nestsb_sound fs :
  forall depth folder, nestsb fs depth folder = true -> nests fs depth folder.
Proof.
  induction depth as [| depth IH]; intros folder H; simpl in H; [discriminate |].
  destruct (fs folder) as [[| names] |] eqn:Hdir; try discriminate.
  apply nests_intro with (names := names); [exact Hdir |].
  intros name Hin Hd. rewrite forallb_forall in H. specialize (H name Hin).
  rewrite Hd in H. apply IH. exact H.
Qed.

(** The result of the traversal is a function of the file system alone. *)
Lemma posorder_traversal_fs condition w1 w2 :
  fs w1 = fs w2 ->
  forall fuel folder,
    fst (_posorder_traversal fuel folder condition w1)
    = fst (_posorder_traversal fuel folder condition w2).
Proof.
  intros Hfs. induction fuel as [| fuel IH]; intros folder; [reflexivity |].
  rewrite !posorder_traversal_S, <- Hfs.
  destruct (fs w1 folder) as [[| names] |]; try reflexivity.
  generalize (@nil string) as acc.
  induction names as [| name names IHn]; intros acc; [reflexivity |].
  rewrite !scan_names_cons.
  assert (Hc : fst (contribution fuel folder condition name w1)
               = fst (contribution fuel folder condition name w2)).
  { unfold contribution. rewrite <- Hfs.
    destruct (Os.isdir (fs w1) (Path.join folder name)); [apply IH | reflexivity]. }
  rewrite <- Hc.
  destruct (fst (contribution fuel folder condition name w1)); try reflexivity.
  apply IHn.
Qed.

(** ** Paths of a tidy file system *)

Lemma distinct_NoDup names : distinct names = true -> NoDup names.
Proof.
  induction names as [| name names IH]; simpl; intros H; [constructor |].
  apply andb_prop in H. destruct H as [Hn Hd]. constructor; [| apply IH; exact Hd].
  intros Hin. apply negb_true_iff in Hn.
  assert (Hex : existsb (String.eqb name) names = true).
  { apply existsb_exists. exists name. split; [exact Hin | apply String.eqb_refl]. }
  congruence.
Qed.

Lemma fs_of_In table p e :
  fs_of table p = Some e -> In (p, e) table.
Proof.
  unfold fs_of. destruct (find _ table) as [[k v] |] eqn:Hf; [| discriminate].
  intros H. injection H as <-. apply find_some in Hf. destruct Hf as [Hin Hk].
  simpl in Hk. apply String.eqb_eq in Hk. subst k. exact Hin.
Qed.

Lemma tidy_table_sound table : tidy_table table = true -> tidy (fs_of table).
Proof.
  intros H folder names Hdir. apply fs_of_In in Hdir.
  unfold tidy_table in H. rewrite forallb_forall in H.
  specialize (H _ Hdir). simpl in H. apply andb_prop in H. destruct H as [Hd Hall].
  split; [apply distinct_NoDup; exact Hd |].
  intros name Hin. rewrite forallb_forall in Hall. specialize (Hall name Hin).
  apply andb_prop in Hall. destruct Hall as [Hp He]. split; [exact Hp |].
  unfold Os.exists_ in He. destruct (fs_of table (Path.join folder name)); congruence.
Qed.

Lemma append_cancel_l (a x y : string) : (a ++ x = a ++ y)%string -> x = y.
Proof.
  induction a as [| c a IH]; simpl; intros H; [exact H |].
  injection H as H. apply IH. exact H.
Qed.

Lemma append_assoc (a b c : string) : ((a ++ b) ++ c = a ++ (b ++ c))%string.
Proof. induction a as [| x a IH]; simpl; [reflexivity | rewrite IH; reflexivity]. Qed.

Lemma append_nil_r (a : string) : (a ++ EmptyString)%string = a.
Proof. induction a as [| x a IH]; simpl; [reflexivity | rewrite IH; reflexivity]. Qed.

Lemma proper_name_inv name :
  proper_name name = true ->
  name <> EmptyString /\ Str.mem Path.sep_char name = false.
Proof.
  unfold proper_name. intros H. apply andb_prop in H. destruct H as [H1 H2].
  apply negb_true_iff in H1, H2. split; [| exact H2].
  intros ->. discriminate.
Qed.

Lemma proper_name_not_startswith_sep name :
  proper_name name = true -> Str.startswith name Path.sep = false.
Proof.
  intros H. apply proper_name_inv in H. destruct H as [_ Hm].
  destruct name as [| c name]; [reflexivity |]. simpl in *.
  apply orb_false_iff in Hm. destruct Hm as [Hc _].
  unfold Path.sep_char in Hc. rewrite Hc. reflexivity.
Qed.

Lemma endswith_sep_append a name :
  name <> EmptyString ->
  Str.endswith (a ++ name) Path.sep = Str.endswith name Path.sep.
Proof.
  intros Hne. induction a as [| c a IH]; [reflexivity |].
  simpl. destruct (a ++ name)%string as [| d rest] eqn:E.
  - destruct a; [simpl in E; congruence | discriminate].
  - rewrite <- IH. unfold Path.sep.
    destruct (Ascii.eqb c "/"); reflexivity.
Qed.

Lemma endswith_sep_proper name :
  Str.mem Path.sep_char name = false -> Str.endswith name Path.sep = false.
Proof.
  induction name as [| c name IH]; intros Hm; [reflexivity |].
  simpl in Hm. apply orb_false_iff in Hm. destruct Hm as [Hc Hm].
  simpl. unfold Path.sep.
  replace (Ascii.eqb c "/") with false
    by (symmetry; rewrite Ascii.eqb_sym; exact Hc).
  destruct name; [reflexivity | apply IH; exact Hm].
Qed.

Lemma join_proper folder name :
  proper_name name = true ->
  Path.join folder name = (folder ++ joint folder ++ name)%string.
Proof.
  intros H. unfold Path.join, joint.
  rewrite (proper_name_not_startswith_sep _ H).
  destruct (String.eqb folder EmptyString || Str.endswith folder Path.sep);
    reflexivity.
Qed.

Lemma joint_join folder name :
  proper_name name = true -> joint (Path.join folder name) = Path.sep.
Proof.
  intros H. rewrite (join_proper _ _ H). destruct (proper_name_inv _ H) as [Hne Hm].
  unfold joint at 1. rewrite <- append_assoc.
  rewrite (endswith_sep_append _ _ Hne), (endswith_sep_proper _ Hm).
  destruct ((folder ++ joint folder) ++ name)%string eqn:E; [| reflexivity].
  destruct (folder ++ joint folder)%string; simpl in E; congruence.
Qed.

Lemma head_of_tail t c u :
  (t = EmptyString \/ Str.startswith t Path.sep = true) ->
  t = String c u -> Ascii.eqb Path.sep_char c = true.
Proof.
  intros [-> | Hs] E; [discriminate |]. subst t. simpl in Hs.
  apply andb_prop in Hs. destruct Hs as [Hs _]. exact Hs.
Qed.

(** Two proper names followed by nothing or by a separator: equal texts
    have equal names. *)
Lemma proper_names_apart n1 : forall n2 t1 t2,
  Str.mem Path.sep_char n1 = false -> Str.mem Path.sep_char n2 = false ->
  (t1 = EmptyString \/ Str.startswith t1 Path.sep = true) ->
  (t2 = EmptyString \/ Str.startswith t2 Path.sep = true) ->
  (n1 ++ t1 = n2 ++ t2)%string -> n1 = n2.
Proof.
  induction n1 as [| c n1 IH]; intros [| d n2] t1 t2 H1 H2 Ht1 Ht2 E.
  - reflexivity.
  - exfalso. simpl in E. cbn [Str.mem] in H2. apply orb_false_iff in H2.
    pose proof (head_of_tail _ _ _ Ht1 E) as Hh. unfold Path.sep_char in *.
    destruct H2; congruence.
  - exfalso. simpl in E. cbn [Str.mem] in H1. apply orb_false_iff in H1. symmetry in E.
    pose proof (head_of_tail _ _ _ Ht2 E) as Hh. unfold Path.sep_char in *.
    destruct H1; congruence.
  - simpl in E. injection E as -> E. f_equal.
    cbn [Str.mem] in H1, H2. apply orb_false_iff in H1, H2.
    apply (IH n2 t1 t2); tauto.
Qed.

(** In a tidy file system every path the traversal of [folder] returns is
    [folder] joined with one of its names, followed by nothing or by a
    separator and more. *)
Lemma posorder_traversal_shape condition w :
  tidy (fs w) ->
  forall fuel folder files,
    fst (_posorder_traversal fuel folder condition w) = Ret files ->
    forall p, In p files ->
      exists name t, proper_name name = true
                     /\ p = (Path.join folder name ++ t)%string /\ continues t.
Proof.
  intros Htidy. induction fuel as [| fuel IH]; intros folder files Hrun p Hp;
    [discriminate |].
  rewrite posorder_traversal_S in Hrun.
  destruct (fs w folder) as [[| names] |] eqn:Hdir; try discriminate.
  apply scan_names_concat in Hrun. destruct Hrun as (cs & HF & ->).
  apply in_concat in Hp. destruct Hp as (c & Hc & Hp).
  destruct (Forall2_In_r _ _ _ _ HF Hc) as (name & Hname & Hcontrib).
  destruct (Htidy _ _ Hdir) as [_ Hnames].
  destruct (Hnames _ Hname) as [Hproper _].
  exists name. unfold contribution in Hcontrib.
  destruct (Os.isdir (fs w) (Path.join folder name)).
  - destruct (IH _ _ Hcontrib _ Hp) as (m & t & Hm & -> & Ht).
    exists (Path.sep ++ m ++ t)%string. split; [exact Hproper |]. split.
    + rewrite (join_proper (Path.join folder name) m Hm).
      rewrite (joint_join _ _ Hproper). rewrite !append_assoc. reflexivity.
    + right. unfold Path.sep. simpl. reflexivity.
  - simpl in Hcontrib. injection Hcontrib as <-.
    destruct (condition (Path.join folder name)); [| destruct Hp].
    destruct Hp as [<- | []]. exists EmptyString.
    split; [exact Hproper |]. split; [rewrite append_nil_r; reflexivity | left; reflexivity].
Qed.

Lemma NoDup_concat_Forall2 {A B} (R : A -> list B -> Prop) xs cs :
  Forall2 R xs cs ->
  NoDup xs ->
  (forall x c, In x xs -> R x c -> NoDup c) ->
  (forall x1 c1 x2 c2 y,
      In x1 xs -> In x2 xs -> R x1 c1 -> R x2 c2 -> In y c1 -> In y c2 -> x1 = x2) ->
  NoDup (concat cs).
Proof.
  induction 1 as [| x c xs cs HR HF IH]; intros Hnd Hc Hsep; [constructor |].
  simpl. inversion Hnd as [| ? ? Hnot Hnd']; subst. apply NoDup_app.
  - apply (Hc x); [left; reflexivity | exact HR].
  - apply IH; [exact Hnd' | |].
    + intros x' c' Hin. apply Hc. right. exact Hin.
    + intros x1 c1 x2 c2 y H1 H2. apply Hsep; right; assumption.
  - intros y Hy Hy'. apply in_concat in Hy'. destruct Hy' as (c' & Hc' & Hy').
    destruct (Forall2_In_r _ _ _ _ HF Hc') as (x' & Hx' & HR').
    assert (x = x') by
      (apply (Hsep x c x' c' y); [left; reflexivity | right | | | |]; assumption).
    subst x'. contradiction.
Qed.

(** In a tidy file system the traversal returns no path twice. *)
Lemma posorder_traversal_NoDup condition w :
  tidy (fs w) ->
  forall fuel folder files,
    fst (_posorder_traversal fuel folder condition w) = Ret files -> NoDup files.
Proof.
  intros Htidy. induction fuel as [| fuel IH]; intros folder files Hrun;
    [discriminate |].
  rewrite posorder_traversal_S in Hrun.
  destruct (fs w folder) as [[| names] |] eqn:Hdir; try discriminate.
  apply scan_names_concat in Hrun. destruct Hrun as (cs & HF & ->).
  destruct (Htidy _ _ Hdir) as [Hnd Hnames].
  assert (Hshape : forall name c p,
            In name names ->
            fst (contribution fuel folder condition name w) = Ret c -> In p c ->
            exists t, p = (Path.join folder name ++ t)%string /\ continues t).
  { intros name c p Hname Hcontrib Hp. unfold contribution in Hcontrib.
    destruct (Hnames _ Hname) as [Hproper _].
    destruct (Os.isdir (fs w) (Path.join folder name)).
    - destruct (posorder_traversal_shape condition w Htidy _ _ _ Hcontrib _ Hp)
        as (m & t & Hm & -> & Ht).
      exists (Path.sep ++ m ++ t)%string. split; [| right; unfold Path.sep; simpl; reflexivity].
      rewrite (join_proper (Path.join folder name) m Hm).
      rewrite (joint_join _ _ Hproper). rewrite !append_assoc. reflexivity.
    - simpl in Hcontrib. injection Hcontrib as <-.
      destruct (condition (Path.join folder name)); [| destruct Hp].
      destruct Hp as [<- | []]. exists EmptyString.
      split; [rewrite append_nil_r; reflexivity | left; reflexivity]. }
  eapply NoDup_concat_Forall2; [exact HF | exact Hnd | |].
  - intros name c Hname Hcontrib. unfold contribution in Hcontrib.
    destruct (Os.isdir (fs w) (Path.join folder name)).
    + apply (IH _ _ Hcontrib).
    + simpl in Hcontrib. injection Hcontrib as <-.
      destruct (condition _); [| constructor].
      constructor; [intros [] | constructor].
  - intros n1 c1 n2 c2 p Hn1 Hn2 Hc1 Hc2 Hp1 Hp2.
    destruct (Hshape _ _ _ Hn1 Hc1 Hp1) as (t1 & E1 & Ht1).
    destruct (Hshape _ _ _ Hn2 Hc2 Hp2) as (t2 & E2 & Ht2).
    destruct (Hnames _ Hn1) as [Hp1' _]. destruct (Hnames _ Hn2) as [Hp2' _].
    rewrite E1 in E2. rewrite (join_proper _ _ Hp1'), (join_proper _ _ Hp2') in E2.
    rewrite !append_assoc in E2. apply append_cancel_l in E2.
    apply append_cancel_l in E2.
    apply proper_name_inv in Hp1', Hp2'.
    apply (proper_names_apart n1 n2 t1 t2); tauto.
Qed.

(** ** What the traversal returns *)

(** C5. For every directory tree (of finite depth, which excludes cycles
    of links) and every predicate, the post-order traversal returns; what
    it returns holds exactly the paths of the entries under the folder, at
    any depth, that are not directories and satisfy the predicate; it
    leaves the world as it was; and a new traversal of the same file
    system returns the same list, so the same multiset. *)
Theorem posorder_traversal_exact condition w depth fuel folder :
  nests (fs w) depth folder ->
  depth <= fuel ->
  exists files,
    _posorder_traversal fuel folder condition w = (Ret files, w)
    /\ (forall p, In p files <-> file_under (fs w) folder p /\ condition p = true)
    /\ (forall p, In p files -> Os.isdir (fs w) p = false)
    /\ (tidy (fs w) -> NoDup files)
    /\ (forall w', fs w' = fs w ->
                   _posorder_traversal fuel folder condition w' = (Ret files, w')).
Proof.
  intros Hn Hle.
  destruct (posorder_traversal_total condition w fuel depth folder Hn Hle)
    as [files Hrun].
  exists files. split; [| split; [| split; [| split]]].
  - rewrite posorder_traversal_world, Hrun. reflexivity.
  - apply (posorder_traversal_sound _ _ _ _ _ Hrun).
  - intros p Hp. apply (posorder_traversal_sound _ _ _ _ _ Hrun) in Hp.
    eapply file_under_not_dir. apply Hp.
  - intros Htidy. apply (posorder_traversal_NoDup condition w Htidy _ _ _ Hrun).
  - intros w' Hfs. rewrite posorder_traversal_world.
    rewrite (posorder_traversal_fs condition w' w Hfs), Hrun. reflexivity.
Qed.

(** C6. The order of the result is the order of the listing, each
    sub-folder spliced in place: when the listing of [folder] is
    [before ++ name :: after], the result is what the names of [before]
    give, then what [name] gives (the whole result of the sub-folder it
    names, or the file itself when it matches, or nothing), then what the
    names of [after] give, each part computed by the same loop; nothing is
    sorted. *)
Theorem posorder_traversal_splices fuel folder condition w before name after files :
  fs w folder = Some (Os.Directory (before ++ name :: after)%list) ->
  fst (_posorder_traversal (S fuel) folder condition w) = Ret files ->
  exists found_before found_here found_after,
    files = (found_before ++ found_here ++ found_after)%list
    /\ fst (scan_names fuel folder condition before [] w) = Ret found_before
    /\ fst (scan_names fuel folder condition after [] w) = Ret found_after
    /\ (Os.isdir (fs w) (Path.join folder name) = true ->
        fst (_posorder_traversal fuel (Path.join folder name) condition w)
        = Ret found_here)
    /\ (Os.isdir (fs w) (Path.join folder name) = false ->
        found_here = if condition (Path.join folder name)
                     then [Path.join folder name] else []).
Proof.
  intros Hdir Hrun. rewrite posorder_traversal_S, Hdir in Hrun.
  apply scan_names_concat in Hrun. destruct Hrun as (cs & HF & ->).
  apply Forall2_app_inv_l in HF.
  destruct HF as (cs_before & cs_rest & HFb & HFr & ->).
  inversion HFr as [| ? c ? cs_after Hc HFa]; subst.
  exists (concat cs_before), c, (concat cs_after).
  split; [| split; [| split; [| split]]].
  - rewrite concat_app. reflexivity.
  - apply scan_names_concat. exists cs_before. split; [assumption | reflexivity].
  - apply scan_names_concat. exists cs_after. split; [assumption | reflexivity].
  - intros Hd. unfold contribution in Hc. rewrite Hd in Hc. exact Hc.
  - intros Hd. unfold contribution in Hc. rewrite Hd in Hc.
    simpl in Hc. injection Hc as <-. reflexivity.
Qed.

(** ** Cleaning the build *)

Lemma evolve_evolve w fs1 es1 fs2 es2 :
  evolve (evolve w fs1 es1) fs2 es2 = evolve w fs2 (es1 ++ es2)%list.
Proof. unfold evolve. simpl. rewrite app_assoc. reflexivity. Qed.

Lemma evolve_nil w : evolve w (fs w) [] = w.
Proof. destruct w. unfold evolve. simpl. rewrite app_nil_r. reflexivity. Qed.

Lemma without_other (fs : Os.FS) p q :
  q <> p -> fs q = Some Os.File -> Os.without fs p q = Some Os.File.
Proof.
  intros Hne Hq. unfold Os.without. rewrite Hq.
  destruct (String.eqb q p) eqn:E; [| reflexivity].
  apply String.eqb_eq in E. contradiction.
Qed.

Lemma without_None fs p q :
  Os.without fs p q = None <-> q = p \/ fs q = None.
Proof.
  unfold Os.without. destruct (String.eqb q p) eqn:E.
  - apply String.eqb_eq in E. tauto.
  - apply String.eqb_neq in E. destruct (fs q) as [[| names] |]; split;
      try discriminate; try tauto; intros [? | ?]; try contradiction; discriminate.
Qed.

Lemma fold_without_None files : forall fs q,
  fold_left Os.without files fs q = None <-> In q files \/ fs q = None.
Proof.
  induction files as [| f files IH]; intros fs q; simpl; [tauto |].
  rewrite IH, without_None. intuition congruence.
Qed.

Lemma fold_without_File files : forall fs q,
  fs q = Some Os.File -> ~ In q files ->
  fold_left Os.without files fs q = Some Os.File.
Proof.
  induction files as [| f files IH]; intros fs q Hq Hnot; simpl; [exact Hq |].
  apply IH; [| intros H; apply Hnot; right; exact H].
  apply (without_other fs f q); [| exact Hq].
  intros ->. apply Hnot. left. reflexivity.
Qed.

(** The deletion loop of [clear_build] on files that exist, each once. *)
Lemma delete_each tc files : forall w,
  NoDup files ->
  (forall f, In f files -> fs w f = Some Os.File) ->
  for_each files (fun file =>
    os_remove file ;;
    print (WARNING tc ++ "Deleted: " ++ file ++ ENDC tc)) w
  = (Ret tt, evolve w (fold_left Os.without files (fs w))
                    (flat_map (deletion tc) files)).
Proof.
  induction files as [| f files IH]; intros w Hnd Hfiles.
  - simpl. unfold ret. rewrite evolve_nil. reflexivity.
  - inversion Hnd as [| ? ? Hnot Hnd']; subst.
    simpl for_each. unfold bind at 1. unfold bind at 1.
    unfold os_remove at 1. simpl fs.
    rewrite (Hfiles f (or_introl eq_refl)). unfold print at 1.
    rewrite IH.
    + unfold evolve, emit, with_fs. simpl.
      rewrite <- !app_assoc. reflexivity.
    + exact Hnd'.
    + intros f' Hf'. simpl. apply without_other.
      * intros ->. contradiction.
      * apply Hfiles. right. exact Hf'.
Qed.

Lemma removed_app es1 es2 : removed (es1 ++ es2) = (removed es1 ++ removed es2)%list.
Proof.
  induction es1 as [| e es1 IH]; [reflexivity |].
  destruct e; simpl; rewrite IH; reflexivity.
Qed.

Lemma removed_deletions tc files : removed (flat_map (deletion tc) files) = files.
Proof.
  induction files as [| f files IH]; [reflexivity |]. simpl. rewrite IH. reflexivity.
Qed.

Lemma file_under_listed fs folder p :
  tidy fs -> file_under fs folder p -> fs p = Some Os.File.
Proof.
  intros Htidy Hu. induction Hu as [folder names name Hdir Hin Hfile | ]; [| assumption].
  destruct (Htidy _ _ Hdir) as [_ Hnames]. destruct (Hnames _ Hin) as [_ Hex].
  unfold Os.isdir in Hfile.
  destruct (fs (Path.join folder name)) as [[| ?] |]; congruence.
Qed.

(** C3, as amended. On every tidy source tree of finite depth,
    [clear_build] returns; it calls [os.remove] on exactly the entries under
    the source folder that are not directories and whose path ends with
    [.class], each once, and on nothing else, so that these paths, and only
    these, stop naming something; it writes one [Deleted:] line after each
    deletion and ends with the line [Build cleaned!]. No line gives a
    count. *)
Theorem clear_build_deletes_the_class_files tc fuel depth o w :
  tidy (fs w) ->
  nests (fs w) depth (src_folder o) ->
  depth <= fuel ->
  exists files w',
    clear_build tc fuel o w = (Ret tt, w')
    /\ (forall p, In p files <->
                  file_under (fs w) (src_folder o) p /\ Str.endswith p ".class" = true)
    /\ NoDup files
    /\ log w' = (log w
                 ++ [Stdout (OKCYAN tc ++ "Cleaning build..." ++ ENDC tc);
                     Stdout EmptyString]
                 ++ flat_map (deletion tc) files
                 ++ [Stdout (nl ++ OKGREEN tc ++ "Build cleaned!" ++ ENDC tc)])%list
    /\ removed (flat_map (deletion tc) files) = files
    /\ (forall p, fs w' p = None <-> In p files \/ fs w p = None)
    /\ (forall p, fs w p = Some Os.File -> ~ In p files -> fs w' p = Some Os.File).
Proof.
  intros Htidy Hn Hle.
  destruct (posorder_traversal_total is_class w fuel depth _ Hn Hle) as [files Hrun].
  pose proof (posorder_traversal_sound _ _ _ _ _ Hrun) as Hsound.
  pose proof (posorder_traversal_NoDup _ _ Htidy _ _ _ Hrun) as Hnd.
  exists files.
  eexists. split; [| split; [exact Hsound | split; [exact Hnd |]]].
  - unfold clear_build. unfold bind at 1.
    rewrite posorder_traversal_world, Hrun.
    unfold bind at 1. unfold print at 1. unfold bind at 1. unfold print at 1.
    unfold bind at 1. rewrite (delete_each tc files).
    + unfold print. reflexivity.
    + exact Hnd.
    + intros f Hf. simpl. apply Hsound in Hf. destruct Hf as [Hu _].
      apply (file_under_listed _ _ _ Htidy Hu).
  - simpl. split; [| split; [| split]].
    + rewrite <- !app_assoc. reflexivity.
    + apply removed_deletions.
    + intros p. apply fold_without_None.
    + intros p. apply fold_without_File.
Qed.

Lemma built_project_tidy : tidy (fs (world_of built_project [])).
Proof. apply tidy_table_sound. reflexivity. Qed.

Lemma built_project_nests : nests (fs (world_of built_project [])) 2 "/proj".
Proof. apply nestsb_sound. reflexivity. Qed.

Lemma clear_build_deletes_the_class_files_witness :
  exists files w',
    clear_build plain 2 (options_of "/proj" "A") (world_of built_project [])
    = (Ret tt, w')
    /\ (forall p, In p files <->
                  file_under (fs_of built_project) "/proj" p
                  /\ Str.endswith p ".class" = true)
    /\ NoDup files
    /\ log w' = ([]
                 ++ [Stdout (OKCYAN plain ++ "Cleaning build..." ++ ENDC plain);
                     Stdout EmptyString]
                 ++ flat_map (deletion plain) files
                 ++ [Stdout (nl ++ OKGREEN plain ++ "Build cleaned!" ++ ENDC plain)])%list
    /\ removed (flat_map (deletion plain) files) = files
    /\ (forall p, fs w' p = None <-> In p files \/ fs_of built_project p = None)
    /\ (forall p, fs_of built_project p = Some Os.File -> ~ In p files ->
                  fs w' p = Some Os.File).
Proof.
  apply (clear_build_deletes_the_class_files plain 2 2
           (options_of "/proj" "A") (world_of built_project [])).
  - exact built_project_tidy.
  - exact built_project_nests.
  - lia.
Defined.

(** On the project with two compiled files and one source file,
    [clear_build] removes the two compiled files and writes four lines,
    none of which holds the count 2. *)
Lemma clear_build_reports_no_count :
  let run := clear_build plain 2 (options_of "/proj" "A") (world_of built_project []) in
  fst run = Ret tt
  /\ removed (log (snd run)) = ["/proj/sub/B.class"; "/proj/A.class"]
  /\ printed (log (snd run))
     = ["Cleaning build..."; EmptyString;
        "Deleted: /proj/sub/B.class"; "Deleted: /proj/A.class";
        nl ++ "Build cleaned!"]
  /\ ~ (exists text, In text (printed (log (snd run))) /\ contains text "2" = true).
Proof.
  split; [reflexivity |]. split; [reflexivity |]. split; [reflexivity |].
  intros (text & Hin & Hc). vm_compute in Hin.
  repeat (destruct Hin as [<- | Hin]; [vm_compute in Hc; discriminate |]).
  destruct Hin.
Qed.

(** ** Compiling *)

(** Runs the plumbing of the monad and of the world, and nothing else. *)
Ltac run :=
  unfold ret, raise, exit, print, eprint, os_system, evolve, emit, with_fs,
    with_stdin, with_options_file;
  cbn [bind fs cwd argv stdin options_file log fst snd negb].

Section Compiling.

Variable tc : Colors.
Variable sp : list string -> Os.FS -> option Os.CompletedProcess * Os.FS.

Lemma print_note o w :
  (if String.eqb (class_path o) (src_folder o)
   then print (WARNING tc
               ++ "NOTE> the -cp provided to the Java compiler was the Source Folder path. If you want a different one, change the compilation options."
               ++ ENDC tc)
   else ret tt) w
  = (Ret tt, evolve w (fs w) (note tc o)).
Proof.
  unfold note. destruct (String.eqb (class_path o) (src_folder o)).
  - reflexivity.
  - unfold ret. rewrite evolve_nil. reflexivity.
Qed.

Lemma compile_file_ok file o w result fs' :
  sp (compile_command o file) (fs w) = (Some result, fs') ->
  Os.returncode result = 0%Z ->
  _compile_file tc sp file o w
  = (Ret tt, evolve w fs' (Run (compile_command o file) :: note tc o)).
Proof.
  intros Hsp Hrc. unfold _compile_file. unfold bind at 1.
  unfold subprocess_run. simpl fs. rewrite Hsp.
  unfold bind at 1. rewrite print_note. rewrite Hrc, Z.eqb_refl. run.
  rewrite <- app_assoc. reflexivity.
Qed.

Lemma compile_file_failed file o w result fs' :
  sp (compile_command o file) (fs w) = (Some result, fs') ->
  Os.returncode result <> 0%Z ->
  _compile_file tc sp file o w
  = (Raise (CompilationError ("Could not compile the file " ++ dquote
                              ++ file ++ dquote ++ ".")),
     evolve w fs' ((Run (compile_command o file) :: note tc o)
                   ++ diagnostics tc file result)).
Proof.
  intros Hsp Hrc. unfold _compile_file. unfold bind at 1.
  unfold subprocess_run. simpl fs. rewrite Hsp.
  unfold bind at 1. rewrite print_note.
  apply Z.eqb_neq in Hrc. rewrite Hrc. unfold diagnostics. run.
  rewrite <- !app_assoc. reflexivity.
Qed.

(** The loop of a batch over files that all compile. *)
Lemma compile_each_ok o files : forall w fs',
  compiles sp o (fs w) files fs' ->
  for_each files (fun file =>
    print (nl ++ OKCYAN tc ++ "Compiling file: " ++ file ++ ENDC tc) ;;
    _compile_file tc sp file o) w
  = (Ret tt, evolve w fs' (flat_map (compiling tc o) files)).
Proof.
  induction files as [| file files IH]; intros w fs' Hc.
  - inversion Hc; subst. simpl. unfold ret. rewrite evolve_nil. reflexivity.
  - inversion Hc as [| ? ? result fs1 ? ? Hsp Hrc Hrest]; subst.
    simpl for_each. unfold bind at 1. unfold bind at 1. unfold print at 1.
    rewrite (compile_file_ok file o (emit w (Stdout _)) result fs1 Hsp Hrc).
    rewrite (IH _ fs').
    + unfold compiling at 2. run. cbn [flat_map].
      rewrite <- !app_assoc. reflexivity.
    + exact Hrest.
Qed.

(** The loop of a batch whose file [failing] is the first that fails. *)
Lemma compile_each_failed o before failing after : forall w fs1 result fs2,
  compiles sp o (fs w) before fs1 ->
  sp (compile_command o failing) fs1 = (Some result, fs2) ->
  Os.returncode result <> 0%Z ->
  for_each (before ++ failing :: after)%list (fun file =>
    print (nl ++ OKCYAN tc ++ "Compiling file: " ++ file ++ ENDC tc) ;;
    _compile_file tc sp file o) w
  = (Raise (CompilationError ("Could not compile the file " ++ dquote
                              ++ failing ++ dquote ++ ".")),
     evolve w fs2 (flat_map (compiling tc o) before
                   ++ compiling tc o failing
                   ++ diagnostics tc failing result)).
Proof.
  induction before as [| file before IH]; intros w fs1 result fs2 Hc Hsp Hrc.
  - inversion Hc; subst. simpl app. simpl for_each.
    unfold bind at 1. unfold bind at 1. unfold print at 1.
    rewrite (compile_file_failed failing o (emit w (Stdout _)) result fs2 Hsp Hrc).
    unfold compiling. run. cbn [flat_map app].
    rewrite <- !app_assoc. reflexivity.
  - inversion Hc as [| ? ? r1 fsa ? ? Hsp1 Hrc1 Hrest]; subst.
    simpl app. simpl for_each.
    unfold bind at 1. unfold bind at 1. unfold print at 1.
    rewrite (compile_file_ok file o (emit w (Stdout _)) r1 fsa Hsp1 Hrc1).
    rewrite (IH _ fs1 result fs2).
    + unfold compiling at 2. run. cbn [flat_map].
      rewrite <- !app_assoc. reflexivity.
    + exact Hrest.
    + exact Hsp.
    + exact Hrc.
Qed.

Lemma compile_batch_ok o files w fs' :
  compiles sp o (fs w) files fs' ->
  compile_batch tc sp files o w
  = (Ret true, evolve w fs' (flat_map (compiling tc o) files)).
Proof.
  intros Hc. unfold compile_batch, try_except_CompilationError.
  unfold bind at 1. rewrite (compile_each_ok o files w fs' Hc). reflexivity.
Qed.

Lemma compile_batch_failed o before failing after w fs1 result fs2 :
  compiles sp o (fs w) before fs1 ->
  sp (compile_command o failing) fs1 = (Some result, fs2) ->
  Os.returncode result <> 0%Z ->
  compile_batch tc sp (before ++ failing :: after)%list o w
  = (Ret false,
     evolve w fs2 (flat_map (compiling tc o) before
                   ++ compiling tc o failing
                   ++ diagnostics tc failing result
                   ++ [not_all_compiled tc])).
Proof.
  intros Hc Hsp Hrc. unfold compile_batch, try_except_CompilationError.
  unfold bind at 1.
  rewrite (compile_each_failed o before failing after w fs1 result fs2 Hc Hsp Hrc).
  unfold not_all_compiled. run.
  rewrite <- !app_assoc. reflexivity.
Qed.

Lemma spawned_app es1 es2 : spawned (es1 ++ es2) = (spawned es1 ++ spawned es2)%list.
Proof.
  induction es1 as [| e es1 IH]; [reflexivity |].
  destruct e; simpl; rewrite IH; reflexivity.
Qed.

Lemma errors_app es1 es2 : errors (es1 ++ es2) = (errors es1 ++ errors es2)%list.
Proof.
  induction es1 as [| e es1 IH]; [reflexivity |].
  destruct e; simpl; rewrite IH; reflexivity.
Qed.

Lemma note_quiet o :
  spawned (note tc o) = [] /\ errors (note tc o) = [] /\ removed (note tc o) = [].
Proof. unfold note. destruct (String.eqb _ _); repeat split. Qed.

Lemma compiling_one o file :
  spawned (compiling tc o file) = [compile_command o file]
  /\ errors (compiling tc o file) = []
  /\ removed (compiling tc o file) = [].
Proof.
  destruct (note_quiet o) as (Hs & He & Hr).
  unfold compiling. cbn [spawned errors removed]. rewrite Hs, He, Hr.
  repeat split.
Qed.

Lemma compiling_projections o files :
  spawned (flat_map (compiling tc o) files) = map (compile_command o) files
  /\ errors (flat_map (compiling tc o) files) = []
  /\ removed (flat_map (compiling tc o) files) = [].
Proof.
  induction files as [| file files (IHs & IHe & IHr)]; [repeat split |].
  destruct (compiling_one o file) as (Hs & He & Hr).
  cbn [flat_map map].
  rewrite spawned_app, errors_app, removed_app, Hs, He, Hr, IHs, IHe, IHr.
  repeat split.
Qed.

End Compiling.

Lemma for_each_print {A} (body : A -> M unit) (line : A -> string) :
  (forall x w, body x w = (Ret tt, emit w (Stdout (line x)))) ->
  forall xs w,
    for_each xs body w = (Ret tt, evolve w (fs w) (map (fun x => Stdout (line x)) xs)).
Proof.
  intros Hbody. induction xs as [| x xs IH]; intros w.
  - simpl. unfold ret. rewrite evolve_nil. reflexivity.
  - simpl for_each. unfold bind. rewrite Hbody, IH. run. cbn [map].
    rewrite <- app_assoc. reflexivity.
Qed.

Lemma in_range_inv files_available t :
  in_range files_available t = true <->
  Str.isdigit t = true
  /\ exists n, Str.int t = Some n
               /\ (1 <= n <= Z.of_nat (length files_available))%Z.
Proof.
  unfold in_range. rewrite andb_true_iff. split.
  - intros [Hd H]. split; [exact Hd |].
    destruct (Str.int t) as [n |]; [| discriminate].
    exists n. rewrite andb_true_iff, !Z.leb_le in H. split; [reflexivity | exact H].
  - intros [Hd (n & -> & H)]. split; [exact Hd |].
    rewrite andb_true_iff, !Z.leb_le. exact H.
Qed.

(** The filter on a token [int] reads, and on one it does not. *)
Lemma selectable_readable files_available t w :
  readable t = true ->
  selectable files_available t w = (Ret (in_range files_available t), w).
Proof.
  unfold readable, selectable, in_range, int.
  destruct (Str.isdigit t); [| reflexivity].
  destruct (Str.int t) as [n |]; [reflexivity | discriminate].
Qed.

Lemma selectable_unreadable files_available t w :
  Str.isdigit t = true -> Str.int t = None ->
  selectable files_available t w = (Raise ValueError, w).
Proof.
  intros Hd Hi. unfold selectable, int. rewrite Hd, Hi. reflexivity.
Qed.

Lemma filter_selectable files_available ts : forall w,
  forallb readable ts = true ->
  filter_m (selectable files_available) ts w
  = (Ret (filter (in_range files_available) ts), w).
Proof.
  induction ts as [| t ts IH]; intros w Hall; [reflexivity |].
  cbn [forallb] in Hall. apply andb_true_iff in Hall. destruct Hall as [Ht Hts].
  cbn [filter_m filter]. unfold bind at 1.
  rewrite (selectable_readable _ _ _ Ht). unfold bind at 1.
  rewrite (IH w Hts). reflexivity.
Qed.

Lemma filter_unreadable files_available t later : forall good w,
  forallb readable good = true ->
  Str.isdigit t = true -> Str.int t = None ->
  filter_m (selectable files_available) (good ++ t :: later) w
  = (Raise ValueError, w).
Proof.
  induction good as [| g good IH]; intros w Hall Hd Hi.
  - cbn [app filter_m]. unfold bind at 1.
    rewrite (selectable_unreadable _ _ _ Hd Hi). reflexivity.
  - cbn [forallb] in Hall. apply andb_true_iff in Hall. destruct Hall as [Hg Hgood].
    cbn [app filter_m]. unfold bind at 1.
    rewrite (selectable_readable _ _ _ Hg). unfold bind at 1.
    rewrite (IH w Hgood Hd Hi). reflexivity.
Qed.

Lemma list_index_in_range files_available t w :
  in_range files_available t = true ->
  exists file,
    (n <- int t ;; list_index files_available (n - 1)) w = (Ret file, w)
    /\ picks files_available t file.
Proof.
  intros H. apply in_range_inv in H. destruct H as [_ (n & Hn & Hlo & Hhi)].
  unfold bind, int, picks. rewrite Hn. unfold ret at 1. unfold list_index.
  replace (n - 1 <? 0)%Z with false by (symmetry; apply Z.ltb_ge; lia).
  replace (0 <=? n - 1)%Z with true by (symmetry; apply Z.leb_le; lia).
  replace (n - 1 <? Z.of_nat (length files_available))%Z with true
    by (symmetry; apply Z.ltb_lt; lia).
  cbn [andb].
  destruct (nth_error files_available (Z.to_nat (n - 1))) as [file |] eqn:E.
  - exists file. split; [reflexivity |]. exists n. split; [reflexivity | exact E].
  - apply nth_error_None in E. lia.
Qed.

Lemma map_list_index_in_range files_available ts : forall w,
  Forall (fun t => in_range files_available t = true) ts ->
  exists files,
    map_m (fun file_index =>
             n <- int file_index ;; list_index files_available (n - 1))
          ts w = (Ret files, w)
    /\ Forall2 (picks files_available) ts files.
Proof.
  induction ts as [| t ts IH]; intros w Hall.
  - exists []. split; [reflexivity | constructor].
  - inversion Hall as [| ? ? Ht Hrest]; subst.
    destruct (list_index_in_range _ _ w Ht) as (file & Hfile & Hpick).
    destruct (IH w Hrest) as (files & Hfiles & Hpicks).
    exists (file :: files). split; [| constructor; assumption].
    cbn [map_m]. unfold bind at 1. rewrite Hfile.
    unfold bind at 1. rewrite Hfiles. reflexivity.
Qed.

Lemma picks_functional files_available ts : forall files1 files2,
  Forall2 (picks files_available) ts files1 ->
  Forall2 (picks files_available) ts files2 ->
  files1 = files2.
Proof.
  induction ts as [| t ts IH]; intros files1 files2 H1 H2;
    inversion H1 as [| ? f1 ? ? P1 ?]; inversion H2 as [| ? f2 ? ? P2 ?]; subst;
    [reflexivity |].
  f_equal; [| apply IH; assumption].
  destruct P1 as (n1 & E1 & N1). destruct P2 as (n2 & E2 & N2). congruence.
Qed.

Lemma surviving_in_range files_available line :
  Forall (fun t => in_range files_available t = true)
         (surviving files_available line).
Proof.
  apply Forall_forall. intros t Hin. unfold surviving in Hin.
  apply filter_In in Hin. apply Hin.
Qed.

Section Batches.

Variable tc : Colors.
Variable sp : list string -> Os.FS -> option Os.CompletedProcess * Os.FS.

Lemma stops_at_intro o before failing result prefix :
  spawned prefix = [] -> errors prefix = [] -> removed prefix = [] ->
  stops_at tc o before failing result
    (prefix ++ flat_map (compiling tc o) before ++ compiling tc o failing
     ++ diagnostics tc failing result ++ [not_all_compiled tc])%list.
Proof.
  intros Hs He Hr.
  destruct (compiling_projections tc o before) as (Hbs & Hbe & Hbr).
  destruct (compiling_one tc o failing) as (Hfs & Hfe & Hfr).
  unfold stops_at. rewrite !spawned_app, !errors_app, !removed_app.
  rewrite Hs, He, Hr, Hbs, Hbe, Hbr, Hfs, Hfe, Hfr.
  split; [| split; [| split]].
  - rewrite map_app. reflexivity.
  - reflexivity.
  - reflexivity.
  - eexists. rewrite !app_assoc. reflexivity.
Qed.

Lemma files_to_compile_lines_quiet files :
  spawned (files_to_compile_lines files) = []
  /\ errors (files_to_compile_lines files) = []
  /\ removed (files_to_compile_lines files) = [].
Proof.
  unfold files_to_compile_lines. cbn [spawned errors removed].
  induction files as [| f files (Hs & He & Hr)]; repeat split; assumption.
Qed.

Lemma files_available_lines_quiet o files :
  spawned (files_available_lines o files) = []
  /\ errors (files_available_lines o files) = []
  /\ removed (files_available_lines o files) = [].
Proof.
  unfold files_available_lines. cbn [spawned errors removed].
  rewrite spawned_app, errors_app, removed_app.
  generalize (enumerate files) as rows.
  induction rows as [| [i f] rows (Hs & He & Hr)]; repeat split; assumption.
Qed.

(** [compile_all_files] up to its batch. *)
Lemma compile_all_files_unfold fuel o w files :
  fst (_posorder_traversal fuel (src_folder o) is_java w) = Ret files ->
  compile_all_files tc sp fuel o w
  = (compiled <- compile_batch tc sp files o ;;
     if compiled then report_compiled tc files else ret tt)
      (evolve w (fs w) (files_to_compile_lines files)).
Proof.
  intros Hrun. unfold compile_all_files. unfold bind at 1.
  rewrite posorder_traversal_world, Hrun.
  unfold bind at 1. unfold print at 1. unfold bind at 1.
  rewrite (for_each_print _ (fun file => "+ " ++ file)%string) by reflexivity.
  unfold files_to_compile_lines. run.
  rewrite <- app_assoc. reflexivity.
Qed.

(** [compile_specific_files] up to its filter. *)
Lemma compile_specific_files_asks fuel o w available line rest :
  fst (_posorder_traversal fuel (src_folder o) is_java w) = Ret available ->
  stdin w = line :: rest ->
  compile_specific_files tc sp fuel o w
  = (files_to_compile <- filter_m (selectable available) (tokens line) ;;
     if (length files_to_compile =? 0)%nat then
       eprint (FAIL tc ++ "Error> No files were selected!" ++ ENDC tc)
     else
       files_to_compile <-
         map_m (fun file_index =>
                  n <- int file_index ;; list_index available (n - 1))
               files_to_compile ;;
       compiled <- compile_batch tc sp files_to_compile o ;;
       if compiled then report_compiled tc files_to_compile else ret tt)
      (with_stdin (evolve w (fs w) (files_available_lines o available)) rest).
Proof.
  intros Hrun Hin. unfold compile_specific_files. unfold bind at 1.
  rewrite posorder_traversal_world, Hrun.
  unfold bind at 1. unfold print at 1. unfold bind at 1.
  rewrite (for_each_print _ (numbered o)) by (intros [i file] w0; reflexivity).
  unfold bind at 1. unfold input at 1. cbv beta iota zeta.
  cbn [stdin emit evolve]. rewrite Hin. cbv beta iota.
  unfold files_available_lines, tokens.
  match goal with
  | |- _ ?W1 = _ ?W2 => replace W1 with W2; [reflexivity |]
  end.
  unfold with_stdin, evolve, emit. cbn [fs cwd argv stdin options_file log].
  rewrite <- !app_assoc. reflexivity.
Qed.

(** [compile_specific_files] up to its batch, when [int] reads every
    token the filter hands it. *)
Lemma compile_specific_files_unfold fuel o w available line rest :
  fst (_posorder_traversal fuel (src_folder o) is_java w) = Ret available ->
  stdin w = line :: rest ->
  forallb readable (tokens line) = true ->
  compile_specific_files tc sp fuel o w
  = (if (length (surviving available line) =? 0)%nat then
       eprint (FAIL tc ++ "Error> No files were selected!" ++ ENDC tc)
     else
       files_to_compile <-
         map_m (fun file_index =>
                  n <- int file_index ;; list_index available (n - 1))
               (surviving available line) ;;
       compiled <- compile_batch tc sp files_to_compile o ;;
       if compiled then report_compiled tc files_to_compile else ret tt)
      (with_stdin (evolve w (fs w) (files_available_lines o available)) rest).
Proof.
  intros Hrun Hin Hread.
  rewrite (compile_specific_files_asks fuel o w available line rest Hrun Hin).
  unfold bind at 1. rewrite (filter_selectable available _ _ Hread). reflexivity.
Qed.

(** [compile_specific_files] on a line with a token made of digits that
    [int] does not read. *)
Lemma compile_specific_files_unreadable fuel o w available line rest good t later :
  fst (_posorder_traversal fuel (src_folder o) is_java w) = Ret available ->
  stdin w = line :: rest ->
  tokens line = (good ++ t :: later)%list ->
  forallb readable good = true ->
  Str.isdigit t = true -> Str.int t = None ->
  compile_specific_files tc sp fuel o w
  = (Raise ValueError,
     with_stdin (evolve w (fs w) (files_available_lines o available)) rest).
Proof.
  intros Hrun Hin Htokens Hgood Hd Hi.
  rewrite (compile_specific_files_asks fuel o w available line rest Hrun Hin).
  unfold bind at 1. rewrite Htokens.
  rewrite (filter_unreadable available t later good _ Hgood Hd Hi). reflexivity.
Qed.

End Batches.

(** C4. In a batch (compile-all on the scanned files, compile-selected on
    the files the selection line selects) whose files before [failing] all
    compile and where the compiler fails on [failing]: the compiler is run
    on the files in list order up to [failing] and on no file after it; the
    error stream receives the diagnostics of [failing] and, as the last
    event, the line that not all the files could be compiled; the operation
    returns to its caller; nothing is removed and the file system is the
    one the compiler processes left, so what was compiled before the
    failure stays compiled. *)
Theorem batch_stops_at_the_first_failure
    tc sp fuel o w before failing after fs1 result fs2 :
  compiles sp o (fs w) before fs1 ->
  sp (compile_command o failing) fs1 = (Some result, fs2) ->
  Os.returncode result <> 0%Z ->
  (fst (_posorder_traversal fuel (src_folder o) is_java w)
   = Ret (before ++ failing :: after)%list ->
   exists es,
     compile_all_files tc sp fuel o w = (Ret tt, evolve w fs2 es)
     /\ stops_at tc o before failing result es)
  /\ (forall available line rest,
        fst (_posorder_traversal fuel (src_folder o) is_java w) = Ret available ->
        stdin w = line :: rest ->
        selects available line (before ++ failing :: after)%list ->
        exists es,
          compile_specific_files tc sp fuel o w
          = (Ret tt, with_stdin (evolve w fs2 es) rest)
          /\ stops_at tc o before failing result es).
Proof.
  intros Hc Hsp Hrc. split.
  - intros Hrun. rewrite (compile_all_files_unfold tc sp fuel o w _ Hrun).
    unfold bind at 1.
    rewrite (compile_batch_failed tc sp o before failing after
               (evolve w (fs w) (files_to_compile_lines _)) fs1 result fs2 Hc Hsp Hrc).
    rewrite evolve_evolve. eexists. split; [reflexivity |].
    apply stops_at_intro; apply files_to_compile_lines_quiet.
  - intros available line rest Hrun Hin [Hread Hpicks].
    rewrite (compile_specific_files_unfold tc sp fuel o w available line rest
               Hrun Hin Hread).
    destruct (map_list_index_in_range available (surviving available line)
                (with_stdin (evolve w (fs w) (files_available_lines o available)) rest)
                (surviving_in_range available line))
      as (files & Hfiles & Hpicks').
    rewrite (picks_functional _ _ _ _ Hpicks' Hpicks) in Hfiles.
    destruct (surviving available line) as [| t ts] eqn:Es.
    + inversion Hpicks. destruct before; discriminate.
    + cbn [length Nat.eqb]. unfold bind at 1. rewrite Hfiles.
      unfold bind at 1.
      rewrite (compile_batch_failed tc sp o before failing after
                 (with_stdin (evolve w (fs w) (files_available_lines o available)) rest)
                 fs1 result fs2 Hc Hsp Hrc).
      exists (files_available_lines o available
              ++ flat_map (compiling tc o) before ++ compiling tc o failing
              ++ diagnostics tc failing result ++ [not_all_compiled tc])%list.
      split.
      * unfold ret, evolve, with_stdin. cbn [fs cwd argv stdin options_file log].
        rewrite <- !app_assoc. reflexivity.
      * apply stops_at_intro; apply files_available_lines_quiet.
Qed.

Lemma picks_at files_available t n file :
  Str.int t = Some n ->
  nth_error files_available (Z.to_nat (n - 1)) = Some file ->
  picks files_available t file.
Proof. intros Hn Hfile. exists n. split; assumption. Qed.

Lemma batch_stops_at_the_first_failure_witness :
  let w := world_of three_sources ["1, 2, 3"] in
  let o := options_of "/work" "One" in
  let sp := rejecting "/work/pkg/Two.java" in
  let bad := {| Os.returncode := 1; Os.stdout := EmptyString;
                Os.stderr := "error: class, interface, or enum expected" |} in
  (exists es,
      compile_all_files plain sp 2 o w = (Ret tt, evolve w (fs w) es)
      /\ stops_at plain o ["/work/One.java"] "/work/pkg/Two.java" bad es)
  /\ (exists es,
         compile_specific_files plain sp 2 o w
         = (Ret tt, with_stdin (evolve w (fs w) es) [])
         /\ stops_at plain o ["/work/One.java"] "/work/pkg/Two.java" bad es).
Proof.
  intros w o sp bad.
  destruct (batch_stops_at_the_first_failure plain sp 2 o w
              ["/work/One.java"] "/work/pkg/Two.java" ["/work/Three.java"]
              (fs w) bad (fs w)) as [Hall Hselected].
  - eapply compiles_cons; [reflexivity | reflexivity | apply compiles_nil].
  - reflexivity.
  - discriminate.
  - split.
    + apply Hall. reflexivity.
    + apply (Hselected ["/work/One.java"; "/work/pkg/Two.java"; "/work/Three.java"]
                       "1, 2, 3" []).
      * reflexivity.
      * reflexivity.
      * split; [vm_compute; reflexivity |].
        change (surviving ["/work/One.java"; "/work/pkg/Two.java"; "/work/Three.java"]
                          "1, 2, 3")
          with ["1"; "2"; "3"].
        constructor; [apply (picks_at _ _ 1%Z); reflexivity |].
        constructor; [apply (picks_at _ _ 2%Z); reflexivity |].
        constructor; [apply (picks_at _ _ 3%Z); reflexivity |].
        constructor.
Defined.

(** C10. In compile-selected the selection line is split on commas and
    each token stripped; the filter then asks [isdigit] of each token, in
    order, and hands the tokens it accepts to [int].  A token made of
    digits that [int] does not read (a digit that is not decimal, such as a
    superscript two, or more than 4300 digits) is not discarded: [int]
    raises [ValueError], which nothing catches, and the operation ends
    there, after the prompt, with no compiler run.  On every other line the
    tokens kept are those made of digits only whose value lies between 1
    and the number of available files; when none is kept, the no-selection
    error is written and no compiler runs; when some are kept, each token
    [k] picks the [k]-th scanned file, the compiler runs once per kept
    token, in the order of the tokens (so a file chosen twice is compiled
    twice), and, when all of them compile, nothing is written to the error
    stream (the discarded tokens leave no trace) and the last line gives as
    total the number of kept tokens. *)
Theorem compile_specific_files_selection tc sp fuel o w available line rest :
  fst (_posorder_traversal fuel (src_folder o) is_java w) = Ret available ->
  stdin w = line :: rest ->
  (forall good t later,
      tokens line = (good ++ t :: later)%list ->
      forallb readable good = true ->
      Str.isdigit t = true ->
      Str.int t = None ->
      compile_specific_files tc sp fuel o w
      = (Raise ValueError,
         with_stdin (evolve w (fs w) (files_available_lines o available)) rest))
  /\ (forallb readable (tokens line) = true ->
      (forall t, In t (surviving available line) <->
                 In t (tokens line)
                 /\ Str.isdigit t = true
                 /\ exists n, Str.int t = Some n
                              /\ (1 <= n <= Z.of_nat (length available))%Z)
      /\ (surviving available line = [] ->
          exists es,
            compile_specific_files tc sp fuel o w
            = (Ret tt, with_stdin (evolve w (fs w) es) rest)
            /\ spawned es = []
            /\ errors es = errors [no_files_selected tc])
      /\ (surviving available line <> [] ->
          exists files,
            Forall2 (picks available) (surviving available line) files
            /\ forall fs',
                compiles sp o (fs w) files fs' ->
                exists es,
                  compile_specific_files tc sp fuel o w
                  = (Ret tt, with_stdin (evolve w fs' es) rest)
                  /\ spawned es = map (compile_command o) files
                  /\ errors es = []
                  /\ exists es0,
                      es = (es0 ++ compiled_lines tc
                                     (length (surviving available line)))%list)).
Proof.
  intros Hrun Hin. split.
  { intros good t later Htokens Hgood Hd Hi.
    apply (compile_specific_files_unreadable tc sp fuel o w available line rest
             good t later Hrun Hin Htokens Hgood Hd Hi). }
  intros Hread.
  pose proof (compile_specific_files_unfold tc sp fuel o w available line rest
                Hrun Hin Hread) as Hunfold.
  destruct (files_available_lines_quiet o available) as (Hqs & Hqe & Hqr).
  split; [| split].
  - intros t. unfold surviving. rewrite filter_In, in_range_inv. tauto.
  - intros Hnone. rewrite Hnone in Hunfold. cbn [length Nat.eqb] in Hunfold.
    exists (files_available_lines o available ++ [no_files_selected tc])%list.
    split; [| split].
    + rewrite Hunfold. unfold no_files_selected. run.
      rewrite <- !app_assoc. reflexivity.
    + rewrite spawned_app, Hqs. reflexivity.
    + rewrite errors_app, Hqe. reflexivity.
  - intros Hsome.
    destruct (map_list_index_in_range available (surviving available line)
                (with_stdin (evolve w (fs w) (files_available_lines o available)) rest)
                (surviving_in_range available line))
      as (files & Hfiles & Hpicks).
    exists files. split; [exact Hpicks |].
    intros fs' Hc.
    destruct (surviving available line) as [| t ts] eqn:Es; [congruence |].
    cbn [length Nat.eqb] in Hunfold.
    unfold bind at 1 in Hunfold. rewrite Hfiles in Hunfold.
    unfold bind at 1 in Hunfold.
    rewrite (compile_batch_ok tc sp o files
               (with_stdin (evolve w (fs w) (files_available_lines o available)) rest)
               fs' Hc) in Hunfold.
    destruct (compiling_projections tc o files) as (Hs & He & Hr).
    exists (files_available_lines o available ++ flat_map (compiling tc o) files
            ++ compiled_lines tc (length (t :: ts)))%list.
    split; [| split; [| split]].
    + rewrite Hunfold. unfold report_compiled, compiled_lines.
      rewrite <- (Forall2_length Hpicks). run.
      rewrite <- !app_assoc. reflexivity.
    + rewrite !spawned_app, Hqs, Hs. cbn. rewrite app_nil_r. reflexivity.
    + rewrite !errors_app, Hqe, He. reflexivity.
    + eexists. rewrite app_assoc. reflexivity.
Qed.

Lemma compile_specific_files_selection_witness :
  let o := options_of "/work" "One" in
  let available := ["/work/One.java"; "/work/pkg/Two.java"; "/work/Three.java"] in
  (let w := world_of three_sources ["1," ++ superscript_two] in
   compile_specific_files plain accepting 2 o w
   = (Raise ValueError,
      with_stdin (evolve w (fs w) (files_available_lines o available)) []))
  /\ (let w := world_of three_sources [" 2, 2,x,7, 0,01 ,"] in
      let files := ["/work/pkg/Two.java"; "/work/pkg/Two.java"; "/work/One.java"] in
      surviving available " 2, 2,x,7, 0,01 ," = ["2"; "2"; "01"]
      /\ exists es,
          compile_specific_files plain accepting 2 o w
          = (Ret tt, with_stdin (evolve w (fs w) es) [])
          /\ spawned es = map (compile_command o) files
          /\ errors es = []
          /\ exists es0, es = (es0 ++ compiled_lines plain 3)%list).
Proof.
  intros o available. split.
  - intros w.
    destruct (compile_specific_files_selection plain accepting 2 o w available
                ("1," ++ superscript_two) [] eq_refl eq_refl) as [Hraise _].
    apply (Hraise ["1"] superscript_two []); vm_compute; reflexivity.
  - intros w files. split; [vm_compute; reflexivity |].
    destruct (compile_specific_files_selection plain accepting 2 o w available
                " 2, 2,x,7, 0,01 ," [] eq_refl eq_refl) as [_ Hread].
    destruct Hread as (_ & _ & Hsome); [vm_compute; reflexivity |].
    destruct Hsome as (files' & Hpicks & Hrun).
    { change (surviving available " 2, 2,x,7, 0,01 ,") with ["2"; "2"; "01"].
      discriminate. }
    assert (Hfiles : files' = files).
    { apply (picks_functional _ _ _ _ Hpicks).
      change (surviving available " 2, 2,x,7, 0,01 ,") with ["2"; "2"; "01"].
      constructor; [apply (picks_at _ _ 2%Z); reflexivity |].
      constructor; [apply (picks_at _ _ 2%Z); reflexivity |].
      constructor; [apply (picks_at _ _ 1%Z); reflexivity |].
      constructor. }
    subst files'. apply (Hrun (fs w)).
    repeat (eapply compiles_cons; [reflexivity | reflexivity |]). apply compiles_nil.
Defined.

(** ** Compiling and running *)

Lemma startswith_cons d s c p :
  Str.startswith (String d s) (String c p) = Ascii.eqb c d && Str.startswith s p.
Proof. reflexivity. Qed.




(** ** Normal paths *)

Lemma mem_cons c d s : Str.mem c (String d s) = Ascii.eqb c d || Str.mem c s.
Proof. reflexivity. Qed.

Lemma split_cons c s sep :
  Str.split (String c s) sep =
  if Ascii.eqb c sep then EmptyString :: Str.split s sep
  else match Str.split s sep with
       | piece :: pieces => String c piece :: pieces
       | [] => [String c EmptyString]
       end.
Proof. reflexivity. Qed.

Lemma split_no_sep s sep :
  Forall (fun c => Str.mem sep c = false) (Str.split s sep).
Proof.
  induction s as [| c s IH]; [repeat constructor |].
  rewrite split_cons. destruct (Ascii.eqb c sep) eqn:E.
  - constructor; [reflexivity | exact IH].
  - destruct (Str.split s sep) as [| piece pieces].
    + repeat constructor. rewrite mem_cons, Ascii.eqb_sym, E. reflexivity.
    + inversion IH; subst. constructor; [| assumption].
      rewrite mem_cons, Ascii.eqb_sym, E. assumption.
Qed.

Lemma split_whole s sep : Str.mem sep s = false -> Str.split s sep = [s].
Proof.
  induction s as [| c s IH]; [reflexivity |].
  rewrite mem_cons. intros H. apply orb_false_iff in H. destruct H as [Hc Hs].
  rewrite split_cons, Ascii.eqb_sym, Hc, (IH Hs). reflexivity.
Qed.

Lemma split_append c rest sep :
  Str.mem sep c = false ->
  Str.split (c ++ String sep rest) sep = c :: Str.split rest sep.
Proof.
  induction c as [| x c IH]; intros H.
  - cbn [append]. rewrite split_cons, Ascii.eqb_refl. reflexivity.
  - rewrite mem_cons in H. apply orb_false_iff in H. destruct H as [Hx Hc].
    cbn [append]. rewrite split_cons, Ascii.eqb_sym, Hx, (IH Hc). reflexivity.
Qed.

Lemma split_join comps :
  comps <> [] ->
  Forall (fun c => Str.mem Path.sep_char c = false) comps ->
  Str.split (Str.join Path.sep comps) Path.sep_char = comps.
Proof.
  induction comps as [| c comps IH]; intros Hne Hall; [congruence |].
  inversion Hall as [| ? ? Hc Hrest]; subst.
  destruct comps as [| c' comps].
  - cbn [Str.join]. apply split_whole. exact Hc.
  - cbn [Str.join]. cbn [Str.join] in IH. unfold Path.sep at 1.
    cbn [append]. change "/"%char with Path.sep_char.
    rewrite (split_append c _ Path.sep_char Hc). f_equal.
    apply IH; [discriminate | exact Hrest].
Qed.

Lemma component_inv c :
  component c = true ->
  c <> EmptyString /\ c <> "." /\ c <> ".." /\ Str.mem Path.sep_char c = false.
Proof.
  unfold component. rewrite !andb_true_iff, !negb_true_iff.
  intros [[[H1 H2] H3] H4]. repeat split; try exact H4; intros ->; discriminate.
Qed.

Lemma Forall_last {A} (P : A -> Prop) xs d :
  Forall P xs -> xs <> [] -> P (last xs d).
Proof.
  induction 1 as [| x xs Hx Hxs IH]; intros Hne; [congruence |].
  destruct xs as [| y xs]; [exact Hx |]. apply IH. discriminate.
Qed.

Lemma Forall_removelast {A} (P : A -> Prop) xs :
  Forall P xs -> Forall P (removelast xs).
Proof.
  induction 1 as [| x xs Hx Hxs IH]; [constructor |].
  destruct xs as [| y xs]; [constructor |]. cbn [removelast].
  constructor; assumption.
Qed.

(** In an absolute path [normpath] keeps components only. *)
Lemma norm_comps_components k comps :
  k <> 0 ->
  Forall (fun c => Str.mem Path.sep_char c = false) comps ->
  forall new_comps,
    Forall (fun c => component c = true) new_comps ->
    Forall (fun c => component c = true) (Path.norm_comps k comps new_comps).
Proof.
  intros Hk Hall. induction Hall as [| comp comps Hcomp Hall IH];
    intros new_comps Hnew; [exact Hnew |].
  cbn [Path.norm_comps].
  destruct (String.eqb comp EmptyString) eqn:E1; [apply IH; exact Hnew |].
  destruct (String.eqb comp ".") eqn:E2; [apply IH; exact Hnew |].
  cbn [orb].
  destruct (String.eqb comp "..") eqn:E3; cbn [negb orb].
  - replace (k =? 0)%nat with false by (symmetry; apply Nat.eqb_neq; exact Hk).
    cbn [andb orb].
    destruct (length new_comps =? 0)%nat eqn:El; cbn [negb andb].
    + apply IH. apply Forall_removelast. exact Hnew.
    + destruct (String.eqb (last new_comps EmptyString) "..") eqn:E4.
      * exfalso. apply Nat.eqb_neq in El.
        assert (Hne : new_comps <> []) by (intros ->; apply El; reflexivity).
        pose proof (Forall_last _ _ EmptyString Hnew Hne) as Hl. cbv beta in Hl.
        apply component_inv in Hl. apply String.eqb_eq in E4. tauto.
      * apply IH. apply Forall_removelast. exact Hnew.
  - apply IH. apply Forall_app. split; [exact Hnew |].
    constructor; [| constructor]. unfold component.
    rewrite E1, E2, E3, Hcomp. reflexivity.
Qed.

(** On components and empty pieces [normpath] only drops the empty ones. *)
Lemma norm_comps_kept k comps :
  Forall (fun c => c = EmptyString \/ component c = true) comps ->
  forall new_comps,
    Path.norm_comps k comps new_comps
    = (new_comps ++ filter (fun c => negb (String.eqb c EmptyString)) comps)%list.
Proof.
  induction 1 as [| comp comps Hcomp Hall IH]; intros new_comps.
  - cbn. rewrite app_nil_r. reflexivity.
  - cbn [Path.norm_comps filter]. destruct Hcomp as [-> | Hcomp].
    + cbn. apply IH.
    + pose proof Hcomp as Hc. unfold component in Hc.
      rewrite !andb_true_iff, !negb_true_iff in Hc. destruct Hc as [[[E1 E2] E3] _].
      rewrite E1, E2, E3. cbn [orb negb]. rewrite IH, <- app_assoc. reflexivity.
Qed.

Lemma filter_components comps :
  Forall (fun c => component c = true) comps ->
  filter (fun c => negb (String.eqb c EmptyString)) comps = comps.
Proof.
  induction 1 as [| c comps Hc Hall IH]; [reflexivity |].
  cbn [filter]. unfold component in Hc.
  rewrite !andb_true_iff, !negb_true_iff in Hc. destruct Hc as [[[E1 _] _] _].
  rewrite E1, IH. reflexivity.
Qed.

Lemma join_not_startswith_sep comps :
  Forall (fun c => component c = true) comps ->
  Str.startswith (Str.join Path.sep comps) Path.sep = false.
Proof.
  intros Hall. destruct Hall as [| c comps Hc Hall]; [reflexivity |].
  apply component_inv in Hc. destruct Hc as (Hne & _ & _ & Hm).
  destruct c as [| x c]; [congruence |].
  rewrite mem_cons in Hm. apply orb_false_iff in Hm. destruct Hm as [Hx _].
  destruct comps; cbn [Str.join append]; unfold Path.sep; rewrite startswith_cons;
    unfold Path.sep_char in Hx; rewrite Hx; reflexivity.
Qed.

(** The normal form of an absolute path: one or two separators, then
    components joined by separators. *)
Lemma normpath_absolute a :
  Path.isabs a = true ->
  exists k comps,
    (k = 1 \/ k = 2)
    /\ Forall (fun c => component c = true) comps
    /\ Path.normpath a = (slashes k ++ Str.join Path.sep comps)%string.
Proof.
  unfold Path.isabs. intros Habs. unfold Path.normpath.
  destruct a as [| x a]; [discriminate |].
  cbn [String.eqb]. rewrite Habs.
  set (k := if Str.startswith (String x a) "//"
               && negb (Str.startswith (String x a) "///") then 2 else 1).
  assert (Hk : k = 1 \/ k = 2) by (unfold k; destruct (_ && _); tauto).
  exists k, (Path.norm_comps k (Str.split (String x a) Path.sep_char) []).
  split; [exact Hk |]. split.
  - apply norm_comps_components; [lia | apply split_no_sep | constructor].
  - destruct Hk as [-> | ->]; reflexivity.
Qed.

Lemma normpath_normal k comps :
  k = 1 \/ k = 2 ->
  Forall (fun c => component c = true) comps ->
  Path.normpath (slashes k ++ Str.join Path.sep comps)
  = (slashes k ++ Str.join Path.sep comps)%string.
Proof.
  intros Hk Hall.
  pose proof (join_not_startswith_sep comps Hall) as Hj.
  assert (Hsplit : Forall (fun c => c = EmptyString \/ component c = true)
                          (Str.split (Str.join Path.sep comps) Path.sep_char)
                   /\ filter (fun c => negb (String.eqb c EmptyString))
                             (Str.split (Str.join Path.sep comps) Path.sep_char)
                      = comps).
  { destruct comps as [| c comps].
    - split; [repeat constructor; left; reflexivity | reflexivity].
    - rewrite split_join.
      + split; [| apply filter_components; exact Hall].
        eapply Forall_impl; [| exact Hall]. intros; right; assumption.
      + discriminate.
      + eapply Forall_impl; [| exact Hall]. intros c0 Hc0.
        apply component_inv in Hc0. tauto. }
  destruct Hsplit as [Hpieces Hfilter].
  remember (Str.join Path.sep comps) as j eqn:Ej. unfold Path.sep in Hj.
  assert (H1 : forall s, Str.startswith (String "/" s) "/" = true)
    by (intros s; rewrite startswith_cons, Ascii.eqb_refl; reflexivity).
  assert (H2 : Str.startswith (String "/" j) "//" = false)
    by (rewrite startswith_cons, Ascii.eqb_refl; exact Hj).
  assert (H3 : forall s, Str.split (String "/" s) Path.sep_char
                         = EmptyString :: Str.split s Path.sep_char)
    by (intros s; rewrite split_cons; reflexivity).
  unfold Path.normpath.
  destruct Hk as [-> | ->]; unfold slashes, Path.sep; cbn [append String.eqb].
  - rewrite H1, H2, H3. cbn [andb Path.norm_comps String.eqb orb].
    rewrite (norm_comps_kept 1 _ Hpieces). cbn [app]. rewrite Hfilter.
    fold Path.sep. rewrite <- Ej. reflexivity.
  - assert (H4 : Str.startswith (String "/" (String "/" j)) "//" = true)
      by (rewrite startswith_cons, Ascii.eqb_refl; apply H1).
    assert (H5 : Str.startswith (String "/" (String "/" j)) "///" = false)
      by (rewrite startswith_cons, Ascii.eqb_refl; exact H2).
    rewrite H1, H4, H5, !H3. cbn [andb negb Path.norm_comps String.eqb orb].
    rewrite (norm_comps_kept 2 _ Hpieces). cbn [app]. rewrite Hfilter.
    fold Path.sep. rewrite <- Ej. reflexivity.
Qed.

(** [abspath] of an absolute working directory returns absolute paths that
    it leaves unchanged. *)
Lemma abspath_resolved cwd p :
  Path.isabs cwd = true ->
  Path.isabs (Path.abspath cwd p) = true
  /\ Path.abspath cwd (Path.abspath cwd p) = Path.abspath cwd p.
Proof.
  intros Hcwd.
  assert (Ha : Path.isabs (if Path.isabs p then p else Path.join cwd p) = true).
  { destruct (Path.isabs p) eqn:Hp; [exact Hp |].
    unfold Path.join. unfold Path.isabs in Hp. rewrite Hp.
    unfold Path.isabs in *. destruct cwd as [| x cwd]; [discriminate |].
    destruct (String.eqb (String x cwd) EmptyString || Str.endswith (String x cwd) Path.sep);
      cbn [append]; unfold Path.sep in *; rewrite startswith_cons in *;
      cbn [Str.startswith] in *; exact Hcwd. }
  change (Path.abspath cwd p)
    with (Path.normpath (if Path.isabs p then p else Path.join cwd p)).
  destruct (normpath_absolute _ Ha) as (k & comps & Hk & Hall & Hn).
  rewrite Hn.
  assert (Habs : Path.isabs (slashes k ++ Str.join Path.sep comps) = true)
    by (destruct Hk as [-> | ->]; reflexivity).
  split; [exact Habs |].
  unfold Path.abspath. rewrite Habs. apply normpath_normal; assumption.
Qed.

(** ** Validating a folder *)

Lemma split_not_nil s sep : Str.split s sep <> [].
Proof.
  destruct s as [| c s]; [discriminate |]. rewrite split_cons.
  destruct (Ascii.eqb c sep); [discriminate |].
  destruct (Str.split s sep); discriminate.
Qed.

Lemma basename_no_sep p : Str.mem Path.sep_char (Path.basename p) = false.
Proof.
  unfold Path.basename.
  apply (Forall_last (fun c => Str.mem Path.sep_char c = false));
    [apply split_no_sep | apply split_not_nil].
Qed.

Lemma validate_folder_ok tc folder_path w :
  Os.isdir (fs w) (Path.abspath (cwd w) folder_path) = true ->
  _validate_folder tc folder_path w = (Ret (Path.abspath (cwd w) folder_path), w).
Proof.
  intros Hdir. unfold _validate_folder, os_path_abspath, os_path_exists, os_path_isdir.
  cbn [bind]. rewrite Hdir.
  assert (He : Os.exists_ (fs w) (Path.abspath (cwd w) folder_path) = true).
  { unfold Os.isdir in Hdir. unfold Os.exists_.
    destruct (fs w (Path.abspath (cwd w) folder_path)); [reflexivity | discriminate]. }
  rewrite He. reflexivity.
Qed.

Lemma validate_folder_exits tc folder_path w :
  Os.exists_ (fs w) (Path.abspath (cwd w) folder_path) = false
  \/ Os.isdir (fs w) (Path.abspath (cwd w) folder_path) = false ->
  _validate_folder tc folder_path w
  = (Exit 1,
     emit w (Stderr (FAIL tc ++ "Error> The folder " ++ dquote
                     ++ Path.basename (Path.abspath (cwd w) folder_path) ++ dquote
                     ++ " does not exist!" ++ ENDC tc))).
Proof.
  intros Hbad.
  unfold _validate_folder, os_path_abspath, os_path_exists, os_path_isdir.
  cbn [bind].
  assert (Hor : negb (Os.exists_ (fs w) (Path.abspath (cwd w) folder_path))
                || negb (Os.isdir (fs w) (Path.abspath (cwd w) folder_path)) = true).
  { destruct Hbad as [-> | ->]; [reflexivity | apply orb_true_r]. }
  rewrite Hor. reflexivity.
Qed.

(** C8. [_validate_folder] resolves its argument with [os.path.abspath].
    When the resolved path exists and is a directory, it returns the
    resolved path and does nothing else. When the resolved path does not
    exist or is not a directory, it does not return: it writes, to the
    error stream, the message that names the base name of the resolved
    path, and exits with status 1. The base name holds no separator. With
    an absolute working directory the resolved path is absolute, resolving
    it again gives it back, and its base name is not the path itself; for
    an argument that is already absolute the working directory plays no
    part. *)
Theorem validate_folder_spec tc folder_path w :
  let absolute_path := Path.abspath (cwd w) folder_path in
  (Os.exists_ (fs w) absolute_path = true ->
   Os.isdir (fs w) absolute_path = true ->
   _validate_folder tc folder_path w = (Ret absolute_path, w))
  /\ (Os.exists_ (fs w) absolute_path = false
      \/ Os.isdir (fs w) absolute_path = false ->
      _validate_folder tc folder_path w
      = (Exit 1,
         emit w (Stderr (FAIL tc ++ "Error> The folder " ++ dquote
                         ++ Path.basename absolute_path ++ dquote
                         ++ " does not exist!" ++ ENDC tc))))
  /\ Str.mem Path.sep_char (Path.basename absolute_path) = false
  /\ (Path.isabs (cwd w) = true ->
      Path.isabs absolute_path = true
      /\ Path.abspath (cwd w) absolute_path = absolute_path
      /\ Path.basename absolute_path <> absolute_path)
  /\ (Path.isabs folder_path = true -> absolute_path = Path.normpath folder_path).
Proof.
  intros absolute_path. split; [| split; [| split; [| split]]].
  - intros _ Hdir. apply validate_folder_ok. exact Hdir.
  - apply validate_folder_exits.
  - apply basename_no_sep.
  - intros Hcwd. destruct (abspath_resolved (cwd w) folder_path Hcwd) as [Habs Hfix].
    fold absolute_path in Habs, Hfix. split; [exact Habs |]. split; [exact Hfix |].
    intros Heq. pose proof (basename_no_sep absolute_path) as Hno.
    rewrite Heq in Hno. unfold Path.isabs in Habs.
    destruct absolute_path as [| c rest]; [discriminate |].
    unfold Path.sep in Habs. rewrite startswith_cons in Habs.
    rewrite mem_cons in Hno. apply andb_prop in Habs. destruct Habs as [Hc _].
    unfold Path.sep_char in Hno. rewrite Hc in Hno. discriminate.
  - intros Habs. unfold absolute_path, Path.abspath. rewrite Habs. reflexivity.
Qed.

Lemma validate_folder_spec_witness :
  let w := world_of built_project [] in
  _validate_folder plain "/proj/sub/.." w = (Ret "/proj", w)
  /\ _validate_folder plain "proj" w
     = (Exit 1, emit w (Stderr ("Error> The folder " ++ dquote ++ "proj" ++ dquote
                                ++ " does not exist!")))
  /\ Path.abspath (cwd w) "proj" = "/home/user/proj"
  /\ Path.abspath (cwd w) "/home/user/proj" = "/home/user/proj".
Proof.
  intros w.
  destruct (validate_folder_spec plain "/proj/sub/.." w) as (Hok & _ & _ & _ & _).
  destruct (validate_folder_spec plain "proj" w) as (_ & Hbad & _ & Habs & _).
  split; [apply Hok; reflexivity |].
  split; [apply Hbad; left; reflexivity |].
  split; [reflexivity |].
  apply (Habs eq_refl).
Defined.

(** ** The persisted options *)

Lemma validate_folder_resolved tc p w :
  Path.abspath (cwd w) p = p ->
  Os.isdir (fs w) p = true ->
  _validate_folder tc p w = (Ret p, w).
Proof.
  intros Hfix Hdir. rewrite <- Hfix at 2. apply validate_folder_ok.
  rewrite Hfix. exact Hdir.
Qed.

(** Loading an options file that holds the dictionary of a record whose
    folder fields are resolved paths of existing directories returns that
    record and changes nothing. *)
Lemma load_written_options tc o w1 :
  options_file w1 = Some (to_dict o) ->
  Path.abspath (cwd w1) (src_folder o) = src_folder o ->
  Os.isdir (fs w1) (src_folder o) = true ->
  Path.abspath (cwd w1) (class_path o) = class_path o ->
  Os.isdir (fs w1) (class_path o) = true ->
  load_compilation_options_file tc w1 = (Ret o, w1).
Proof.
  intros Hfile Hsrc Hsrc_dir Hcp Hcp_dir.
  assert (Hv1 : _validate_folder tc (src_folder o) w1 = (Ret (src_folder o), w1))
    by (apply validate_folder_resolved; assumption).
  assert (Hv2 : _validate_folder tc (class_path o) w1 = (Ret (class_path o), w1))
    by (apply validate_folder_resolved; assumption).
  unfold load_compilation_options_file.
  unfold bind at 1. unfold json_load_options_file at 1.
  rewrite Hfile.
  unfold bind at 1. unfold CompilationOptions_init at 1. unfold ret at 1.
  unfold bind at 1. change (dict_get (to_dict o) "src_folder" w1)
    with (Ret (JString (src_folder o)), w1). cbv iota.
  unfold bind at 1. unfold as_str at 1. unfold ret at 1.
  unfold bind at 1. unfold set_src_folder at 1. unfold bind at 1.
  rewrite Hv1. unfold ret at 1.
  unfold bind at 1. change (dict_get (to_dict o) "main_class_path" w1)
    with (Ret (JString (main_class_path o)), w1). cbv iota.
  unfold bind at 1. unfold as_str at 1. unfold ret at 1.
  unfold bind at 1. change (dict_get (to_dict o) "class_path" w1)
    with (Ret (JString (class_path o)), w1). cbv iota.
  unfold bind at 1. unfold as_str at 1. unfold ret at 1.
  unfold bind at 1. unfold set_class_path at 1. unfold bind at 1.
  rewrite Hv2. unfold ret at 1.
  unfold bind at 1. change (dict_get (to_dict o) "verbose" w1)
    with (Ret (JBool (verbose o)), w1). cbv iota.
  unfold bind at 1. unfold as_bool at 1. unfold ret at 1.
  unfold bind at 1. change (dict_get (to_dict o) "encoding" w1)
    with (Ret (JString (encoding o)), w1). cbv iota.
  unfold bind at 1. unfold as_str at 1. unfold ret at 1.
  unfold bind at 1. change (dict_get (to_dict o) "compiler" w1)
    with (Ret (JString (compiler o)), w1). cbv iota.
  unfold bind at 1. unfold as_str at 1. unfold ret at 1.
  destruct o; reflexivity.
Qed.

(** C7. For every options record whose folder fields are resolved paths
    (what [os.path.abspath] returns, as every folder the constructor and
    the setters store is) of existing directories: writing the options file
    stores the JSON object with exactly the six fields [src_folder],
    [main_class_path], [class_path], [verbose], [encoding] and [compiler],
    and loading that file returns a record equal to the original, field
    for field. *)
Theorem options_round_trip tc o w :
  Path.abspath (cwd w) (src_folder o) = src_folder o ->
  Os.isdir (fs w) (src_folder o) = true ->
  Path.abspath (cwd w) (class_path o) = class_path o ->
  Os.isdir (fs w) (class_path o) = true ->
  exists w1,
    create_compilation_options_file o w = (Ret tt, w1)
    /\ options_file w1
       = Some [ ("src_folder", JString (src_folder o));
                ("main_class_path", JString (main_class_path o));
                ("class_path", JString (class_path o));
                ("verbose", JBool (verbose o));
                ("encoding", JString (encoding o));
                ("compiler", JString (compiler o)) ]
    /\ load_compilation_options_file tc w1 = (Ret o, w1).
Proof.
  intros Hsrc Hsrc_dir Hcp Hcp_dir.
  eexists. split; [reflexivity |]. split; [reflexivity |].
  apply load_written_options; [reflexivity | | | |]; assumption.
Qed.

Lemma options_round_trip_witness :
  let o := options_of "/proj" "pkg.Main" in
  let w := world_of built_project [] in
  exists w1,
    create_compilation_options_file o w = (Ret tt, w1)
    /\ options_file w1
       = Some [ ("src_folder", JString "/proj");
                ("main_class_path", JString "pkg.Main");
                ("class_path", JString "/proj");
                ("verbose", JBool false);
                ("encoding", JString "UTF-8");
                ("compiler", JString "javac") ]
    /\ load_compilation_options_file plain w1 = (Ret o, w1).
Proof.
  intros o w.
  apply (options_round_trip plain o w); reflexivity.
Defined.

(** ** The settings submenu *)

Section Respects.

Variable R : World -> World -> Prop.
Hypothesis R_refl : forall w, R w w.
Hypothesis R_trans : forall w1 w2 w3, R w1 w2 -> R w2 w3 -> R w1 w3.

Lemma respects_ret {A} (a : A) : respects R (ret a).
Proof. intros w. apply R_refl. Qed.

Lemma respects_raise {A} e : respects R (@raise A e).
Proof. intros w. apply R_refl. Qed.

Lemma respects_exit {A} s : respects R (@exit A s).
Proof. intros w. apply R_refl. Qed.

Lemma respects_bind {A B} (m : M A) (k : A -> M B) :
  respects R m -> (forall a, respects R (k a)) -> respects R (bind m k).
Proof.
  intros Hm Hk w. unfold bind. specialize (Hm w).
  destruct (m w) as [[a | e | s |] w1]; cbn [snd] in *; try exact Hm.
  eapply R_trans; [exact Hm | apply Hk].
Qed.

Hypothesis R_emit : forall w e, (forall d, e <> Dumped d) -> R w (emit w e).
Hypothesis R_read : forall w lines,
    length lines <= length (stdin w) -> R w (with_stdin w lines).

Lemma respects_print text : respects R (print text).
Proof. intros w. apply R_emit. discriminate. Qed.

Lemma respects_eprint text : respects R (eprint text).
Proof. intros w. apply R_emit. discriminate. Qed.

Lemma respects_os_system command : respects R (os_system command).
Proof. intros w. apply R_emit. discriminate. Qed.

Lemma respects_input prompt : respects R (input prompt).
Proof.
  intros w. unfold input.
  assert (He : R w (emit w (Prompt prompt))) by (apply R_emit; discriminate).
  destruct (stdin (emit w (Prompt prompt))) as [| line lines] eqn:E;
    cbn [snd]; [exact He |].
  eapply R_trans; [exact He |]. apply R_read. rewrite E. cbn [length]. lia.
Qed.

Lemma respects_validate_folder tc p : respects R (_validate_folder tc p).
Proof.
  unfold _validate_folder.
  apply respects_bind; [intros w; apply R_refl | intros a].
  apply respects_bind; [intros w; apply R_refl | intros b].
  apply respects_bind; [intros w; apply R_refl | intros c].
  destruct (negb b || negb c); [| apply respects_ret].
  apply respects_bind; [apply respects_eprint | intros; apply respects_exit].
Qed.

Lemma respects_setup_turn tc o : respects R (setup_turn tc o).
Proof.
  unfold setup_turn, set_src_folder, set_class_path.
  repeat first
    [ apply respects_ret
    | apply respects_print
    | apply respects_eprint
    | apply respects_os_system
    | apply respects_input
    | apply respects_validate_folder
    | apply respects_bind; [| intros ?]
    | match goal with
      | |- respects R (if ?b then _ else _) => destruct b
      end ].
Qed.

Lemma respects_setup_loop tc fuel : forall o, respects R (setup_loop tc fuel o).
Proof.
  induction fuel as [| fuel IH]; intros o; cbn [setup_loop].
  - intros w. apply R_refl.
  - apply respects_bind; [apply respects_setup_turn |].
    intros [again o']. destruct again; [apply IH | apply respects_ret].
Qed.

End Respects.

Lemma same_options_file_refl w : same_options_file w w.
Proof. split; reflexivity. Qed.

Lemma same_options_file_trans w1 w2 w3 :
  same_options_file w1 w2 -> same_options_file w2 w3 -> same_options_file w1 w3.
Proof. intros [H1 H2] [H3 H4]. split; congruence. Qed.

Lemma dumps_app es1 es2 : dumps (es1 ++ es2) = (dumps es1 ++ dumps es2)%list.
Proof.
  induction es1 as [| e es1 IH]; [reflexivity |].
  destruct e; cbn [app dumps]; rewrite IH; reflexivity.
Qed.

Lemma same_options_file_emit w e :
  (forall d, e <> Dumped d) -> same_options_file w (emit w e).
Proof.
  intros He. split; [reflexivity |]. cbn [emit log]. rewrite dumps_app.
  destruct e; try (cbn; apply app_nil_r). exfalso. eapply He. reflexivity.
Qed.

Lemma same_options_file_read w lines :
  length lines <= length (stdin w) -> same_options_file w (with_stdin w lines).
Proof. intros _. split; reflexivity. Qed.

Lemma reads_on_refl w : reads_on w w.
Proof. unfold reads_on. lia. Qed.

Lemma reads_on_trans w1 w2 w3 : reads_on w1 w2 -> reads_on w2 w3 -> reads_on w1 w3.
Proof. unfold reads_on. lia. Qed.

Lemma reads_on_emit w e : (forall d, e <> Dumped d) -> reads_on w (emit w e).
Proof. intros _. unfold reads_on. cbn. lia. Qed.

Lemma reads_on_read w lines :
  length lines <= length (stdin w) -> reads_on w (with_stdin w lines).
Proof. intros H. unfold reads_on. cbn. exact H. Qed.

Lemma ends_ret {A} (a : A) : ends (ret a).
Proof. intros w. discriminate. Qed.

Lemma ends_exit {A} s : ends (@exit A s).
Proof. intros w. discriminate. Qed.

Lemma ends_bind {A B} (m : M A) (k : A -> M B) :
  ends m -> (forall a, ends (k a)) -> ends (bind m k).
Proof.
  intros Hm Hk w. unfold bind. specialize (Hm w).
  destruct (m w) as [[a | e | s |] w1]; cbn [fst] in *;
    try discriminate; [apply Hk | congruence].
Qed.

Lemma ends_print text : ends (print text).
Proof. intros w. discriminate. Qed.

Lemma ends_eprint text : ends (eprint text).
Proof. intros w. discriminate. Qed.

Lemma ends_os_system command : ends (os_system command).
Proof. intros w. discriminate. Qed.

Lemma ends_input prompt : ends (input prompt).
Proof.
  intros w. unfold input. destruct (stdin (emit w (Prompt prompt))); discriminate.
Qed.

Lemma ends_validate_folder tc p : ends (_validate_folder tc p).
Proof.
  unfold _validate_folder.
  apply ends_bind; [intros w; discriminate | intros a].
  apply ends_bind; [intros w; discriminate | intros b].
  apply ends_bind; [intros w; discriminate | intros c].
  destruct (negb b || negb c); [| apply ends_ret].
  apply ends_bind; [apply ends_eprint | intros; apply ends_exit].
Qed.

Lemma ends_setup_turn tc o : ends (setup_turn tc o).
Proof.
  unfold setup_turn, set_src_folder, set_class_path.
  repeat first
    [ apply ends_ret
    | apply ends_print
    | apply ends_eprint
    | apply ends_os_system
    | apply ends_input
    | apply ends_validate_folder
    | apply ends_bind; [| intros ?]
    | match goal with
      | |- ends (if ?b then _ else _) => destruct b
      end ].
Qed.

Lemma consumes_after_print {B} text (m : M B) :
  consumes m -> consumes (print text ;; m).
Proof.
  intros Hm w b w' H. unfold bind, print in H.
  apply Hm in H. cbn [emit stdin] in H. exact H.
Qed.

Lemma consumes_input {B} prompt (k : string -> M B) :
  (forall line, respects reads_on (k line)) ->
  consumes (line <- input prompt ;; k line).
Proof.
  intros Hk w b w' H. unfold bind, input in H. cbn [emit stdin] in H.
  destruct (stdin w) as [| line lines] eqn:E; [discriminate |].
  pose proof (Hk line (with_stdin (emit w (Prompt prompt)) lines)) as Hr.
  rewrite H in Hr. unfold reads_on in Hr. cbn in Hr. cbn [length]. lia.
Qed.

Lemma consumes_setup_turn tc o : consumes (setup_turn tc o).
Proof.
  unfold setup_turn, set_src_folder, set_class_path.
  repeat apply consumes_after_print.
  apply consumes_input. intros line.
  repeat first
    [ apply (respects_ret reads_on reads_on_refl)
    | apply (respects_print reads_on reads_on_emit)
    | apply (respects_eprint reads_on reads_on_emit)
    | apply (respects_os_system reads_on reads_on_emit)
    | apply (respects_input reads_on reads_on_trans reads_on_emit reads_on_read)
    | apply (respects_validate_folder reads_on reads_on_refl reads_on_trans reads_on_emit)
    | apply (respects_bind reads_on reads_on_trans); [| intros ?]
    | match goal with
      | |- respects reads_on (if ?b then _ else _) => destruct b
      end ].
Qed.

(** With more fuel than lines on standard input the submenu loop ends. *)
Lemma setup_loop_ends tc : forall fuel o w,
  length (stdin w) < fuel -> fst (setup_loop tc fuel o w) <> OutOfFuel.
Proof.
  induction fuel as [| fuel IH]; intros o w Hlt; [lia |].
  cbn [setup_loop]. unfold bind.
  pose proof (ends_setup_turn tc o w) as Hends.
  pose proof (consumes_setup_turn tc o w) as Hcons.
  destruct (setup_turn tc o w) as [[[again o'] | e | s |] w1]; cbn [fst] in *;
    try discriminate; [| congruence].
  specialize (Hcons _ _ eq_refl).
  destruct again; [apply IH; lia | discriminate].
Qed.

(** C2, as amended. The settings submenu writes the options file once,
    when the user leaves it with "0": no turn of the submenu writes the
    file, whatever field it changes; with more fuel than lines to read the
    submenu ends; when it returns, the file holds the whole record as the
    turns left it, written by the last event but one; and when it does not
    return (end of input, or an invalid folder, which exits), the file is
    as it was before the submenu. *)
Theorem settings_are_written_on_return tc fuel o w :
  (forall turn w',
      setup_turn tc o w = (turn, w') -> same_options_file w w')
  /\ (length (stdin w) < fuel ->
      fst (setup_compilation_options tc fuel o w) <> OutOfFuel)
  /\ (forall o' w',
         setup_compilation_options tc fuel o w = (Ret o', w') ->
         exists w1,
           setup_loop tc fuel o w = (Ret o', w1)
           /\ same_options_file w w1
           /\ options_file w' = Some (to_dict o')
           /\ log w' = (log w1
                        ++ [Dumped (to_dict o');
                            Stdout (OKGREEN tc ++ "Compilation options updated!"
                                    ++ ENDC tc)])%list)
  /\ (forall out w',
         setup_compilation_options tc fuel o w = (out, w') ->
         (forall o', out <> Ret o') ->
         same_options_file w w').
Proof.
  pose proof (respects_setup_loop same_options_file same_options_file_refl
                same_options_file_trans same_options_file_emit
                same_options_file_read tc fuel o w) as Hloop.
  split; [| split; [| split]].
  - intros turn w' H.
    pose proof (respects_setup_turn same_options_file same_options_file_refl
                  same_options_file_trans same_options_file_emit
                  same_options_file_read tc o w) as Hturn.
    rewrite H in Hturn. exact Hturn.
  - intros Hlt. pose proof (setup_loop_ends tc fuel o w Hlt) as Hends.
    unfold setup_compilation_options, bind.
    destruct (setup_loop tc fuel o w) as [[o1 | e | s |] w1]; cbn [fst] in *;
      try discriminate. congruence.
  - intros o' w' H. unfold setup_compilation_options, bind in H.
    destruct (setup_loop tc fuel o w) as [[o1 | e | s |] w1]; try discriminate.
    cbn in H. injection H as <- <-. exists w1.
    split; [reflexivity |]. split; [exact Hloop |]. split; [reflexivity |].
    cbn. rewrite <- app_assoc. reflexivity.
  - intros out w' H Hout. unfold setup_compilation_options, bind in H.
    destruct (setup_loop tc fuel o w) as [[o1 | e | s |] w1]; cbn [snd] in Hloop.
    + cbn in H. injection H as <- _. exfalso. eapply Hout. reflexivity.
    + injection H as _ <-. exact Hloop.
    + injection H as _ <-. exact Hloop.
    + injection H as _ <-. exact Hloop.
Qed.

Lemma settings_are_written_on_return_witness :
  let o := options_of "/proj" "A" in
  let w := world_of built_project ["2"; "pkg.Main"; "4"; "y"; "0"] in
  let o' := set_verbose true (set_main_class_path "pkg.Main" o) in
  exists w',
    setup_compilation_options plain 4 o w = (Ret o', w')
    /\ options_file w' = Some (to_dict o')
    /\ dumps (log w') = [to_dict o'].
Proof.
  intros o w o'.
  destruct (setup_compilation_options plain 4 o w) as [out w'] eqn:Hrun.
  assert (Hout : out = Ret o').
  { apply (f_equal fst) in Hrun. vm_compute in Hrun. symmetry. exact Hrun. }
  subst out. exists w'. split; [reflexivity |].
  destruct (settings_are_written_on_return plain 4 o w) as (_ & _ & Hret & _).
  destruct (Hret o' w' Hrun) as (w1 & Hloop & [_ Hdumps] & Hfile & Hlog).
  split; [exact Hfile |].
  rewrite Hlog, dumps_app, Hdumps. reflexivity.
Defined.

(** With the options of a first run persisted, a turn of the submenu that
    changes the main class path leaves the options file with the old
    record; and a session that changes it and then names a folder that
    does not exist exits with the change never written. *)
Lemma settings_not_written_after_a_mutation :
  let o := options_of "/proj" "A" in
  let o' := set_main_class_path "pkg.Main" o in
  let w := with_options_file (world_of built_project ["2"; "pkg.Main"; "1"; "/nowhere"])
                             (Some (to_dict o)) in
  fst (setup_turn plain o w) = Ret (true, o')
  /\ to_dict o' <> to_dict o
  /\ options_file (snd (setup_turn plain o w)) = Some (to_dict o)
  /\ dumps (log (snd (setup_turn plain o w))) = []
  /\ fst (setup_compilation_options plain 5 o w) = Exit 1
  /\ options_file (snd (setup_compilation_options plain 5 o w)) = Some (to_dict o).
Proof.
  repeat split; try reflexivity. discriminate.
Qed.

(** ** The program loop *)

Lemma stdin_emit w e : stdin (emit w e) = stdin w.
Proof. reflexivity. Qed.

Lemma fs_emit w e : fs (emit w e) = fs w.
Proof. reflexivity. Qed.

Lemma fs_with_stdin w lines : fs (with_stdin w lines) = fs w.
Proof. reflexivity. Qed.

Lemma show_menu_reads tc o w line rest :
  stdin w = line :: rest ->
  exists w1, show_menu tc o w = (Ret (Str.strip line), w1) /\ fs w1 = fs w.
Proof.
  intros Hin. unfold show_menu.
  do 13 (unfold bind at 1; unfold print at 1; cbv beta iota).
  unfold bind at 1. unfold input at 1. cbv beta iota zeta.
  rewrite !stdin_emit, Hin. cbv beta iota. unfold ret.
  eexists. split; [reflexivity |].
  rewrite fs_with_stdin, !fs_emit. reflexivity.
Qed.

(** C1 fails on the code. When the user chooses "4" and the compiler fails
    on the main file, the [CompilationError] that [_compile_file] raises
    is caught neither by [compile_and_run_project] nor by the program
    loop: the loop ends with that exception. *)
Theorem compile_and_run_failure_ends_the_loop tc sp fuel o w rest result fs1 :
  stdin w = "4" :: rest ->
  sp (compile_command o (main_file_of o)) (fs w) = (Some result, fs1) ->
  Os.returncode result <> 0%Z ->
  fst (menu_loop tc sp (S fuel) o w)
  = Raise (CompilationError ("Could not compile the file " ++ dquote
                             ++ main_file_of o ++ dquote ++ ".")).
Proof.
  intros Hin Hsp Hrc.
  destruct (show_menu_reads tc o w _ _ Hin) as (w1 & Hmenu & Hfs).
  cbn [menu_loop]. unfold bind at 1. unfold menu_turn. unfold bind at 1.
  rewrite Hmenu. change (Str.strip "4") with "4". cbn [String.eqb Ascii.eqb Bool.eqb].
  unfold bind at 1. unfold bind at 1. unfold os_system at 1.
  unfold bind at 1. unfold compile_and_run_project. unfold bind at 1.
  erewrite compile_file_failed; [reflexivity | | exact Hrc].
  cbn [emit fs]. rewrite Hfs. exact Hsp.
Qed.

Lemma compile_and_run_failure_ends_the_loop_witness :
  let o := options_of "/work" "pkg.Two" in
  let sp := rejecting "/work/pkg/Two.java" in
  fst (menu_loop plain sp 3 o (world_of three_sources ["4"; EmptyString; "0"]))
  = Raise (CompilationError ("Could not compile the file " ++ dquote
                             ++ "/work/pkg/Two.java" ++ dquote ++ "."))
  /\ fst (menu_loop plain sp 3 o (world_of three_sources ["1"; EmptyString; "0"]))
     = Exit 0.
Proof.
  intros o sp. split; [| vm_compute; reflexivity].
  apply (compile_and_run_failure_ends_the_loop plain sp 2 o
           (world_of three_sources ["4"; EmptyString; "0"]) [EmptyString; "0"]
           {| Os.returncode := 1; Os.stdout := EmptyString;
              Os.stderr := "error: class, interface, or enum expected" |}
           (fs_of three_sources)).
  - reflexivity.
  - reflexivity.
  - discriminate.
Defined.

(** ** Records the constructor builds *)

Lemma validate_folder_inv tc p w q w' :
  _validate_folder tc p w = (Ret q, w') ->
  w' = w /\ q = Path.abspath (cwd w) p /\ Os.isdir (fs w) q = true.
Proof.
  intros H.
  destruct (Os.isdir (fs w) (Path.abspath (cwd w) p)) eqn:Hdir.
  - rewrite (validate_folder_ok tc p w Hdir) in H. injection H as <- <-.
    repeat split. exact Hdir.
  - rewrite (validate_folder_exits tc p w (or_intror Hdir)) in H. discriminate.
Qed.

(** The constructor with three arguments stores resolved paths of existing
    directories, so what it builds survives the round trip through the
    options file. *)
Lemma constructed_options_round_trip tc a0 a1 a2 w o w' :
  Path.isabs (cwd w) = true ->
  CompilationOptions_init tc [a0; a1; a2] w = (Ret o, w') ->
  exists w1,
    create_compilation_options_file o w' = (Ret tt, w1)
    /\ load_compilation_options_file tc w1 = (Ret o, w1).
Proof.
  intros Hcwd H. unfold CompilationOptions_init, set_src_folder, set_class_path in H.
  apply bind_Ret_inv in H. destruct H as (o1 & w1 & H1 & H).
  apply bind_Ret_inv in H1. destruct H1 as (q1 & w1' & Hv1 & H1).
  injection H1 as <- <-.
  apply bind_Ret_inv in H. destruct H as (q2 & w2 & Hv2 & H).
  injection H as <- <-.
  apply validate_folder_inv in Hv1. destruct Hv1 as (-> & -> & Hd1).
  apply validate_folder_inv in Hv2. destruct Hv2 as (-> & -> & Hd2).
  destruct (abspath_resolved (cwd w) a0 Hcwd) as [_ Hfix1].
  destruct (abspath_resolved (cwd w) a2 Hcwd) as [_ Hfix2].
  eexists. split; [reflexivity |].
  apply load_written_options; [reflexivity | | | |]; assumption.
Qed.

(** ** The properties on the sample projects *)

Example scan_three_sources :
  fst (_posorder_traversal 2 "/work" is_java (world_of three_sources []))
  = Ret ["/work/One.java"; "/work/pkg/Two.java"; "/work/Three.java"].
Proof. reflexivity. Qed.

Example main_file_of_pkg_Main :
  main_file_of (options_of "/proj" "pkg.Main") = "/proj/pkg/Main.java".
Proof. reflexivity. Qed.

Lemma three_sources_nests : nests (fs (world_of three_sources [])) 2 "/work".
Proof. apply nestsb_sound. reflexivity. Qed.

Lemma posorder_traversal_exact_witness :
  let w := world_of three_sources [] in
  exists files,
    _posorder_traversal 2 "/work" is_java w = (Ret files, w)
    /\ (forall p, In p files <-> file_under (fs w) "/work" p /\ is_java p = true)
    /\ (forall p, In p files -> Os.isdir (fs w) p = false)
    /\ (tidy (fs w) -> NoDup files)
    /\ (forall w', fs w' = fs w ->
                   _posorder_traversal 2 "/work" is_java w' = (Ret files, w')).
Proof.
  intros w.
  apply (posorder_traversal_exact is_java w 2 2 "/work" three_sources_nests (le_n 2)).
Defined.

Lemma posorder_traversal_splices_witness :
  let w := world_of three_sources [] in
  exists found_before found_here found_after,
    ["/work/One.java"; "/work/pkg/Two.java"; "/work/Three.java"]
    = (found_before ++ found_here ++ found_after)%list
    /\ fst (scan_names 1 "/work" is_java ["One.java"] [] w) = Ret found_before
    /\ fst (scan_names 1 "/work" is_java ["Three.java"] [] w) = Ret found_after
    /\ (Os.isdir (fs w) (Path.join "/work" "pkg") = true ->
        fst (_posorder_traversal 1 (Path.join "/work" "pkg") is_java w)
        = Ret found_here)
    /\ (Os.isdir (fs w) (Path.join "/work" "pkg") = false ->
        found_here = if is_java (Path.join "/work" "pkg")
                     then [Path.join "/work" "pkg"] else []).
Proof.
  intros w.
  apply (posorder_traversal_splices 1 "/work" is_java w
           ["One.java"] "pkg" ["Three.java"]); reflexivity.
Defined.



(** ** A file system after a removal *)

Lemma isdir_without (fs : Os.FS) p q :
  fs p = Some Os.File -> Os.isdir (Os.without fs p) q = Os.isdir fs q.
Proof.
  intros Hp. unfold Os.isdir, Os.without.
  destruct (String.eqb q p) eqn:E.
  - apply String.eqb_eq in E. subst q. rewrite Hp. reflexivity.
  - destruct (fs q) as [[| names] |]; reflexivity.
Qed.

Lemma filter_concat {A} (f : A -> bool) (ls : list (list A)) :
  filter f (concat ls) = concat (map (filter f) ls).
Proof.
  induction ls as [| l ls IH]; [reflexivity |].
  cbn [concat map]. rewrite filter_app, IH. reflexivity.
Qed.

Lemma contribution_without condition w p fuel folder name c :
  fs w p = Some Os.File ->
  (forall folder files,
      fst (_posorder_traversal fuel folder condition w) = Ret files ->
      fst (_posorder_traversal fuel folder condition (with_fs w (Os.without (fs w) p)))
      = Ret (filter (fun q => negb (String.eqb q p)) files)) ->
  fst (contribution fuel folder condition name w) = Ret c ->
  (String.eqb (Path.join folder name) p = false ->
   fst (contribution fuel folder condition name (with_fs w (Os.without (fs w) p)))
   = Ret (filter (fun q => negb (String.eqb q p)) c))
  /\ (Path.join folder name = p ->
      filter (fun q => negb (String.eqb q p)) c = []).
Proof.
  intros Hp IH Hc. unfold contribution in *. cbn [with_fs fs].
  rewrite (isdir_without _ _ _ Hp).
  destruct (Os.isdir (fs w) (Path.join folder name)) eqn:Hd.
  - split; [intros _; apply IH; exact Hc |].
    intros Ej. rewrite Ej in Hd. unfold Os.isdir in Hd. rewrite Hp in Hd. discriminate.
  - cbn [fst] in *. injection Hc as <-.
    destruct (condition (Path.join folder name)); cbn [filter].
    + split; [intros ->; reflexivity |].
      intros ->. rewrite String.eqb_refl. reflexivity.
    + split; reflexivity.
Qed.

(** Once the plain file [p] is removed, the traversal returns what it
    returned before, without [p]. *)
Lemma posorder_traversal_without condition w p :
  fs w p = Some Os.File ->
  forall fuel folder files,
    fst (_posorder_traversal fuel folder condition w) = Ret files ->
    fst (_posorder_traversal fuel folder condition (with_fs w (Os.without (fs w) p)))
    = Ret (filter (fun q => negb (String.eqb q p)) files).
Proof.
  intros Hp. induction fuel as [| fuel IH]; intros folder files Hrun; [discriminate |].
  rewrite posorder_traversal_S in Hrun. rewrite posorder_traversal_S.
  destruct (fs w folder) as [[| names] |] eqn:Hdir; try discriminate.
  cbn [with_fs fs]. unfold Os.without at 1. rewrite Hdir.
  destruct (String.eqb folder p) eqn:E.
  { apply String.eqb_eq in E. subst folder. congruence. }
  apply scan_names_concat in Hrun. destruct Hrun as (cs & HF & ->).
  apply scan_names_concat.
  clear Hdir. induction HF as [| name c names cs Hc HF IHF].
  - exists []. split; [constructor | reflexivity].
  - destruct IHF as (cs' & HF' & Hcs').
    destruct (contribution_without condition w p fuel folder name c Hp IH Hc)
      as [Hc' Hgone].
    cbn [filter concat]. rewrite filter_app, Hcs'.
    destruct (String.eqb (Path.join folder name) p) eqn:Ej; cbn [negb].
    + apply String.eqb_eq in Ej. exists cs'. split; [exact HF' |].
      rewrite (Hgone Ej). reflexivity.
    + exists (filter (fun q => negb (String.eqb q p)) c :: cs').
      split; [constructor; [apply Hc'; reflexivity | exact HF'] | reflexivity].
Qed.

Lemma with_fs_with_fs w fs1 fs2 : with_fs (with_fs w fs1) fs2 = with_fs w fs2.
Proof. reflexivity. Qed.

Lemma posorder_traversal_after_removals condition fuel folder gone : forall w files,
  NoDup gone ->
  (forall f, In f gone -> fs w f = Some Os.File) ->
  fst (_posorder_traversal fuel folder condition w) = Ret files ->
  fst (_posorder_traversal fuel folder condition
         (with_fs w (fold_left Os.without gone (fs w))))
  = Ret (filter (fun q => negb (existsb (String.eqb q) gone)) files).
Proof.
  induction gone as [| g gone IH]; intros w files Hnd Hfiles Hrun.
  - cbn [fold_left existsb negb]. 
    rewrite (posorder_traversal_fs condition (with_fs w (fs w)) w eq_refl), Hrun.
    f_equal. symmetry. apply forallb_filter_id. apply forallb_forall. reflexivity.
  - inversion Hnd as [| ? ? Hnot Hnd']; subst.
    pose proof (posorder_traversal_without condition w g
                  (Hfiles g (or_introl eq_refl)) fuel folder files Hrun) as Hstep.
    cbn [fold_left].
    change (with_fs w (fold_left Os.without gone (Os.without (fs w) g)))
      with (with_fs (with_fs w (Os.without (fs w) g))
                    (fold_left Os.without gone
                               (fs (with_fs w (Os.without (fs w) g))))).
    rewrite (IH (with_fs w (Os.without (fs w) g))
                (filter (fun q => negb (String.eqb q g)) files) Hnd').
    + f_equal. clear. induction files as [| q files IHf]; [reflexivity |].
      cbn [filter existsb].
      destruct (String.eqb q g) eqn:E; cbn [negb orb].
      * exact IHf.
      * cbn [filter]. rewrite IHf. reflexivity.
    + intros f Hf. cbn [with_fs fs]. apply without_other.
      * intros ->. contradiction.
      * apply Hfiles. right. exact Hf.
    + exact Hstep.
Qed.

Lemma is_java_not_is_class p : is_java p = true -> is_class p = false.
Proof.
  unfold is_java, is_class. induction p as [| c p IH]; [discriminate |].
  cbn [Str.endswith]. intros H.
  destruct (String.eqb (String c p) ".java") eqn:Ej.
  - apply String.eqb_eq in Ej. injection Ej as -> ->. reflexivity.
  - destruct (String.eqb (String c p) ".class") eqn:Ec.
    + apply String.eqb_eq in Ec. injection Ec as -> ->. discriminate.
    + apply IH. exact H.
Qed.

(** What [clear_build] does on the files the traversal found, when each
    exists and none is listed twice. *)
Lemma clear_build_run tc fuel o w files :
  fst (_posorder_traversal fuel (src_folder o) is_class w) = Ret files ->
  NoDup files ->
  (forall f, In f files -> fs w f = Some Os.File) ->
  clear_build tc fuel o w
  = (Ret tt,
     evolve w (fold_left Os.without files (fs w))
       ([Stdout (OKCYAN tc ++ "Cleaning build..." ++ ENDC tc); Stdout EmptyString]
        ++ flat_map (deletion tc) files
        ++ [Stdout (nl ++ OKGREEN tc ++ "Build cleaned!" ++ ENDC tc)])%list).
Proof.
  intros Hrun Hnd Hfiles.
  unfold clear_build. unfold bind at 1.
  rewrite posorder_traversal_world, Hrun.
  unfold bind at 1. unfold print at 1. unfold bind at 1. unfold print at 1.
  unfold bind at 1. rewrite (delete_each tc files).
  - unfold print, evolve, emit. cbn [fs cwd argv stdin options_file log].
    rewrite <- !app_assoc. reflexivity.
  - exact Hnd.
  - intros f Hf. cbn [emit fs]. apply Hfiles. exact Hf.
Qed.

Lemma existsb_eqb_In q (l : list string) : existsb (String.eqb q) l = true <-> In q l.
Proof.
  rewrite existsb_exists. split.
  - intros (x & Hx & E). apply String.eqb_eq in E. subst x. exact Hx.
  - intros H. exists q. split; [exact H | apply String.eqb_refl].
Qed.

(** After [clear_build], a traversal returns what it returned before,
    without the paths that end with [.class]. *)
Lemma clear_build_then_scan tc fuel depth o w :
  tidy (fs w) ->
  nests (fs w) depth (src_folder o) ->
  depth <= fuel ->
  exists w1,
    clear_build tc fuel o w = (Ret tt, w1)
    /\ forall condition files,
        fst (_posorder_traversal fuel (src_folder o) condition w) = Ret files ->
        fst (_posorder_traversal fuel (src_folder o) condition w1)
        = Ret (filter (fun p => negb (is_class p)) files).
Proof.
  intros Htidy Hn Hle.
  destruct (posorder_traversal_total is_class w fuel depth _ Hn Hle) as [gone Hgone].
  pose proof (posorder_traversal_sound _ _ _ _ _ Hgone) as Hsound.
  pose proof (posorder_traversal_NoDup _ _ Htidy _ _ _ Hgone) as Hnd.
  assert (Hfiles : forall f, In f gone -> fs w f = Some Os.File).
  { intros f Hf. apply Hsound in Hf. destruct Hf as [Hu _].
    apply (file_under_listed _ _ _ Htidy Hu). }
  eexists. split; [apply (clear_build_run tc fuel o w gone Hgone Hnd Hfiles) |].
  intros condition files Hrun.
  rewrite (posorder_traversal_fs condition
             (evolve w (fold_left Os.without gone (fs w)) _)
             (with_fs w (fold_left Os.without gone (fs w))) eq_refl).
  rewrite (posorder_traversal_after_removals condition fuel _ gone w files
             Hnd Hfiles Hrun).
  f_equal. apply filter_ext_in. intros q Hq. f_equal.
  apply (posorder_traversal_sound _ _ _ _ _ Hrun) in Hq. destruct Hq as [Hu _].
  destruct (is_class q) eqn:Ec.
  - apply existsb_eqb_In. apply Hsound. split; assumption.
  - destruct (existsb (String.eqb q) gone) eqn:Ee; [| reflexivity].
    apply existsb_eqb_In in Ee. apply Hsound in Ee. destruct Ee as [_ Ee]. congruence.
Qed.

Lemma filter_none {A} (f : A -> bool) l :
  (forall x, In x l -> f x = false) -> filter f l = [].
Proof.
  induction l as [| x l IH]; intros H; [reflexivity |].
  cbn [filter]. rewrite (H x (or_introl eq_refl)).
  apply IH. intros y Hy. apply H. right. exact Hy.
Qed.

Lemma filter_all {A} (f : A -> bool) l :
  (forall x, In x l -> f x = true) -> filter f l = l.
Proof.
  induction l as [| x l IH]; intros H; [reflexivity |].
  cbn [filter]. rewrite (H x (or_introl eq_refl)). f_equal.
  apply IH. intros y Hy. apply H. right. exact Hy.
Qed.

(** X1. On a tidy source tree of finite depth, once [clear_build] has
    run, a traversal of the source folder finds no path that ends with
    [.class], and a second [clear_build] returns without calling
    [os.remove] and leaves the file system as it is. *)
Theorem clear_build_twice tc fuel depth o w :
  tidy (fs w) ->
  nests (fs w) depth (src_folder o) ->
  depth <= fuel ->
  exists w1 w2,
    clear_build tc fuel o w = (Ret tt, w1)
    /\ fst (_posorder_traversal fuel (src_folder o) is_class w1) = Ret []
    /\ clear_build tc fuel o w1 = (Ret tt, w2)
    /\ fs w2 = fs w1
    /\ removed (log w2) = removed (log w1).
Proof.
  intros Htidy Hn Hle.
  destruct (clear_build_then_scan tc fuel depth o w Htidy Hn Hle) as (w1 & Hrun & Hscan).
  destruct (posorder_traversal_total is_class w fuel depth _ Hn Hle) as [gone Hgone].
  assert (Hnone : fst (_posorder_traversal fuel (src_folder o) is_class w1) = Ret []).
  { rewrite (Hscan is_class gone Hgone). f_equal. apply filter_none.
    intros p Hp. apply (posorder_traversal_sound _ _ _ _ _ Hgone) in Hp.
    destruct Hp as [_ ->]. reflexivity. }
  exists w1. eexists. split; [exact Hrun |]. split; [exact Hnone |].
  split; [apply (clear_build_run tc fuel o w1 [] Hnone) |].
  - constructor.
  - intros f [].
  - split; [reflexivity |]. cbn [evolve log flat_map app].
    rewrite removed_app. cbn. apply app_nil_r.
Qed.

(** X2. On a tidy source tree of finite depth, [clear_build] leaves the
    source files alone: the traversal that lists the [.java] files returns
    after it the list it returned before it, so a later compile-all
    compiles the same files in the same order. *)
Theorem clear_build_keeps_the_sources tc fuel depth o w :
  tidy (fs w) ->
  nests (fs w) depth (src_folder o) ->
  depth <= fuel ->
  exists w1 sources,
    clear_build tc fuel o w = (Ret tt, w1)
    /\ fst (_posorder_traversal fuel (src_folder o) is_java w) = Ret sources
    /\ fst (_posorder_traversal fuel (src_folder o) is_java w1) = Ret sources.
Proof.
  intros Htidy Hn Hle.
  destruct (clear_build_then_scan tc fuel depth o w Htidy Hn Hle) as (w1 & Hrun & Hscan).
  destruct (posorder_traversal_total is_java w fuel depth _ Hn Hle) as [sources Hsrc].
  exists w1, sources. split; [exact Hrun |]. split; [exact Hsrc |].
  rewrite (Hscan is_java sources Hsrc). f_equal. apply filter_all.
  intros p Hp. apply (posorder_traversal_sound _ _ _ _ _ Hsrc) in Hp.
  destruct Hp as [_ Hj]. rewrite (is_java_not_is_class p Hj). reflexivity.
Qed.

Lemma clear_build_twice_witness :
  let o := options_of "/proj" "A" in
  let w := world_of built_project [] in
  exists w1 w2,
    clear_build plain 2 o w = (Ret tt, w1)
    /\ fst (_posorder_traversal 2 "/proj" is_class w1) = Ret []
    /\ clear_build plain 2 o w1 = (Ret tt, w2)
    /\ fs w2 = fs w1
    /\ removed (log w2) = removed (log w1).
Proof.
  intros o w.
  apply (clear_build_twice plain 2 2 o w built_project_tidy built_project_nests (le_n 2)).
Defined.

Lemma clear_build_keeps_the_sources_witness :
  let o := options_of "/proj" "A" in
  let w := world_of built_project [] in
  exists w1 sources,
    clear_build plain 2 o w = (Ret tt, w1)
    /\ fst (_posorder_traversal 2 "/proj" is_java w) = Ret sources
    /\ fst (_posorder_traversal 2 "/proj" is_java w1) = Ret sources.
Proof.
  intros o w.
  apply (clear_build_keeps_the_sources plain 2 2 o w
           built_project_tidy built_project_nests (le_n 2)).
Defined.

(** ** Batches that end well, and compilers that cannot be started *)

(** X3. When every scanned file compiles, compile-all runs the compiler
    once on each scanned file, in scan order, writes nothing to the error
    stream, removes nothing, and ends with the two lines that report the
    number of scanned files as the total; with no source file at all it
    runs no compiler and reports a total of 0. *)
Theorem compile_all_files_compiles_every_file tc sp fuel o w files fs' :
  fst (_posorder_traversal fuel (src_folder o) is_java w) = Ret files ->
  compiles sp o (fs w) files fs' ->
  exists es,
    compile_all_files tc sp fuel o w = (Ret tt, evolve w fs' es)
    /\ spawned es = map (compile_command o) files
    /\ errors es = []
    /\ removed es = []
    /\ exists es0, es = (es0 ++ compiled_lines tc (length files))%list.
Proof.
  intros Hrun Hc. rewrite (compile_all_files_unfold tc sp fuel o w files Hrun).
  unfold bind at 1.
  rewrite (compile_batch_ok tc sp o files
             (evolve w (fs w) (files_to_compile_lines files)) fs' Hc).
  destruct (files_to_compile_lines_quiet files) as (Hqs & Hqe & Hqr).
  destruct (compiling_projections tc o files) as (Hs & He & Hr).
  exists (files_to_compile_lines files ++ flat_map (compiling tc o) files
          ++ compiled_lines tc (length files))%list.
  split; [| split; [| split; [| split]]].
  - unfold report_compiled, compiled_lines, bind, print, evolve, emit.
    cbn [fs cwd argv stdin options_file log]. rewrite <- !app_assoc. reflexivity.
  - rewrite !spawned_app, Hqs, Hs. cbn. apply app_nil_r.
  - rewrite !errors_app, Hqe, He. reflexivity.
  - rewrite !removed_app, Hqr, Hr. reflexivity.
  - eexists. rewrite app_assoc. reflexivity.
Qed.

Lemma compile_all_files_compiles_every_file_witness :
  let w := world_of three_sources [] in
  let o := options_of "/work" "One" in
  let files := ["/work/One.java"; "/work/pkg/Two.java"; "/work/Three.java"] in
  exists es,
    compile_all_files plain accepting 2 o w = (Ret tt, evolve w (fs w) es)
    /\ spawned es = map (compile_command o) files
    /\ errors es = []
    /\ removed es = []
    /\ exists es0, es = (es0 ++ compiled_lines plain 3)%list.
Proof.
  intros w o files.
  apply (compile_all_files_compiles_every_file plain accepting 2 o w files (fs w)).
  - vm_compute. reflexivity.
  - repeat (eapply compiles_cons; [reflexivity | reflexivity |]). apply compiles_nil.
Defined.

Lemma compile_command_head o file : hd EmptyString (compile_command o file) = compiler o.
Proof. unfold compile_command. destruct (verbose o); reflexivity. Qed.

Lemma compile_file_not_started tc sp file o w fs' :
  sp (compile_command o file) (fs w) = (None, fs') ->
  _compile_file tc sp file o w
  = (Raise (FileNotFoundError (compiler o)),
     evolve w fs' [Run (compile_command o file)]).
Proof.
  intros Hsp. unfold _compile_file. unfold bind at 1.
  unfold subprocess_run. cbn [emit fs]. rewrite Hsp, compile_command_head.
  reflexivity.
Qed.

Lemma compile_each_not_started tc sp o before file after : forall w fs1 fs2,
  compiles sp o (fs w) before fs1 ->
  sp (compile_command o file) fs1 = (None, fs2) ->
  for_each (before ++ file :: after)%list (fun file =>
    print (nl ++ OKCYAN tc ++ "Compiling file: " ++ file ++ ENDC tc) ;;
    _compile_file tc sp file o) w
  = (Raise (FileNotFoundError (compiler o)),
     evolve w fs2 (flat_map (compiling tc o) before
                   ++ [Stdout (nl ++ OKCYAN tc ++ "Compiling file: " ++ file
                               ++ ENDC tc);
                       Run (compile_command o file)])).
Proof.
  induction before as [| f before IH]; intros w fs1 fs2 Hc Hsp.
  - inversion Hc; subst. cbn [app for_each].
    unfold bind at 1. unfold bind at 1. unfold print at 1.
    rewrite (compile_file_not_started tc sp file o (emit w (Stdout _)) fs2 Hsp).
    unfold evolve, emit. cbn [fs cwd argv stdin options_file log flat_map app].
    rewrite <- !app_assoc. reflexivity.
  - inversion Hc as [| ? ? r1 fsa ? ? Hsp1 Hrc1 Hrest]; subst.
    cbn [app for_each].
    unfold bind at 1. unfold bind at 1. unfold print at 1.
    rewrite (compile_file_ok tc sp f o (emit w (Stdout _)) r1 fsa Hsp1 Hrc1).
    rewrite (IH (evolve (emit w (Stdout _)) fsa _) fs1 fs2 Hrest Hsp).
    unfold compiling at 2. unfold evolve, emit.
    cbn [fs cwd argv stdin options_file log flat_map].
    rewrite <- !app_assoc. reflexivity.
Qed.

(** X4. When the compiler executable cannot be started on a file of a
    compile-all batch, [subprocess.run] raises [FileNotFoundError], which
    the [except CompilationError] of the batch does not catch: the
    operation ends with that exception, after the attempts on the files up
    to that one, and the error stream receives nothing. *)
Theorem compile_all_files_compiler_not_found tc sp fuel o w before file after fs1 fs2 :
  fst (_posorder_traversal fuel (src_folder o) is_java w)
  = Ret (before ++ file :: after)%list ->
  compiles sp o (fs w) before fs1 ->
  sp (compile_command o file) fs1 = (None, fs2) ->
  exists es,
    compile_all_files tc sp fuel o w
    = (Raise (FileNotFoundError (compiler o)), evolve w fs2 es)
    /\ spawned es = map (compile_command o) (before ++ [file])%list
    /\ errors es = [].
Proof.
  intros Hrun Hc Hsp. rewrite (compile_all_files_unfold tc sp fuel o w _ Hrun).
  unfold bind at 1. unfold compile_batch, try_except_CompilationError.
  unfold bind at 1.
  rewrite (compile_each_not_started tc sp o before file after
             (evolve w (fs w) (files_to_compile_lines _)) fs1 fs2 Hc Hsp).
  rewrite evolve_evolve.
  destruct (files_to_compile_lines_quiet (before ++ file :: after)) as (Hqs & Hqe & _).
  destruct (compiling_projections tc o before) as (Hs & He & _).
  eexists. split; [reflexivity |]. split.
  - rewrite !spawned_app, Hqs, Hs, map_app. reflexivity.
  - rewrite !errors_app, Hqe, He. reflexivity.
Qed.

Lemma compile_all_files_compiler_not_found_witness :
  let w := world_of three_sources [] in
  let o := options_of "/work" "One" in
  exists es,
    compile_all_files plain nothing_installed 2 o w
    = (Raise (FileNotFoundError "javac"), evolve w (fs w) es)
    /\ spawned es = map (compile_command o) ([] ++ ["/work/One.java"])%list
    /\ errors es = [].
Proof.
  intros w o.
  apply (compile_all_files_compiler_not_found plain nothing_installed 2 o w
           [] "/work/One.java" ["/work/pkg/Two.java"; "/work/Three.java"]
           (fs w) (fs w)).
  - vm_compute. reflexivity.
  - apply compiles_nil.
  - reflexivity.
Defined.

(** ** Running the program *)

(** X5. Once the main file has compiled, [compile_and_run_project] runs
    the program and returns to its caller whatever the program's exit
    status: with status 0 its last event is the line with the program's
    standard output and nothing goes to the error stream; with another
    status the error stream receives the line that the project could not
    be run and the program's standard error, and the standard output is
    not written. *)
Theorem compile_and_run_project_reports_the_run tc sp o w result fs1 run fs2 :
  sp (compile_command o (main_file_of o)) (fs w) = (Some result, fs1) ->
  Os.returncode result = 0%Z ->
  sp (run_command o) fs1 = (Some run, fs2) ->
  (Os.returncode run = 0%Z ->
   compile_and_run_project tc sp o w
   = (Ret tt,
      evolve w fs2 ((Run (compile_command o (main_file_of o)) :: note tc o)
                    ++ [Run (run_command o); Stdout (nl ++ Os.stdout run)])))
  /\ (Os.returncode run <> 0%Z ->
      compile_and_run_project tc sp o w
      = (Ret tt,
         evolve w fs2 ((Run (compile_command o (main_file_of o)) :: note tc o)
                       ++ [Run (run_command o);
                           Stderr (FAIL tc ++ "Error> Could not run the project!"
                                   ++ ENDC tc);
                           Stderr (nl ++ Os.stderr run)]))).
Proof.
  intros Hsp Hrc Hrun.
  assert (Hstart : compile_and_run_project tc sp o w
                   = (if negb (Os.returncode run =? 0)%Z then
                        eprint (FAIL tc ++ "Error> Could not run the project!"
                                ++ ENDC tc) ;;
                        eprint (nl ++ Os.stderr run)
                      else print (nl ++ Os.stdout run))
                       (evolve w fs2 ((Run (compile_command o (main_file_of o))
                                       :: note tc o) ++ [Run (run_command o)]))).
  { unfold compile_and_run_project. unfold bind at 1.
    rewrite (compile_file_ok tc sp _ o w result fs1 Hsp Hrc).
    unfold bind at 1. unfold subprocess_run. cbn [evolve emit fs]. rewrite Hrun.
    unfold with_fs, evolve, emit. cbn [fs cwd argv stdin options_file log].
    rewrite <- ?app_assoc. reflexivity. }
  rewrite Hstart. split; intros Hstatus.
  - rewrite Hstatus, Z.eqb_refl. cbn [negb]. unfold print, evolve, emit.
    cbn [fs cwd argv stdin options_file log]. rewrite <- !app_assoc. reflexivity.
  - apply Z.eqb_neq in Hstatus. rewrite Hstatus. cbn [negb].
    unfold bind, eprint, evolve, emit.
    cbn [fs cwd argv stdin options_file log]. rewrite <- !app_assoc. reflexivity.
Qed.

Lemma compile_and_run_project_reports_the_run_witness :
  let o := options_of "/proj" "A" in
  let w := world_of built_project [] in
  compile_and_run_project plain accepting o w
  = (Ret tt,
     evolve w (fs w) ((Run (compile_command o "/proj/A.java") :: note plain o)
                      ++ [Run ["java"; "-cp"; "/proj"; "A"];
                          Stdout (nl ++ "Hello")]))
  /\ compile_and_run_project plain crashing_program o w
     = (Ret tt,
        evolve w (fs w) ((Run (compile_command o "/proj/A.java") :: note plain o)
                         ++ [Run ["java"; "-cp"; "/proj"; "A"];
                             Stderr "Error> Could not run the project!";
                             Stderr (nl ++ "Exception in thread main")])).
Proof.
  intros o w. split.
  - apply (compile_and_run_project_reports_the_run plain accepting o w
             {| Os.returncode := 0; Os.stdout := "Hello"; Os.stderr := EmptyString |}
             (fs w)
             {| Os.returncode := 0; Os.stdout := "Hello"; Os.stderr := EmptyString |}
             (fs w)); reflexivity.
  - apply (compile_and_run_project_reports_the_run plain crashing_program o w
             {| Os.returncode := 0; Os.stdout := EmptyString; Os.stderr := EmptyString |}
             (fs w)
             {| Os.returncode := 3; Os.stdout := "partial output";
                Os.stderr := "Exception in thread main" |}
             (fs w)); try reflexivity. discriminate.
Defined.

(** ** A source folder that is no longer there *)

Lemma posorder_traversal_no_folder fuel folder condition w :
  fs w folder = None ->
  _posorder_traversal (S fuel) folder condition w
  = (Raise (FileNotFoundError folder), w).
Proof. intros H. rewrite posorder_traversal_S, H. reflexivity. Qed.

Lemma posorder_traversal_plain_file fuel folder condition w :
  fs w folder = Some Os.File ->
  _posorder_traversal (S fuel) folder condition w
  = (Raise (NotADirectoryError folder), w).
Proof. intros H. rewrite posorder_traversal_S, H. reflexivity. Qed.

(** X6. The source folder is validated when it is set, not when it is
    used. When it names nothing any more, compile-all, compile-selected
    and clean each end with the [FileNotFoundError] of [os.listdir], before
    writing or reading anything; when it names a plain file, with its
    [NotADirectoryError]. Nothing in these operations or in the program
    loop catches either. *)
Theorem operations_need_the_source_folder tc sp fuel o w :
  (fs w (src_folder o) = None ->
   compile_all_files tc sp (S fuel) o w
   = (Raise (FileNotFoundError (src_folder o)), w)
   /\ compile_specific_files tc sp (S fuel) o w
      = (Raise (FileNotFoundError (src_folder o)), w)
   /\ clear_build tc (S fuel) o w
      = (Raise (FileNotFoundError (src_folder o)), w))
  /\ (fs w (src_folder o) = Some Os.File ->
      compile_all_files tc sp (S fuel) o w
      = (Raise (NotADirectoryError (src_folder o)), w)
      /\ compile_specific_files tc sp (S fuel) o w
         = (Raise (NotADirectoryError (src_folder o)), w)
      /\ clear_build tc (S fuel) o w
         = (Raise (NotADirectoryError (src_folder o)), w)).
Proof.
  split; intros H; repeat split;
    unfold compile_all_files, compile_specific_files, clear_build;
    unfold bind at 1;
    first [ rewrite (posorder_traversal_no_folder fuel _ _ w H)
          | rewrite (posorder_traversal_plain_file fuel _ _ w H) ];
    reflexivity.
Qed.

Lemma operations_need_the_source_folder_witness :
  let o := options_of "/proj" "A" in
  let w := world_of empty_disk ["1"] in
  compile_all_files plain accepting 1 o w = (Raise (FileNotFoundError "/proj"), w)
  /\ compile_specific_files plain accepting 1 o w
     = (Raise (FileNotFoundError "/proj"), w)
  /\ clear_build plain 1 o w = (Raise (FileNotFoundError "/proj"), w).
Proof.
  intros o w.
  destruct (operations_need_the_source_folder plain accepting 0 o w) as [Hnone _].
  apply Hnone. reflexivity.
Defined.

(** ** Where the traversal looks *)

Lemma startswith_append a b : Str.startswith (a ++ b) a = true.
Proof.
  induction a as [| c a IH]; [destruct b; reflexivity |].
  cbn [append]. rewrite startswith_cons, Ascii.eqb_refl. exact IH.
Qed.

Lemma append_eq_nil (a b : string) :
  (a ++ b)%string = EmptyString -> a = EmptyString /\ b = EmptyString.
Proof. destruct a; cbn [append]; [intros ->; split; reflexivity | discriminate]. Qed.

(** X7. In a tidy file system every path the traversal of a folder
    returns begins with that folder and is not the folder itself; so the
    files that compile-all compiles and that clean removes all lie under
    the source folder. *)
Theorem posorder_traversal_stays_under_the_folder condition w fuel folder files :
  tidy (fs w) ->
  fst (_posorder_traversal fuel folder condition w) = Ret files ->
  forall p, In p files -> Str.startswith p folder = true /\ p <> folder.
Proof.
  intros Htidy Hrun p Hp.
  destruct (posorder_traversal_shape condition w Htidy _ _ _ Hrun p Hp)
    as (name & t & Hname & -> & _).
  rewrite (join_proper folder name Hname), !append_assoc.
  split; [apply startswith_append |].
  intros Heq.
  assert (Heq' : (folder ++ joint folder ++ name ++ t)%string
                 = (folder ++ EmptyString)%string)
    by (rewrite append_nil_r; exact Heq).
  clear Heq. rename Heq' into Heq. apply append_cancel_l in Heq.
  apply append_eq_nil in Heq. destruct Heq as [_ Heq].
  apply append_eq_nil in Heq. destruct Heq as [Heq _].
  apply proper_name_inv in Hname. tauto.
Qed.

Lemma posorder_traversal_stays_under_the_folder_witness :
  Str.startswith "/work/pkg/Two.java" "/work" = true
  /\ "/work/pkg/Two.java" <> "/work".
Proof.
  apply (posorder_traversal_stays_under_the_folder is_java
           (world_of three_sources []) 2 "/work"
           ["/work/One.java"; "/work/pkg/Two.java"; "/work/Three.java"]).
  - apply tidy_table_sound. reflexivity.
  - vm_compute. reflexivity.
  - right. left. reflexivity.
Defined.

(** ** The turns of the program loop *)

Lemma world_ext w1 w2 :
  fs w1 = fs w2 -> cwd w1 = cwd w2 -> argv w1 = argv w2 -> stdin w1 = stdin w2 ->
  options_file w1 = options_file w2 -> log w1 = log w2 -> w1 = w2.
Proof. destruct w1, w2. cbn. intros. subst. reflexivity. Qed.

Lemma show_menu_run tc o w line rest :
  stdin w = line :: rest ->
  show_menu tc o w
  = (Ret (Str.strip line),
     with_stdin (evolve w (fs w) (menu_lines tc o ++ [Prompt EmptyString])) rest).
Proof.
  intros Hin. unfold show_menu.
  do 13 (unfold bind at 1; unfold print at 1; cbv beta iota).
  unfold bind at 1. unfold input at 1. cbv beta iota zeta.
  rewrite !stdin_emit, Hin. cbv beta iota. unfold ret.
  apply f_equal. unfold with_stdin, evolve, menu_lines.
  cbn [emit fs cwd argv stdin options_file log].
  rewrite <- !app_assoc. reflexivity.
Qed.

Lemma show_menu_at_end_of_input tc o w :
  stdin w = [] ->
  show_menu tc o w
  = (Raise EOFError, evolve w (fs w) (menu_lines tc o ++ [Prompt EmptyString])).
Proof.
  intros Hin. unfold show_menu.
  do 13 (unfold bind at 1; unfold print at 1; cbv beta iota).
  unfold bind at 1. unfold input at 1. cbv beta iota zeta.
  rewrite !stdin_emit, Hin. cbv beta iota.
  apply f_equal. unfold menu_lines.
  apply world_ext; cbn [evolve emit fs cwd argv stdin options_file log];
    try reflexivity.
  rewrite <- !app_assoc. reflexivity.
Qed.

Lemma known_choice_false choice :
  known_choice choice = false ->
  String.eqb choice "1" = false /\ String.eqb choice "2" = false
  /\ String.eqb choice "3" = false /\ String.eqb choice "4" = false
  /\ String.eqb choice "5" = false /\ String.eqb choice "0" = false.
Proof.
  unfold known_choice. cbn [existsb]. rewrite !orb_false_iff. tauto.
Qed.

(** X8. At the main menu, a line that, once stripped, is none of the six
    choices changes nothing but the terminal: the turn writes the menu and
    the invalid-option error, reads that one line only (there is no pause
    to press Enter), runs no process, leaves the file system, the options
    file and the options as they were, and the loop goes on with the next
    line. *)
Theorem menu_turn_invalid_option tc sp fuel o w line rest :
  stdin w = line :: rest ->
  known_choice (Str.strip line) = false ->
  let es := (menu_lines tc o
             ++ [Prompt EmptyString;
                 Stderr (FAIL tc ++ "Error> Invalid option!" ++ ENDC tc)])%list in
  let w1 := with_stdin (evolve w (fs w) es) rest in
  menu_turn tc sp fuel o w = (Ret o, w1)
  /\ menu_loop tc sp (S fuel) o w = menu_loop tc sp fuel o w1
  /\ prompts es = [EmptyString]
  /\ spawned es = []
  /\ options_file w1 = options_file w.
Proof.
  intros Hin Hunknown es w1.
  destruct (known_choice_false _ Hunknown) as (E1 & E2 & E3 & E4 & E5 & E0).
  assert (Hturn : menu_turn tc sp fuel o w = (Ret o, w1)).
  { unfold menu_turn. unfold bind at 1. rewrite (show_menu_run tc o w line rest Hin).
    rewrite E1, E2, E3, E4, E5, E0.
    unfold bind, eprint, ret. apply f_equal.
    unfold w1, es, with_stdin, evolve, emit.
    cbn [fs cwd argv stdin options_file log]. rewrite <- !app_assoc. reflexivity. }
  split; [exact Hturn |]. split; [| repeat split].
  cbn [menu_loop]. unfold bind at 1. rewrite Hturn. reflexivity.
Qed.

Lemma menu_turn_invalid_option_witness :
  let o := options_of "/proj" "A" in
  let w := world_of built_project ["7" ++ no_break_space; "0"] in
  let es := (menu_lines plain o
             ++ [Prompt EmptyString; Stderr "Error> Invalid option!"])%list in
  let w1 := with_stdin (evolve w (fs w) es) ["0"] in
  menu_turn plain accepting 2 o w = (Ret o, w1)
  /\ menu_loop plain accepting 3 o w = menu_loop plain accepting 2 o w1
  /\ prompts es = [EmptyString]
  /\ spawned es = []
  /\ options_file w1 = options_file w.
Proof.
  intros o w.
  apply (menu_turn_invalid_option plain accepting 2 o w ("7" ++ no_break_space) ["0"]);
    reflexivity.
Defined.

(** X9. The program loop ends at the menu prompt in two ways: on a line
    that, once stripped, is "0" it writes that it is exiting and exits with
    status 0, whatever the options and the file system; and when standard
    input has no line left, [input()] raises [EOFError], which nothing
    catches. In both cases no process has been run and nothing removed or
    written to the options file by that turn. *)
Theorem menu_loop_ends_at_the_prompt tc sp fuel o w :
  (forall line rest,
      stdin w = line :: rest ->
      Str.strip line = "0" ->
      menu_loop tc sp (S fuel) o w
      = (Exit 0,
         with_stdin
           (evolve w (fs w)
              (menu_lines tc o
               ++ [Prompt EmptyString;
                   Stdout (OKCYAN tc ++ "Exiting the program..." ++ ENDC tc)]))
           rest))
  /\ (stdin w = [] ->
      menu_loop tc sp (S fuel) o w
      = (Raise EOFError,
         evolve w (fs w) (menu_lines tc o ++ [Prompt EmptyString]))).
Proof.
  split.
  - intros line rest Hin Hzero. cbn [menu_loop]. unfold bind at 1.
    unfold menu_turn. unfold bind at 1. rewrite (show_menu_run tc o w line rest Hin).
    rewrite Hzero. cbn [String.eqb Ascii.eqb Bool.eqb].
    unfold bind, print, exit. apply f_equal.
    unfold with_stdin, evolve, emit.
    cbn [fs cwd argv stdin options_file log]. rewrite <- !app_assoc. reflexivity.
  - intros Hin. cbn [menu_loop]. unfold bind at 1.
    unfold menu_turn. unfold bind at 1.
    rewrite (show_menu_at_end_of_input tc o w Hin). reflexivity.
Qed.

Lemma menu_loop_ends_at_the_prompt_witness :
  let o := options_of "/proj" "A" in
  fst (menu_loop plain accepting 1 o (world_of built_project [" 0"])) = Exit 0
  /\ fst (menu_loop plain accepting 1 o (world_of built_project [])) = Raise EOFError.
Proof.
  intros o.
  destruct (menu_loop_ends_at_the_prompt plain accepting 0 o
              (world_of built_project [" 0"])) as [Hexit _].
  destruct (menu_loop_ends_at_the_prompt plain accepting 0 o
              (world_of built_project [])) as [_ Heof].
  split.
  - rewrite (Hexit " 0" [] eq_refl eq_refl). reflexivity.
  - rewrite (Heof eq_refl). reflexivity.
Defined.

(** ** The constructor and the command line *)

Lemma init_three_args tc a0 a1 a2 w :
  Os.isdir (fs w) (Path.abspath (cwd w) a0) = true ->
  Os.isdir (fs w) (Path.abspath (cwd w) a2) = true ->
  CompilationOptions_init tc [a0; a1; a2] w
  = (Ret (fresh_options (Path.abspath (cwd w) a0) a1 (Path.abspath (cwd w) a2)), w).
Proof.
  intros H0 H2. unfold CompilationOptions_init, set_src_folder, set_class_path.
  unfold bind at 1. unfold bind at 1. rewrite (validate_folder_ok tc a0 w H0).
  unfold ret at 1. unfold bind at 1. rewrite (validate_folder_ok tc a2 w H2).
  reflexivity.
Qed.

(** X10. The constructor with two arguments (a source folder and a main
    class path) uses the source folder as the class path: when the
    resolved source folder is an existing directory it returns the record
    whose source folder and class path are both that resolved path, with
    the main class path as given and the defaults (not verbose, UTF-8,
    javac); otherwise it exits with status 1. *)
Theorem init_two_args tc a0 a1 w :
  (Os.isdir (fs w) (Path.abspath (cwd w) a0) = true ->
   CompilationOptions_init tc [a0; a1] w
   = (Ret (fresh_options (Path.abspath (cwd w) a0) a1 (Path.abspath (cwd w) a0)), w))
  /\ (Os.isdir (fs w) (Path.abspath (cwd w) a0) = false ->
      fst (CompilationOptions_init tc [a0; a1] w) = Exit 1).
Proof.
  unfold CompilationOptions_init, set_src_folder. split; intros H.
  - unfold bind at 1. unfold bind at 1. rewrite (validate_folder_ok tc a0 w H).
    reflexivity.
  - unfold bind at 1. unfold bind at 1.
    rewrite (validate_folder_exits tc a0 w (or_intror H)). reflexivity.
Qed.

Lemma init_two_args_witness :
  let w := world_of built_project [] in
  CompilationOptions_init plain ["/proj/sub/.."; "pkg.Main"] w
  = (Ret (fresh_options "/proj" "pkg.Main" "/proj"), w)
  /\ fst (CompilationOptions_init plain ["proj"; "pkg.Main"] w) = Exit 1.
Proof.
  intros w.
  destruct (init_two_args plain "/proj/sub/.." "pkg.Main" w) as [Hok _].
  destruct (init_two_args plain "proj" "pkg.Main" w) as [_ Hbad].
  split; [apply Hok | apply Hbad]; reflexivity.
Defined.

(** X11. With more than three command-line arguments [_process_args]
    writes the two usage lines to the error stream, the second naming the
    script as it was called, and exits with status 1; it asks for nothing
    and reads nothing. *)
Theorem process_args_too_many tc w :
  4 < length (argv w) ->
  _process_args tc w
  = (Exit 1,
     evolve w (fs w)
       [Stderr (FAIL tc ++ "Error> Too many arguments provided!" ++ ENDC tc);
        Stderr ("Usage: python " ++ hd EmptyString (argv w)
                ++ " [source_folder] [class_path]")]).
Proof.
  intros Hlen. unfold _process_args. cbv zeta.
  apply Nat.ltb_lt in Hlen. rewrite Hlen.
  unfold bind, eprint, exit. apply f_equal.
  apply world_ext; cbn [evolve emit fs cwd argv stdin options_file log];
    try reflexivity.
  rewrite <- app_assoc. reflexivity.
Qed.

Lemma process_args_too_many_witness :
  let w := {| fs := fs_of built_project; cwd := "/home/user";
              argv := ["jacs.py"; "/proj"; "A"; "/proj"; "extra"];
              stdin := ["ignored"]; options_file := None; log := [] |} in
  _process_args plain w
  = (Exit 1,
     evolve w (fs w)
       [Stderr "Error> Too many arguments provided!";
        Stderr "Usage: python jacs.py [source_folder] [class_path]"]).
Proof.
  intros w. apply (process_args_too_many plain w). cbn. lia.
Defined.

(** X12. With exactly three command-line arguments [_process_args] reads
    no line and asks for nothing: when both folders resolve to existing
    directories it returns the record of the resolved source folder, the
    main class path as given and the resolved class path, and leaves the
    world as it was; when the source folder does not, it exits with
    status 1. *)
Theorem process_args_three_arguments tc w prog a1 a2 a3 :
  argv w = [prog; a1; a2; a3] ->
  (Os.isdir (fs w) (Path.abspath (cwd w) a1) = true ->
   Os.isdir (fs w) (Path.abspath (cwd w) a3) = true ->
   _process_args tc w
   = (Ret (fresh_options (Path.abspath (cwd w) a1) a2 (Path.abspath (cwd w) a3)), w))
  /\ (Os.isdir (fs w) (Path.abspath (cwd w) a1) = false ->
      fst (_process_args tc w) = Exit 1
      /\ prompts (log (snd (_process_args tc w))) = prompts (log w)).
Proof.
  intros Hargv. unfold _process_args. cbv zeta. rewrite Hargv.
  cbn [length Nat.ltb Nat.leb]. split.
  - intros H1 H3. apply (init_three_args tc a1 a2 a3 w H1 H3).
  - intros H1.
    assert (E : exists m, CompilationOptions_init tc [a1; a2; a3] w
                          = (Exit 1, emit w (Stderr m))).
    { eexists. unfold CompilationOptions_init, set_src_folder.
      unfold bind at 1. unfold bind at 1.
      rewrite (validate_folder_exits tc a1 w (or_intror H1)). reflexivity. }
    destruct E as [m E]. rewrite E.
    cbn [fst snd emit log]. split; [reflexivity |].
    generalize (log w) as l. induction l as [| e l IH]; [reflexivity |].
    destruct e; cbn [app prompts]; rewrite ?IH; reflexivity.
Qed.

Lemma process_args_three_arguments_witness :
  let w := {| fs := fs_of built_project; cwd := "/home/user";
              argv := ["jacs.py"; "/proj"; "pkg.Main"; "/proj/sub"];
              stdin := []; options_file := None; log := [] |} in
  _process_args plain w = (Ret (fresh_options "/proj" "pkg.Main" "/proj/sub"), w).
Proof.
  intros w.
  destruct (process_args_three_arguments plain w "jacs.py" "/proj" "pkg.Main"
              "/proj/sub" eq_refl) as [Hok _].
  apply Hok; reflexivity.
Defined.

(** X13. Called with no argument, [_process_args] asks three questions in
    order (source folder, main class path, class path) and reads one line
    for each; a blank answer to the third makes the class path the source
    folder.  When the folders resolve to existing directories it returns
    the record of the resolved source folder, the stripped main class path
    and the resolved class path, having consumed exactly three lines. *)
Theorem process_args_interactive tc w prog l1 l2 l3 rest :
  argv w = [prog] ->
  stdin w = l1 :: l2 :: l3 :: rest ->
  let folder := Str.strip l1 in
  let class_folder :=
    if String.eqb (Str.strip l3) EmptyString then folder else Str.strip l3 in
  Os.isdir (fs w) (Path.abspath (cwd w) folder) = true ->
  Os.isdir (fs w) (Path.abspath (cwd w) class_folder) = true ->
  _process_args tc w
  = (Ret (fresh_options (Path.abspath (cwd w) folder) (Str.strip l2)
            (Path.abspath (cwd w) class_folder)),
     with_stdin
       (evolve w (fs w)
          [Prompt "Folder containing the source code: ";
           Prompt "Main class path: ";
           Prompt "Class path (leave empty to use the source folder as the class path): "])
       rest).
Proof.
  intros Hargv Hin folder class_folder Hsrc Hcp.
  unfold _process_args. cbv zeta. rewrite Hargv.
  cbn [length Nat.ltb Nat.leb].
  unfold bind at 1. unfold bind at 1. unfold input at 1. cbv beta iota zeta.
  rewrite stdin_emit, Hin. cbv beta iota.
  unfold bind at 1. unfold input at 1. cbv beta iota zeta.
  cbn [stdin emit with_stdin]. unfold ret at 1. cbv beta iota.
  unfold bind at 1. unfold input at 1. cbv beta iota zeta.
  cbn [stdin emit with_stdin].
  fold folder. fold class_folder.
  rewrite init_three_args.
  - apply f_equal.
    apply world_ext; cbn [evolve emit with_stdin fs cwd argv stdin options_file log];
      try reflexivity.
    rewrite <- !app_assoc. reflexivity.
  - exact Hsrc.
  - exact Hcp.
Qed.

Lemma process_args_interactive_witness :
  let w := {| fs := fs_of built_project; cwd := "/proj";
              argv := ["jacs.py"];
              stdin := [" sub "; "pkg.Main" ++ no_break_space; no_break_space; "1"];
              options_file := None;
              log := [] |} in
  _process_args plain w
  = (Ret (fresh_options "/proj/sub" "pkg.Main" "/proj/sub"),
     with_stdin
       (evolve w (fs w)
          [Prompt "Folder containing the source code: ";
           Prompt "Main class path: ";
           Prompt "Class path (leave empty to use the source folder as the class path): "])
       ["1"]).
Proof.
  intros w.
  apply (process_args_interactive plain w "jacs.py" " sub "
           ("pkg.Main" ++ no_break_space) no_break_space ["1"]);
    reflexivity.
Defined.

(** ** Starting the program *)

Lemma dict_get_lookup d key w :
  dict_get d key w
  = match lookup d key with
    | Some v => (Ret v, w)
    | None => (Raise (KeyError key), w)
    end.
Proof.
  induction d as [| [k v] d IH]; cbn [dict_get lookup]; [reflexivity |].
  destruct (String.eqb k key); [reflexivity | exact IH].
Qed.

Lemma main_with_saved_options tc sp fuel w d :
  options_file w = Some d ->
  main tc sp fuel w
  = (o <- load_compilation_options_file tc ;; menu_loop tc sp fuel o) w.
Proof.
  intros Hfile. unfold main.
  change (String.eqb os_name "nt") with false. cbv iota.
  unfold bind at 1. unfold ret at 1. cbv beta iota.
  unfold bind at 1. unfold check_if_compilation_options_file_exists at 1.
  rewrite Hfile. reflexivity.
Qed.

(** X15. An options file without one of the six keys cannot be loaded:
    [load_compilation_options_file] raises [KeyError] for the first key it
    misses, in the order source folder, main class path, class path.  The
    file written by the first version of the tool, which has no main class
    path, is such a file. *)
Theorem load_reports_the_missing_key tc w d :
  options_file w = Some d ->
  (lookup d "src_folder" = None ->
   load_compilation_options_file tc w = (Raise (KeyError "src_folder"), w))
  /\ (forall folder,
         lookup d "src_folder" = Some (JString folder) ->
         Os.isdir (fs w) (Path.abspath (cwd w) folder) = true ->
         lookup d "main_class_path" = None ->
         load_compilation_options_file tc w
         = (Raise (KeyError "main_class_path"), w))
  /\ (forall folder main,
         lookup d "src_folder" = Some (JString folder) ->
         Os.isdir (fs w) (Path.abspath (cwd w) folder) = true ->
         lookup d "main_class_path" = Some (JString main) ->
         lookup d "class_path" = None ->
         load_compilation_options_file tc w
         = (Raise (KeyError "class_path"), w)).
Proof.
  intros Hfile.
  assert (Hload : json_load_options_file w = (Ret d, w))
    by (unfold json_load_options_file; rewrite Hfile; reflexivity).
  split; [| split].
  - intros Hsrc. unfold load_compilation_options_file.
    unfold bind at 1. rewrite Hload. cbv beta iota.
    unfold bind at 1. cbn [CompilationOptions_init]. unfold ret at 1. cbv beta iota.
    unfold bind at 1. rewrite dict_get_lookup, Hsrc. reflexivity.
  - intros folder Hsrc Hdir Hmain. unfold load_compilation_options_file.
    unfold bind at 1. rewrite Hload. cbv beta iota.
    unfold bind at 1. cbn [CompilationOptions_init]. unfold ret at 1. cbv beta iota.
    unfold bind at 1. rewrite dict_get_lookup, Hsrc. cbv beta iota.
    unfold bind at 1. cbn [as_str]. unfold ret at 1. cbv beta iota.
    unfold bind at 1. unfold set_src_folder at 1. unfold bind at 1.
    rewrite (validate_folder_ok tc folder w Hdir). cbv beta iota.
    unfold ret at 1. cbv beta iota.
    unfold bind at 1. rewrite dict_get_lookup, Hmain. reflexivity.
  - intros folder main Hsrc Hdir Hmain Hcp. unfold load_compilation_options_file.
    unfold bind at 1. rewrite Hload. cbv beta iota.
    unfold bind at 1. cbn [CompilationOptions_init]. unfold ret at 1. cbv beta iota.
    unfold bind at 1. rewrite dict_get_lookup, Hsrc. cbv beta iota.
    unfold bind at 1. cbn [as_str]. unfold ret at 1. cbv beta iota.
    unfold bind at 1. unfold set_src_folder at 1. unfold bind at 1.
    rewrite (validate_folder_ok tc folder w Hdir). cbv beta iota.
    unfold ret at 1. cbv beta iota.
    unfold bind at 1. rewrite dict_get_lookup, Hmain. cbv beta iota.
    unfold bind at 1. cbn [as_str]. unfold ret at 1. cbv beta iota.
    unfold bind at 1. rewrite dict_get_lookup, Hcp. reflexivity.
Qed.

Lemma load_reports_the_missing_key_witness :
  let w := {| fs := fs_of built_project; cwd := "/home/user"; argv := ["jacs.py"];
              stdin := []; options_file := Some (legacy_document "/proj");
              log := [] |} in
  load_compilation_options_file plain w = (Raise (KeyError "main_class_path"), w).
Proof.
  intros w.
  destruct (load_reports_the_missing_key plain w (legacy_document "/proj") eq_refl)
    as (_ & Hmain & _).
  apply (Hmain "/proj"); reflexivity.
Defined.

(** X16. A saved source folder that is no longer an existing directory
    stops every later start: the program writes the folder error, naming
    the base name of the resolved path, and exits with status 1 before the
    menu is shown; it asks nothing, runs nothing and leaves the options
    file as it is. *)
Theorem stale_source_folder_stops_the_start tc sp fuel w d folder :
  options_file w = Some d ->
  lookup d "src_folder" = Some (JString folder) ->
  Os.isdir (fs w) (Path.abspath (cwd w) folder) = false ->
  main tc sp fuel w
  = (Exit 1,
     emit w (Stderr (FAIL tc ++ "Error> The folder " ++ dquote
                     ++ Path.basename (Path.abspath (cwd w) folder) ++ dquote
                     ++ " does not exist!" ++ ENDC tc))).
Proof.
  intros Hfile Hsrc Hdir.
  assert (Hload : json_load_options_file w = (Ret d, w))
    by (unfold json_load_options_file; rewrite Hfile; reflexivity).
  rewrite (main_with_saved_options tc sp fuel w d Hfile).
  unfold bind at 1. unfold load_compilation_options_file.
  unfold bind at 1. rewrite Hload. cbv beta iota.
  unfold bind at 1. cbn [CompilationOptions_init]. unfold ret at 1. cbv beta iota.
  unfold bind at 1. rewrite dict_get_lookup, Hsrc. cbv beta iota.
  unfold bind at 1. cbn [as_str]. unfold ret at 1. cbv beta iota.
  unfold bind at 1. unfold set_src_folder at 1. unfold bind at 1.
  rewrite (validate_folder_exits tc folder w (or_intror Hdir)). reflexivity.
Qed.

Lemma stale_source_folder_stops_the_start_witness :
  let w := {| fs := fs_of built_project; cwd := "/home/user"; argv := ["jacs.py"];
              stdin := ["1"];
              options_file := Some (to_dict (options_of "/old/project" "A"));
              log := [] |} in
  main plain accepting 5 w
  = (Exit 1, emit w (Stderr ("Error> The folder " ++ dquote ++ "project" ++ dquote
                             ++ " does not exist!"))).
Proof.
  intros w.
  apply (stale_source_folder_stops_the_start plain accepting 5 w
           (to_dict (options_of "/old/project" "A")) "/old/project");
    reflexivity.
Defined.

(** ** The settings submenu, turn by turn *)

Ltac setup_turn_choice Hin :=
  unfold setup_turn;
  do 9 (unfold bind at 1; unfold print at 1; cbv beta iota);
  unfold bind at 1; unfold input at 1; cbv beta iota zeta;
  rewrite !stdin_emit, Hin; cbv beta iota.

Ltac setup_turn_answer :=
  cbn [String.eqb Ascii.eqb Bool.eqb];
  unfold bind at 1; unfold input at 1; cbv beta iota zeta;
  cbn [stdin emit with_stdin].

Ltac same_world :=
  apply world_ext;
  unfold answered, saved, setup_lines;
  cbn [evolve emit with_stdin with_options_file fs cwd argv stdin options_file log];
  rewrite <- ?app_assoc; reflexivity.

Lemma setup_turn_return tc o w z rest :
  stdin w = z :: rest -> Str.strip z = "0" ->
  setup_turn tc o w
  = (Ret (false, o),
     with_stdin (evolve w (fs w) (setup_lines tc o ++ [Prompt EmptyString])) rest).
Proof.
  intros Hin Hz. setup_turn_choice Hin. rewrite Hz.
  cbn [String.eqb Ascii.eqb Bool.eqb]. unfold ret. apply f_equal. same_world.
Qed.

Lemma setup_turn_text tc o w c a rest :
  stdin w = c :: a :: rest ->
  (Str.strip c = "2" ->
   setup_turn tc o w
   = (Ret (true, set_main_class_path (Str.strip a) o),
      answered tc o "New main class path: " rest w))
  /\ (Str.strip c = "5" ->
      setup_turn tc o w
      = (Ret (true, set_encoding (Str.strip a) o),
         answered tc o "New encoding: " rest w))
  /\ (Str.strip c = "6" ->
      setup_turn tc o w
      = (Ret (true, set_compiler (Str.strip a) o),
         answered tc o "New compiler: " rest w))
  /\ (Str.strip c = "4" ->
      setup_turn tc o w
      = (Ret (true, set_verbose (String.eqb (Str.lower (Str.strip a)) "y") o),
         answered tc o "Verbose (y/n): " rest w)).
Proof.
  intros Hin.
  split; [| split; [| split]]; intros Hc; setup_turn_choice Hin; rewrite Hc;
    setup_turn_answer.
  - unfold ret. apply f_equal. same_world.
  - unfold ret. apply f_equal. same_world.
  - unfold ret. apply f_equal. same_world.
  - destruct (String.eqb (Str.lower (Str.strip a)) "y");
      unfold ret; apply f_equal; same_world.
Qed.

Lemma setup_turn_folder tc o w c a rest :
  stdin w = c :: a :: rest ->
  Os.isdir (fs w) (Path.abspath (cwd w) (Str.strip a)) = true ->
  (Str.strip c = "1" ->
   setup_turn tc o w
   = (Ret (true, assign_src_folder (Path.abspath (cwd w) (Str.strip a)) o),
      answered tc o "New source folder: " rest w))
  /\ (Str.strip c = "3" ->
      setup_turn tc o w
      = (Ret (true, assign_class_path (Path.abspath (cwd w) (Str.strip a)) o),
         answered tc o "New class path: " rest w)).
Proof.
  intros Hin Hdir.
  split; intros Hc; setup_turn_choice Hin; rewrite Hc; setup_turn_answer.
  - unfold bind at 1. unfold set_src_folder at 1. unfold bind at 1.
    rewrite validate_folder_ok by exact Hdir.
    unfold ret. apply f_equal. same_world.
  - unfold bind at 1. unfold set_class_path at 1. unfold bind at 1.
    rewrite validate_folder_ok by exact Hdir.
    unfold ret. apply f_equal. same_world.
Qed.

Lemma setup_turn_no_folder tc o w c a rest :
  stdin w = c :: a :: rest ->
  Os.isdir (fs w) (Path.abspath (cwd w) (Str.strip a)) = false ->
  Str.strip c = "1" \/ Str.strip c = "3" ->
  exists question,
    setup_turn tc o w
    = (Exit 1,
       emit (answered tc o question rest w)
         (Stderr (FAIL tc ++ "Error> The folder " ++ dquote
                  ++ Path.basename (Path.abspath (cwd w) (Str.strip a)) ++ dquote
                  ++ " does not exist!" ++ ENDC tc))).
Proof.
  intros Hin Hdir [Hc | Hc]; setup_turn_choice Hin; rewrite Hc; setup_turn_answer.
  - exists "New source folder: ".
    unfold bind at 1. unfold set_src_folder at 1. unfold bind at 1.
    rewrite validate_folder_exits by (right; exact Hdir).
    apply f_equal. same_world.
  - exists "New class path: ".
    unfold bind at 1. unfold set_class_path at 1. unfold bind at 1.
    rewrite validate_folder_exits by (right; exact Hdir).
    apply f_equal. same_world.
Qed.

(** A session of the submenu with one change: a turn that returns the
    record [o1], then "0". *)
Lemma setup_one_change tc fuel o w o1 w1 z rest :
  setup_turn tc o w = (Ret (true, o1), w1) ->
  stdin w1 = z :: rest -> Str.strip z = "0" ->
  setup_compilation_options tc (S (S fuel)) o w = (Ret o1, saved tc o1 rest w1).
Proof.
  intros Hturn Hin Hz. unfold setup_compilation_options.
  unfold bind at 1. cbn [setup_loop]. unfold bind at 1. rewrite Hturn.
  cbv beta iota. unfold bind at 1. rewrite (setup_turn_return tc o1 w1 z rest Hin Hz).
  cbv beta iota. unfold ret at 1. cbv beta iota.
  unfold bind at 1. unfold create_compilation_options_file at 1. cbv beta iota zeta.
  unfold bind at 1. unfold print at 1. cbv beta iota. unfold ret.
  apply f_equal. same_world.
Qed.

(** X17. A folder that does not exist, typed in the settings submenu, ends
    the whole program: from the main menu, "5", then "1" or "3", then a
    path that does not resolve to an existing directory make the program
    exit with status 1, the folder error being the last thing written;
    the options file is left as it was. *)
Theorem settings_missing_folder_ends_the_program tc sp fuel o w m c a rest :
  stdin w = m :: c :: a :: rest ->
  Str.strip m = "5" ->
  Str.strip c = "1" \/ Str.strip c = "3" ->
  Os.isdir (fs w) (Path.abspath (cwd w) (Str.strip a)) = false ->
  exists w',
    menu_loop tc sp (S (S fuel)) o w = (Exit 1, w')
    /\ options_file w' = options_file w
    /\ stdin w' = rest
    /\ last (log w') (Prompt EmptyString)
       = Stderr (FAIL tc ++ "Error> The folder " ++ dquote
                 ++ Path.basename (Path.abspath (cwd w) (Str.strip a)) ++ dquote
                 ++ " does not exist!" ++ ENDC tc).
Proof.
  intros Hin Hm Hc Hdir.
  cbn [menu_loop]. unfold bind at 1. unfold menu_turn. unfold bind at 1.
  rewrite (show_menu_run tc o w m _ Hin). cbv beta iota zeta. rewrite Hm.
  cbn [String.eqb Ascii.eqb Bool.eqb].
  unfold bind at 1. unfold os_system at 1. cbv beta iota.
  unfold bind at 1. unfold setup_compilation_options at 1. unfold bind at 1.
  cbn [setup_loop]. unfold bind at 1.
  match goal with
  | |- context [setup_turn tc o ?W] =>
      destruct (setup_turn_no_folder tc o W c a rest eq_refl Hdir Hc) as [q Hq]
  end.
  rewrite Hq. cbv beta iota. eexists. split; [reflexivity |].
  split; [reflexivity |]. split; [reflexivity |].
  cbn [log emit]. apply last_last.
Qed.

Lemma settings_missing_folder_ends_the_program_witness :
  let o := options_of "/proj" "A" in
  let w := world_of built_project ["5"; "3"; "/proj/lib" ++ no_break_space; "0"] in
  exists w',
    menu_loop plain accepting 2 o w = (Exit 1, w')
    /\ options_file w' = options_file w
    /\ stdin w' = ["0"]
    /\ last (log w') (Prompt EmptyString)
       = Stderr ("Error> The folder " ++ dquote ++ "lib" ++ dquote
                 ++ " does not exist!").
Proof.
  intros o w.
  apply (settings_missing_folder_ends_the_program plain accepting 0 o w
           "5" "3" ("/proj/lib" ++ no_break_space) ["0"]);
    [reflexivity | reflexivity | right; reflexivity | reflexivity].
Defined.

(** X18. Changing the source folder in the settings submenu does not move
    the class path, and changing the class path does not move the source
    folder: after "1" (or "3"), an existing folder and "0", the submenu
    returns the record with that one field set to the resolved path and
    every other field as before, and the options file holds it. *)
Theorem settings_folder_changes_one_field tc fuel o w c a z rest :
  stdin w = c :: a :: z :: rest ->
  Str.strip z = "0" ->
  Os.isdir (fs w) (Path.abspath (cwd w) (Str.strip a)) = true ->
  let folder := Path.abspath (cwd w) (Str.strip a) in
  (Str.strip c = "1" ->
   let o1 := {| src_folder := folder; main_class_path := main_class_path o;
                class_path := class_path o; verbose := verbose o;
                encoding := encoding o; compiler := compiler o |} in
   setup_compilation_options tc (S (S fuel)) o w
   = (Ret o1, saved tc o1 rest (answered tc o "New source folder: " (z :: rest) w))
   /\ options_file
        (saved tc o1 rest (answered tc o "New source folder: " (z :: rest) w))
      = Some (to_dict o1))
  /\ (Str.strip c = "3" ->
      let o1 := {| src_folder := src_folder o; main_class_path := main_class_path o;
                   class_path := folder; verbose := verbose o;
                   encoding := encoding o; compiler := compiler o |} in
      setup_compilation_options tc (S (S fuel)) o w
      = (Ret o1, saved tc o1 rest (answered tc o "New class path: " (z :: rest) w))
      /\ options_file
           (saved tc o1 rest (answered tc o "New class path: " (z :: rest) w))
         = Some (to_dict o1)).
Proof.
  intros Hin Hz Hdir folder.
  destruct (setup_turn_folder tc o w c a (z :: rest) Hin Hdir) as [H1 H3].
  split; intros Hc o1; (split; [| reflexivity]).
  - apply (setup_one_change tc fuel o w o1 _ z rest (H1 Hc) eq_refl Hz).
  - apply (setup_one_change tc fuel o w o1 _ z rest (H3 Hc) eq_refl Hz).
Qed.

Lemma settings_folder_changes_one_field_witness :
  let o := options_of "/proj" "A" in
  let w := world_of built_project ["1"; no_break_space ++ "/proj/sub"; "0"] in
  let o1 := {| src_folder := "/proj/sub"; main_class_path := "A";
               class_path := "/proj"; verbose := false;
               encoding := "UTF-8"; compiler := "javac" |} in
  setup_compilation_options plain 2 o w
  = (Ret o1, saved plain o1 [] (answered plain o "New source folder: " ["0"] w))
  /\ options_file (saved plain o1 [] (answered plain o "New source folder: " ["0"] w))
     = Some (to_dict o1).
Proof.
  intros o w o1.
  destruct (settings_folder_changes_one_field plain 0 o w "1"
              (no_break_space ++ "/proj/sub") "0" []
              eq_refl eq_refl eq_refl) as [H1 _].
  apply H1. reflexivity.
Defined.

(** X19. The main class path, the encoding and the compiler are taken as
    typed: after "2", "5" or "6", any line at all (a blank one too) and
    "0", the submenu returns the record with that field set to the
    stripped line, unchecked, and the options file holds it. *)
Theorem settings_text_fields_are_unchecked tc fuel o w c a z rest question set :
  stdin w = c :: a :: z :: rest ->
  Str.strip z = "0" ->
  In (Str.strip c, question, set)
     [ ("2", "New main class path: ", set_main_class_path);
       ("5", "New encoding: ", set_encoding);
       ("6", "New compiler: ", set_compiler) ] ->
  let o1 := set (Str.strip a) o in
  setup_compilation_options tc (S (S fuel)) o w
  = (Ret o1, saved tc o1 rest (answered tc o question (z :: rest) w))
  /\ options_file (saved tc o1 rest (answered tc o question (z :: rest) w))
     = Some (to_dict o1).
Proof.
  intros Hin Hz Hc o1.
  destruct (setup_turn_text tc o w c a (z :: rest) Hin) as (H2 & H5 & H6 & _).
  split; [| reflexivity].
  destruct Hc as [E | [E | [E | []]]]; injection E as Ec <- <-.
  - apply (setup_one_change tc fuel o w o1 _ z rest (H2 (eq_sym Ec)) eq_refl Hz).
  - apply (setup_one_change tc fuel o w o1 _ z rest (H5 (eq_sym Ec)) eq_refl Hz).
  - apply (setup_one_change tc fuel o w o1 _ z rest (H6 (eq_sym Ec)) eq_refl Hz).
Qed.

Lemma settings_text_fields_are_unchecked_witness :
  let o := options_of "/proj" "A" in
  let w := world_of built_project [" 6"; " " ++ no_break_space; "0 "] in
  let o1 := set_compiler EmptyString o in
  setup_compilation_options plain 2 o w
  = (Ret o1, saved plain o1 [] (answered plain o "New compiler: " ["0 "] w))
  /\ options_file (saved plain o1 [] (answered plain o "New compiler: " ["0 "] w))
     = Some (to_dict o1).
Proof.
  intros o w o1.
  apply (settings_text_fields_are_unchecked plain 0 o w " 6"
           (" " ++ no_break_space) "0 " []
           "New compiler: " set_compiler);
    [reflexivity | reflexivity | right; right; left; reflexivity].
Defined.

(** X20. The verbose setting is on exactly when the answer, stripped and
    lowered, is "y"; every other answer ("yes" and the blank line too)
    turns it off.  After "4", the answer and "0" the submenu returns the
    record with that flag and the options file holds it. *)
Theorem settings_verbose_answer tc fuel o w c a z rest :
  stdin w = c :: a :: z :: rest ->
  Str.strip c = "4" ->
  Str.strip z = "0" ->
  let o1 := set_verbose (String.eqb (Str.lower (Str.strip a)) "y") o in
  setup_compilation_options tc (S (S fuel)) o w
  = (Ret o1, saved tc o1 rest (answered tc o "Verbose (y/n): " (z :: rest) w))
  /\ options_file (saved tc o1 rest (answered tc o "Verbose (y/n): " (z :: rest) w))
     = Some (to_dict o1).
Proof.
  intros Hin Hc Hz o1.
  destruct (setup_turn_text tc o w c a (z :: rest) Hin) as (_ & _ & _ & H4).
  split; [| reflexivity].
  apply (setup_one_change tc fuel o w o1 _ z rest (H4 Hc) eq_refl Hz).
Qed.

Lemma settings_verbose_answer_witness :
  let o := options_of "/proj" "A" in
  (let w := world_of built_project ["4"; "Y" ++ no_break_space; "0"] in
   fst (setup_compilation_options plain 2 o w) = Ret (set_verbose true o))
  /\ (let w := world_of built_project ["4"; "yes"; "0"] in
      fst (setup_compilation_options plain 2 (set_verbose true o) w)
      = Ret (set_verbose false o)).
Proof.
  intros o. split.
  - intros w.
    destruct (settings_verbose_answer plain 0 o w "4" ("Y" ++ no_break_space) "0" []
                eq_refl eq_refl eq_refl) as [H _].
    rewrite H. reflexivity.
  - intros w.
    destruct (settings_verbose_answer plain 0 (set_verbose true o) w "4" "yes" "0" []
                eq_refl eq_refl eq_refl) as [H _].
    rewrite H. reflexivity.
Defined.

Lemma known_setting_false choice :
  known_setting choice = false ->
  String.eqb choice "1" = false /\ String.eqb choice "2" = false
  /\ String.eqb choice "3" = false /\ String.eqb choice "4" = false
  /\ String.eqb choice "5" = false /\ String.eqb choice "6" = false
  /\ String.eqb choice "0" = false.
Proof.
  unfold known_setting. cbn [existsb]. rewrite !orb_false_iff. tauto.
Qed.

(** X21. In the settings submenu, a line that, once stripped, is none of
    the seven choices changes no field: the turn writes the error and
    clears the screen, reads that one line only, and the submenu goes on
    with the same record and the next line. *)
Theorem settings_invalid_choice tc fuel o w line rest :
  stdin w = line :: rest ->
  known_setting (Str.strip line) = false ->
  let w1 :=
    with_stdin
      (evolve w (fs w)
         (setup_lines tc o
          ++ [Prompt EmptyString;
              Stderr (FAIL tc ++ "Error> Invalid choice! Try again." ++ ENDC tc);
              System clear_command]))
      rest in
  setup_turn tc o w = (Ret (true, o), w1)
  /\ setup_loop tc (S fuel) o w = setup_loop tc fuel o w1.
Proof.
  intros Hin Hunknown w1.
  destruct (known_setting_false _ Hunknown) as (E1 & E2 & E3 & E4 & E5 & E6 & E0).
  assert (Hturn : setup_turn tc o w = (Ret (true, o), w1)).
  { setup_turn_choice Hin. rewrite E1, E2, E3, E4, E5, E6, E0.
    unfold bind, eprint, os_system, ret. apply f_equal.
    apply world_ext; unfold w1, setup_lines;
      cbn [evolve emit with_stdin fs cwd argv stdin options_file log];
      rewrite <- ?app_assoc; reflexivity. }
  split; [exact Hturn |].
  cbn [setup_loop]. unfold bind at 1. rewrite Hturn. reflexivity.
Qed.

Lemma settings_invalid_choice_witness :
  let o := options_of "/proj" "A" in
  let w := world_of built_project ["7" ++ no_break_space; "0"] in
  let w1 :=
    with_stdin
      (evolve w (fs w)
         (setup_lines plain o
          ++ [Prompt EmptyString; Stderr "Error> Invalid choice! Try again.";
              System clear_command]))
      ["0"] in
  setup_turn plain o w = (Ret (true, o), w1)
  /\ setup_loop plain 2 o w = setup_loop plain 1 o w1.
Proof.
  intros o w.
  apply (settings_invalid_choice plain 1 o w ("7" ++ no_break_space) ["0"]);
    reflexivity.
Defined.

(** ** A whole session *)



